(** * curlftpfs: the per-open-file I/O engine of [ftpfs.c]

    A shallow embedding of the request-thread side of [ftpfs.c]: the read
    engine [ftpfs_read_chunk] with its sliding window, the producer side of
    the streaming upload ([ftpfs_write], [ftpfs_flush]) and the small
    dispatcher entries built on them ([ftpfs_read], [ftpfs_mknod],
    [ftpfs_truncate], [ftpfs_ftruncate]).

    Conventions.
    - C integers are [Z] with the conversions written out: [to_size_t]
      (64-bit unsigned), [to_off_t] (64-bit signed), [to_int] (32-bit signed).
    - The process-wide [struct ftpfs] is passed explicitly.  Its [calls]
      component records, in order, the library calls issued on the shared
      connection and on the multi handle.
    - A handle is passed as the address kept in [fi->fh], written [fi], with
      the [struct ftpfs_file] stored there, written [fh]; it is the address
      that [ftpfs.current_fh] is compared with.
    - What the transfer library, the server and the upload worker answer is an
      input of each function (the [*_answer] records).  The loop that waits for
      data consumes a finite script of such answers and yields [None] when the
      script ends while the loop would still wait.
    - [curl_easy_setopt_or_die] and the attach/detach calls are taken to
      succeed (their failure ends the process).  Semaphore waits are taken to
      be answered; what the worker thread wrote to the handle by then is part
      of the answer. *)

From Stdlib Require Import ZArith List String Ascii Bool Lia.
From Stdlib Require Import Init.Byte.
Import ListNotations.
Local Open Scope Z_scope.

(** ** Machine integers and constants *)

Definition to_size_t (z : Z) : Z := z mod 2 ^ 64.
Definition to_off_t (z : Z) : Z := (z + 2 ^ 63) mod 2 ^ 64 - 2 ^ 63.
Definition to_int (z : Z) : Z := (z + 2 ^ 31) mod 2 ^ 32 - 2 ^ 31.

Definition OFF_MAX : Z := 2 ^ 63 - 1.
Definition INT_MAX : Z := 2 ^ 31 - 1.

(** [<errno.h>] *)
Definition EPERM : Z := 1.
Definition ENOENT : Z := 2.
Definition EIO : Z := 5.
Definition ENOMEM : Z := 12.

(** [<sys/stat.h>] *)
Definition S_IFMT : Z := 61440.   (* 0170000 *)
Definition S_IFREG : Z := 32768.  (* 0100000 *)

(** [#define MAX_BUFFER_LEN (300*1024)] *)
Definition MAX_BUFFER_LEN : Z := 300 * 1024.

(** Modelled from the spec: [ftpfs.h] is not part of the sources; the read
    engine reports a failed pump as the distinguished [size_t] value BadRead,
    the all-ones word. *)
Definition CURLFTPFS_BAD_READ : Z := to_size_t (-1).

(** A [CURLcode]: an enumeration that starts at [CURLE_OK = 0]. *)
Definition CURLcode := N.
Definition CURLE_OK : CURLcode := 0%N.

(** ** Text produced by the printf family *)

Definition digit (d : Z) : ascii := ascii_of_nat (48 + Z.to_nat d).

Fixpoint digits (base : Z) (fuel : nat) (n : Z) (acc : string) : string :=
  match fuel with
  | O => acc
  | S fuel' =>
      let acc' := String (digit (n mod base)) acc in
      if n / base =? 0 then acc' else digits base fuel' (n / base) acc'
  end.

(** ["%lld"] *)
Definition lld (n : Z) : string :=
  if n <? 0 then String "-"%char (digits 10 20 (- n) EmptyString)
  else digits 10 20 n EmptyString.

Fixpoint pad0 (k : nat) (s : string) : string :=
  match k with
  | O => s
  | S k' => String "0"%char (pad0 k' s)
  end.

(** ["%.3o"]: octal, at least three digits *)
Definition o3 (n : Z) : string :=
  let s := digits 8 22 n EmptyString in
  pad0 (3 - String.length s) s.

(** What [snprintf(dst, cap, ...)] leaves in [dst]: at most [cap - 1]
    characters of the formatted text. *)
Fixpoint truncate (k : nat) (s : string) : string :=
  match k, s with
  | S k', String c s' => String c (truncate k' s')
  | _, _ => EmptyString
  end.

Definition snprintf (cap : nat) (text : string) : string :=
  truncate (cap - 1) text.

(** ** The byte buffer *)

Record buffer := mk_buffer {
  p : list byte;          (* the memory at [p]; the first [len] bytes are the content *)
  len : Z;                (* size_t *)
  begin_offset : Z        (* off_t *)
}.

(** The content of a buffer: the [len] bytes at [p]. *)
Definition content (b : buffer) : list byte := firstn (Z.to_nat (len b)) (p b).

(** Modelled from the spec: [buffer.c] is not part of the sources.  [init]
    gives the empty buffer; [clear] sets [len = 0] and keeps the memory;
    [append] adds the bytes after the content and fails on an allocation
    error, which is an input here. *)
Definition buf_init : buffer := mk_buffer [] 0 0.

Definition buf_clear (b : buffer) : buffer :=
  mk_buffer (p b) 0 (begin_offset b).

Definition buf_add_mem (b : buffer) (data : list byte) (alloc_ok : bool)
  : Z * buffer :=
  if alloc_ok
  then (0, mk_buffer (content b ++ data)
                     (to_size_t (len b + Z.of_nat (List.length data)))
                     (begin_offset b))
  else (-1, b).

(** [memcpy(dst, src + i, n)]: the [n] bytes at index [i]. *)
Definition bytes_at (mem : list byte) (i n : Z) : list byte :=
  firstn (Z.to_nat n) (skipn (Z.to_nat i) mem).

(** [memmove(mem, mem + i, n)]: the first [n] bytes are overwritten. *)
Definition memmove_front (mem : list byte) (i n : Z) : list byte :=
  bytes_at mem i n ++ skipn (Z.to_nat n) mem.

(** ** Per-open state: [struct ftpfs_file]

    The semaphores, [thread_id], [isready], [copied] and the error text are
    left out: the request thread never reads them in the functions below. *)

Record ftpfs_file := mk_ftpfs_file {
  buf : buffer;
  dirty : Z;
  last_offset : Z;         (* off_t *)
  can_shrink : Z;
  mode : Z;
  open_path : string;
  full_path : string;
  stream_buf : buffer;
  write_conn : bool;       (* [write_conn != NULL] *)
  eof : Z;
  written_flag : Z;
  write_fail_cause : Z;    (* int *)
  write_may_start : Z;
  pos : Z                  (* off_t *)
}.

Definition set_buf (b : buffer) (fh : ftpfs_file) : ftpfs_file :=
  mk_ftpfs_file b (dirty fh) (last_offset fh) (can_shrink fh) (mode fh)
    (open_path fh) (full_path fh) (stream_buf fh) (write_conn fh) (eof fh)
    (written_flag fh) (write_fail_cause fh) (write_may_start fh) (pos fh).

Definition set_last_offset (v : Z) (fh : ftpfs_file) : ftpfs_file :=
  mk_ftpfs_file (buf fh) (dirty fh) v (can_shrink fh) (mode fh)
    (open_path fh) (full_path fh) (stream_buf fh) (write_conn fh) (eof fh)
    (written_flag fh) (write_fail_cause fh) (write_may_start fh) (pos fh).

Definition set_stream_buf (b : buffer) (fh : ftpfs_file) : ftpfs_file :=
  mk_ftpfs_file (buf fh) (dirty fh) (last_offset fh) (can_shrink fh) (mode fh)
    (open_path fh) (full_path fh) b (write_conn fh) (eof fh)
    (written_flag fh) (write_fail_cause fh) (write_may_start fh) (pos fh).

Definition set_write_conn (v : bool) (fh : ftpfs_file) : ftpfs_file :=
  mk_ftpfs_file (buf fh) (dirty fh) (last_offset fh) (can_shrink fh) (mode fh)
    (open_path fh) (full_path fh) (stream_buf fh) v (eof fh)
    (written_flag fh) (write_fail_cause fh) (write_may_start fh) (pos fh).

Definition set_eof (v : Z) (fh : ftpfs_file) : ftpfs_file :=
  mk_ftpfs_file (buf fh) (dirty fh) (last_offset fh) (can_shrink fh) (mode fh)
    (open_path fh) (full_path fh) (stream_buf fh) (write_conn fh) v
    (written_flag fh) (write_fail_cause fh) (write_may_start fh) (pos fh).

Definition set_written_flag (v : Z) (fh : ftpfs_file) : ftpfs_file :=
  mk_ftpfs_file (buf fh) (dirty fh) (last_offset fh) (can_shrink fh) (mode fh)
    (open_path fh) (full_path fh) (stream_buf fh) (write_conn fh) (eof fh)
    v (write_fail_cause fh) (write_may_start fh) (pos fh).

Definition set_write_fail_cause (v : Z) (fh : ftpfs_file) : ftpfs_file :=
  mk_ftpfs_file (buf fh) (dirty fh) (last_offset fh) (can_shrink fh) (mode fh)
    (open_path fh) (full_path fh) (stream_buf fh) (write_conn fh) (eof fh)
    (written_flag fh) v (write_may_start fh) (pos fh).

Definition set_write_may_start (v : Z) (fh : ftpfs_file) : ftpfs_file :=
  mk_ftpfs_file (buf fh) (dirty fh) (last_offset fh) (can_shrink fh) (mode fh)
    (open_path fh) (full_path fh) (stream_buf fh) (write_conn fh) (eof fh)
    (written_flag fh) (write_fail_cause fh) v (pos fh).

Definition set_pos (v : Z) (fh : ftpfs_file) : ftpfs_file :=
  mk_ftpfs_file (buf fh) (dirty fh) (last_offset fh) (can_shrink fh) (mode fh)
    (open_path fh) (full_path fh) (stream_buf fh) (write_conn fh) (eof fh)
    (written_flag fh) (write_fail_cause fh) (write_may_start fh) v.

(** ** The shared connection: [struct ftpfs] *)

(** Where [CURLOPT_WRITEDATA] points: the read window of the handle at an
    address, or a buffer local to a metadata request. *)
Inductive write_target :=
| handle_buf (fi : Z)
| local_buf.

Inductive curl_option :=
| CURLOPT_URL (url : string)
| CURLOPT_WRITEDATA (t : write_target)
| CURLOPT_RANGE (range : option string)
| CURLOPT_INFILESIZE (n : Z)
| CURLOPT_UPLOAD (n : Z)
| CURLOPT_READDATA_NULL
| CURLOPT_POSTQUOTE (header : list string)
| CURLOPT_NOBODY (n : Z).

Inductive curl_call :=
| curl_easy_setopt (o : curl_option)
| curl_easy_perform
| curl_multi_add_handle
| curl_multi_remove_handle
| curl_multi_perform
| curl_multi_fdset
| select
| curl_multi_info_read.

Record ftpfs_t := mk_ftpfs {
  attached_to_multi : Z;
  current_fh : Z;          (* address of the handle that owns the download; 0 is NULL *)
  safe_nobody : Z;
  calls : list curl_call
}.

Definition call (c : curl_call) (g : ftpfs_t) : ftpfs_t :=
  mk_ftpfs (attached_to_multi g) (current_fh g) (safe_nobody g) (calls g ++ [c]).

Definition set_attached_to_multi (v : Z) (g : ftpfs_t) : ftpfs_t :=
  mk_ftpfs v (current_fh g) (safe_nobody g) (calls g).

Definition set_current_fh (v : Z) (g : ftpfs_t) : ftpfs_t :=
  mk_ftpfs (attached_to_multi g) v (safe_nobody g) (calls g).

Definition cancel_previous_multi (g : ftpfs_t) : ftpfs_t :=
  if attached_to_multi g =? 0 then g
  else set_attached_to_multi 0 (call curl_multi_remove_handle g).

Definition op_return (err : Z) (operation : string) : Z := err.

(** ** The read engine: [ftpfs_read_chunk] *)

(** One drive of the pump ([curl_multi_perform], repeated while the library
    asks to be called again): the chunks it hands to the write callback, each
    with the outcome of the allocation, and the handles still running. *)
Record perform_answer := mk_perform {
  delivered : list (list byte * bool);
  running : Z
}.

Definition CURLMSG_DONE : Z := 1.

Record CURLMsg := mk_msg {
  msg : Z;
  result : CURLcode
}.

Record read_answer := mk_read_answer {
  on_check_running : perform_answer;
  on_perform : perform_answer;
  on_select : list (Z * perform_answer);   (* [select]'s return code, then the pump *)
  on_info_read : list CURLMsg              (* the queue of completion messages *)
}.

(** The write callback of the shared connection; [data] is the [size * nmemb]
    bytes at [ptr]. *)
Definition read_data (data : list byte) (alloc_ok : bool) (b : buffer)
  : Z * buffer :=
  let (r, b') := buf_add_mem b data alloc_ok in
  if r =? -1 then (0, b') else (to_size_t (Z.of_nat (List.length data)), b').

Definition deliver (a : perform_answer) (fh : ftpfs_file) : ftpfs_file :=
  fold_left
    (fun fh' (chunk : list byte * bool) =>
       set_buf (snd (read_data (fst chunk) (snd chunk) (buf fh'))) fh')
    (delivered a) fh.

Definition check_running (a : perform_answer) (g : ftpfs_t) (fh : ftpfs_file)
  : Z * ftpfs_t * ftpfs_file :=
  (running a, call curl_multi_perform g, deliver a fh).

(** [size + offset - fh->buf.begin_offset], computed in [size_t]. *)
Definition wanted (fh : ftpfs_file) (size offset : Z) : Z :=
  to_size_t (size + offset - begin_offset (buf fh)).

(** [offset > fh->buf.begin_offset + fh->buf.len], compared in [size_t]. *)
Definition past_window (fh : ftpfs_file) (offset : Z) : bool :=
  to_size_t (begin_offset (buf fh) + len (buf fh)) <? to_size_t offset.

(** The outer test: "We can't answer this from cache". *)
Definition cache_miss (fh : ftpfs_file) (size offset : Z) : bool :=
  (len (buf fh) <? wanted fh size offset)
  || (offset <? begin_offset (buf fh))
  || past_window fh offset.

(** The inner test; [check_running] is only reached when the first three
    disjuncts are false. *)
Definition must_restart (fi offset : Z) (a : perform_answer)
    (g : ftpfs_t) (fh : ftpfs_file) : bool * ftpfs_t * ftpfs_file :=
  if negb (current_fh g =? fi)
     || (offset <? begin_offset (buf fh))
     || past_window fh offset
  then (true, g, fh)
  else
    let '(r, g', fh') := check_running a g fh in
    (r =? 0, g', fh').

(** "We need to restart the connection". *)
Definition restart_transfer (full_path : string) (offset fi : Z)
    (g : ftpfs_t) (fh : ftpfs_file) : ftpfs_t * ftpfs_file :=
  let b := buf_clear (buf fh) in
  let fh := set_buf (mk_buffer (p b) (len b) offset) fh in
  let g := set_current_fh fi g in
  let g := cancel_previous_multi g in
  let g := call (curl_easy_setopt (CURLOPT_URL full_path)) g in
  let g := call (curl_easy_setopt (CURLOPT_WRITEDATA (handle_buf fi))) g in
  let g :=
    if offset =? 0 then g
    else call (curl_easy_setopt
                 (CURLOPT_RANGE (Some (snprintf 15 (lld offset ++ "-"))))) g in
  let g := call curl_multi_add_handle g in
  (set_attached_to_multi 1 g, fh).

(** The [select] loop: runs while the window is short of the request and
    handles are running.  The result carries [err] and [running_handles]. *)
Fixpoint wait_for_data (script : list (Z * perform_answer)) (size offset : Z)
    (g : ftpfs_t) (fh : ftpfs_file) (running_handles : Z)
  : option (Z * Z * ftpfs_t * ftpfs_file) :=
  if (len (buf fh) <? wanted fh size offset) && negb (running_handles =? 0)
  then
    match script with
    | [] => None
    | (rc, a) :: script' =>
        let g := call select (call curl_multi_fdset g) in
        if rc =? -1 then Some (1, running_handles, g, fh)
        else wait_for_data script' size offset
               (call curl_multi_perform g) (deliver a fh) (running a)
    end
  else Some (0, running_handles, g, fh).

(** The completion check: [curl_multi_info_read] until [msgs_left] is 0. *)
Fixpoint read_messages (queue : list CURLMsg) (err : Z) (g : ftpfs_t)
  : Z * ftpfs_t :=
  let g := call curl_multi_info_read g in
  match queue with
  | [] => (1, g)                       (* [msg == NULL] *)
  | m :: queue' =>
      let err :=
        if negb (msg m =? CURLMSG_DONE) || negb (result m =? CURLE_OK)%N
        then 1 else err in
      match queue' with
      | [] => (err, g)
      | _ :: _ => read_messages queue' err g
      end
  end.

(** The pump: the first drive, the [select] loop and the completion check.
    The result is [err] with the state. *)
Definition pump_window (size offset : Z)
    (a : read_answer) (g : ftpfs_t) (fh : ftpfs_file)
  : option (Z * ftpfs_t * ftpfs_file) :=
  let g := call curl_multi_perform g in
  let fh := deliver (on_perform a) fh in
  let g := call (curl_easy_setopt (CURLOPT_RANGE None)) g in
  match wait_for_data (on_select a) size offset g fh (running (on_perform a)) with
  | None => None
  | Some (err, running_handles, g, fh) =>
      if running_handles =? 0
      then let (err, g) := read_messages (on_info_read a) err g in
           Some (err, g, fh)
      else Some (err, g, fh)
  end.

(** Everything under "We can't answer this from cache": the window when the
    request is served, and [err]. *)
Definition fill_window (full_path : string) (size offset fi : Z)
    (a : read_answer) (g : ftpfs_t) (fh : ftpfs_file)
  : option (Z * ftpfs_t * ftpfs_file) :=
  if cache_miss fh size offset then
    let '(restart, g, fh) := must_restart fi offset (on_check_running a) g fh in
    let '(g, fh) :=
      if restart then restart_transfer full_path offset fi g fh else (g, fh) in
    pump_window size offset a g fh
  else Some (0, g, fh).

(** [to_copy = fh->buf.len + fh->buf.begin_offset - offset] and the clamped
    [size]. *)
Definition to_copy (fh : ftpfs_file) (offset : Z) : Z :=
  to_size_t (len (buf fh) + begin_offset (buf fh) - offset).

Definition served (fh : ftpfs_file) (size offset : Z) : Z :=
  if size >? to_copy fh offset then to_copy fh offset else size.

(** The copy into [rbuf] ([None] when [rbuf] is [NULL]) and [last_offset]. *)
Definition serve (rbuf : bool) (size offset update_offset : Z)
    (fh : ftpfs_file) : option (list byte) * ftpfs_file :=
  let size := served fh size offset in
  (if rbuf
   then Some (bytes_at (p (buf fh)) (offset - begin_offset (buf fh)) size)
   else None,
   if update_offset =? 0 then fh
   else set_last_offset (to_off_t (offset + size)) fh).

(** "Check if the buffer is growing and we can delete a part of it";
    [size] is the clamped size. *)
Definition shrink (size offset : Z) (fh : ftpfs_file) : ftpfs_file :=
  if negb (can_shrink fh =? 0) && (len (buf fh) >? MAX_BUFFER_LEN)
  then
    let tail := to_size_t (to_copy fh offset - size) in
    set_buf (mk_buffer
               (memmove_front (p (buf fh))
                  (offset - begin_offset (buf fh) + size) tail)
               tail
               (to_off_t (offset + size))) fh
  else fh.

(** From [to_copy = ...] to the end: the request is answered from the window
    [fill_window] has left. *)
Definition answer_request (rbuf : bool) (size offset update_offset : Z)
    (w : Z * ftpfs_t * ftpfs_file)
  : Z * option (list byte) * ftpfs_t * ftpfs_file :=
  let '(err, g, fh) := w in
  let size' := served fh size offset in
  let (out, fh') := serve rbuf size offset update_offset fh in
  let fh'' := shrink size' offset fh' in
  (if err =? 0 then size' else CURLFTPFS_BAD_READ, out, g, fh'').

Definition ftpfs_read_chunk (full_path : string) (rbuf : bool)
    (size offset fi update_offset : Z)
    (a : read_answer) (g : ftpfs_t) (fh : ftpfs_file)
  : option (Z * option (list byte) * ftpfs_t * ftpfs_file) :=
  option_map (answer_request rbuf size offset update_offset)
    (fill_window full_path size offset fi a g fh).

(** ** Requests on the shared connection *)

Section Dispatcher.

(** [path_utils.h] is not part of the sources: the path helpers are taken as
    they come. *)
Variable get_full_path : string -> string.
Variable get_dir_path : string -> string.
Variable get_file_name : string -> string.

(** What a directory listing answers: the result of the transfer, which
    [ftpfs_getattr] only logs, and the size [parse_dir] stores in [sbuf] when
    it finds the name. *)
Record getattr_answer := mk_getattr_answer {
  listing_res : CURLcode;
  parsed_size : option Z
}.

Definition ftpfs_getattr (path : string) (a : getattr_answer) (g : ftpfs_t)
  : Z * option Z * ftpfs_t :=
  let g := cancel_previous_multi g in
  let g := call (curl_easy_setopt (CURLOPT_URL (get_dir_path path))) g in
  let g := call (curl_easy_setopt (CURLOPT_WRITEDATA local_buf)) g in
  let g := call curl_easy_perform g in
  match parsed_size a with
  | None => (op_return (- ENOENT) "ftpfs_getattr", None, g)
  | Some st_size => (0, Some st_size, g)
  end.

Definition test_size (path : string) (a : getattr_answer) (g : ftpfs_t)
  : Z * ftpfs_t :=
  match ftpfs_getattr path a g with
  | (err, Some st_size, g) => (if err =? 0 then st_size else err, g)
  | (err, None, g) => (err, g)
  end.

Definition create_empty_file (path : string) (curl_res : CURLcode)
    (g : ftpfs_t) : Z * ftpfs_t :=
  let g := cancel_previous_multi g in
  let g := call (curl_easy_setopt (CURLOPT_URL (get_full_path path))) g in
  let g := call (curl_easy_setopt (CURLOPT_INFILESIZE 0)) g in
  let g := call (curl_easy_setopt (CURLOPT_UPLOAD 1)) g in
  let g := call (curl_easy_setopt CURLOPT_READDATA_NULL) g in
  let g := call curl_easy_perform g in
  let g := call (curl_easy_setopt (CURLOPT_UPLOAD 0)) g in
  (if (curl_res =? 0)%N then 0 else - EPERM, g).

Definition ftpfs_do_cmd (header : list string) (path : string)
    (curl_res : CURLcode) (g : ftpfs_t) : Z * ftpfs_t :=
  let g := cancel_previous_multi g in
  let g := call (curl_easy_setopt (CURLOPT_POSTQUOTE header)) g in
  let g := call (curl_easy_setopt (CURLOPT_URL (get_dir_path path))) g in
  let g := call (curl_easy_setopt (CURLOPT_WRITEDATA local_buf)) g in
  let g := call (curl_easy_setopt (CURLOPT_NOBODY (safe_nobody g))) g in
  let g := call curl_easy_perform g in
  let g := call (curl_easy_setopt (CURLOPT_POSTQUOTE [])) g in
  let g := call (curl_easy_setopt (CURLOPT_NOBODY 0)) g in
  (if (curl_res =? 0)%N then 0 else - EPERM, g).

(** ["SITE CHMOD %.3o %s"] *)
Definition site_chmod (mode_c : Z) (filename : string) : string :=
  ("SITE CHMOD " ++ o3 mode_c ++ " " ++ filename)%string.

Definition ftpfs_chmod (path : string) (mode : Z) (curl_res : CURLcode)
    (g : ftpfs_t) : Z * ftpfs_t :=
  let filename := get_file_name path in
  let mode_c := to_int ((mode - mode / 4096 * 4096) mod 2 ^ 32) in
  let (err, g) := ftpfs_do_cmd [site_chmod mode_c filename] path curl_res g in
  (op_return err "ftpfs_chmod", g).

Definition ftpfs_mknod (path : string) (mode : Z)
    (create_res chmod_res : CURLcode) (g : ftpfs_t) : Z * ftpfs_t :=
  if negb (Z.land mode S_IFMT =? S_IFREG) then (- EPERM, g)
  else
    let (err, g) := create_empty_file path create_res g in
    let g := if err =? 0 then snd (ftpfs_chmod path mode chmod_res g) else g in
    (op_return err "ftpfs_mknod", g).

Definition ftpfs_truncate (path : string) (offset : Z)
    (create_res : CURLcode) (a : getattr_answer) (g : ftpfs_t)
  : Z * ftpfs_t :=
  if offset =? 0
  then let (err, g) := create_empty_file path create_res g in
       (op_return err "ftpfs_truncate", g)
  else
    let (size, g) := test_size path a g in
    if offset =? size then (op_return 0 "ftpfs_ftruncate", g)
    else (op_return (- EPERM) "ftpfs_truncate", g).

Definition ftpfs_ftruncate (path : string) (offset : Z)
    (create_res : CURLcode) (a : getattr_answer)
    (g : ftpfs_t) (fh : ftpfs_file) : Z * ftpfs_t * ftpfs_file :=
  if offset =? 0
  then
    if pos fh =? 0
    then
      let fh := set_write_may_start 1 fh in
      let (err, g) := create_empty_file (open_path fh) create_res g in
      (op_return err "ftpfs_ftruncate", g, fh)
    else (op_return (- EPERM) "ftpfs_ftruncate", g, fh)
  else
    let (size, g) := test_size path a g in
    if offset =? size then (op_return 0 "ftpfs_ftruncate", g, fh)
    else (op_return (- EPERM) "ftpfs_ftruncate", g, fh).

Definition ftpfs_read (path : string) (rbuf : bool) (size offset fi : Z)
    (a : read_answer) (g : ftpfs_t) (fh : ftpfs_file)
  : option (Z * option (list byte) * ftpfs_t * ftpfs_file) :=
  if (pos fh >? 0) || write_conn fh
  then Some (op_return (- EIO) "ftpfs_read", None, g, fh)
  else
    match ftpfs_read_chunk (get_full_path path) rbuf size offset fi 1 a g fh with
    | None => None
    | Some (size_read, out, g, fh) =>
        let ret := if size_read =? CURLFTPFS_BAD_READ then - EIO
                   else to_int size_read in
        Some (ret, out, g, fh)
    end.

(** ** The producer side of the upload *)

(** What the worker thread writes on its way out: the cause of a failed
    transfer. *)
Definition ftpfs_write_thread_exit (curl_res : CURLcode) (fh : ftpfs_file)
  : ftpfs_file :=
  if (curl_res =? CURLE_OK)%N then fh
  else set_write_fail_cause (Z.of_N curl_res) fh.

Record start_answer := mk_start_answer {
  curl_easy_init_ok : bool;
  pthread_create_err : Z
}.

(** "returns 1 on success, 0 on failure" *)
Definition start_write_thread (a : start_answer) (fh : ftpfs_file)
  : Z * ftpfs_file :=
  let fh := set_written_flag 0 fh in
  let fh := set_eof 0 fh in
  if curl_easy_init_ok a
  then
    let fh := set_write_conn true fh in
    if pthread_create_err a =? 0 then (1, fh) else (0, fh)
  else (0, set_write_conn false fh).

(** On a handle whose upload has a worker: [curl_res] is what the transfer of
    the worker ends with; a worker that has recorded a failure has ended
    before.  (A handle on which [pthread_create] has failed keeps [write_conn]
    without a worker; there the wait on [data_need] is not answered and the
    call does not return, see [ftpfs_flush_joining].) *)
Definition finish_write_thread (curl_res : CURLcode) (fh : ftpfs_file)
  : Z * ftpfs_file :=
  let joined :=
    if write_fail_cause fh =? 0
    then ftpfs_write_thread_exit curl_res (set_eof 1 fh)
    else set_eof 1 fh in
  let fh := set_write_conn false joined in
  (if write_fail_cause fh =? 0 then 0 else - EIO, fh).

(** The wait on [data_written] is answered by the read callback, which has
    emptied [stream_buf], or by the worker on its way out. *)
Inductive handoff_answer :=
| consumed
| worker_exited (curl_res : CURLcode).

Definition handoff (a : handoff_answer) (fh : ftpfs_file) : ftpfs_file :=
  match a with
  | consumed =>
      set_stream_buf (mk_buffer (p (stream_buf fh)) 0
                        (begin_offset (stream_buf fh))) fh
  | worker_exited curl_res => ftpfs_write_thread_exit curl_res fh
  end.

Record write_answer := mk_write_answer {
  on_test_size : getattr_answer;
  on_start : start_answer;
  on_buf_add_mem : bool;
  on_data_written : handoff_answer;
  on_join : CURLcode
}.

(** The part of [ftpfs_write] under [if (fh->write_conn)]. *)
Definition write_chunk (wbuf : list byte) (size offset : Z)
    (a : write_answer) (g : ftpfs_t) (fh : ftpfs_file)
  : Z * ftpfs_t * ftpfs_file :=
  if write_conn fh then
    if negb (offset =? pos fh)
    then
      let (_, fh) := finish_write_thread (on_join a) fh in
      (op_return (- EIO) "ftpfs_write", g, fh)
    else
      let (r, sb) := buf_add_mem (stream_buf fh) (bytes_at wbuf 0 size)
                       (on_buf_add_mem a) in
      if r =? -1 then (op_return (- ENOMEM) "ftpfs_write", g, fh)
      else
        let fh := set_stream_buf sb fh in
        let fh := set_pos (to_off_t (pos fh + size)) fh in
        let fh := handoff (on_data_written a) fh in
        let fh := set_written_flag 0 fh in
        if negb (write_fail_cause fh =? 0)
        then (op_return (- EIO) "ftpfs_write", g, fh)
        else (to_int size, g, fh)
  else (to_int size, g, fh).

(** "starting a streaming write": [Some r] is an early [return r]. *)
Definition start_streaming (path : string) (offset : Z)
    (a : write_answer) (g : ftpfs_t) (fh : ftpfs_file)
  : option Z * ftpfs_t * ftpfs_file :=
  if negb (write_conn fh) && (pos fh =? 0) && (offset =? 0)
  then
    (* check if the file has been truncated to zero or has been newly created *)
    let '(refused, g) :=
      if write_may_start fh =? 0
      then let (path_size, g) := test_size path (on_test_size a) g in
           (negb (path_size =? 0), g)
      else (false, g) in
    if refused then (Some (op_return (- EIO) "ftpfs_write"), g, fh)
    else
      let (success, fh) := start_write_thread (on_start a) fh in
      if success =? 0 then (Some (op_return (- EIO) "ftpfs_write"), g, fh)
      else (None, g, fh)
  else (None, g, fh).

(** "resuming a streaming write" *)
Definition resume_streaming (offset : Z)
    (a : write_answer) (g : ftpfs_t) (fh : ftpfs_file)
  : option Z * ftpfs_t * ftpfs_file :=
  if negb (write_conn fh) && (pos fh >? 0) && (offset =? pos fh)
  then
    let (success, fh) := start_write_thread (on_start a) fh in
    if success =? 0 then (Some (op_return (- EIO) "ftpfs_write"), g, fh)
    else (None, g, fh)
  else (None, g, fh).

Definition ftpfs_write (path : string) (wbuf : list byte) (size offset : Z)
    (a : write_answer) (g : ftpfs_t) (fh : ftpfs_file)
  : Z * ftpfs_t * ftpfs_file :=
  if negb (write_fail_cause fh =? 0) then (- EIO, g, fh)
  else
    match start_streaming path offset a g fh with
    | (Some r, g, fh) => (r, g, fh)
    | (None, g, fh) =>
        match resume_streaming offset a g fh with
        | (Some r, g, fh) => (r, g, fh)
        | (None, g, fh) => write_chunk wbuf size offset a g fh
        end
    end.

Record flush_answer := mk_flush_answer {
  on_finish : CURLcode;
  on_getattr : getattr_answer
}.

Definition ftpfs_flush (path : string) (a : flush_answer)
    (g : ftpfs_t) (fh : ftpfs_file) : Z * ftpfs_t * ftpfs_file :=
  if write_conn fh then
    let (err, fh) := finish_write_thread (on_finish a) fh in
    if negb (err =? 0) then (op_return err "ftpfs_flush", g, fh)
    else
      match ftpfs_getattr path (on_getattr a) g with
      | (err, None, g) => (op_return err "ftpfs_flush", g, fh)
      | (err, Some st_size, g) =>
          if negb (err =? 0) then (op_return err "ftpfs_flush", g, fh)
          else if negb (st_size =? pos fh)
          then (op_return (- EIO) "ftpfs_flush", g,
                set_write_fail_cause (-999) fh)
          else (0, g, fh)
      end
  else if dirty fh =? 0 then (0, g, fh)
  else (op_return (- EIO) "ftpfs_flush", g, fh).

End Dispatcher.

(** * The rest of the dispatcher and the worker side of the upload *)

(** [<errno.h>] and [<fcntl.h>] *)
Definition EACCES : Z := 13.
Definition ENOTSUP : Z := 95.

Definition O_ACCMODE : Z := 3.
Definition O_RDONLY : Z := 0.
Definition O_WRONLY : Z := 1.
Definition O_RDWR : Z := 2.
Definition O_CREAT : Z := 64.     (* 0100 *)
Definition O_EXCL : Z := 128.     (* 0200 *)
Definition O_TRUNC : Z := 512.    (* 01000 *)
Definition O_APPEND : Z := 1024.  (* 02000 *)

Definition set_can_shrink (v : Z) (fh : ftpfs_file) : ftpfs_file :=
  mk_ftpfs_file (buf fh) (dirty fh) (last_offset fh) v (mode fh)
    (open_path fh) (full_path fh) (stream_buf fh) (write_conn fh) (eof fh)
    (written_flag fh) (write_fail_cause fh) (write_may_start fh) (pos fh).

(** [flags & bit] as a C condition. *)
Definition has (flags bit : Z) : bool := negb (Z.land flags bit =? 0).

(** ** The read callback of an upload: [write_data_bg] *)

Inductive sem := ready | data_avail | data_need | data_written.

Inductive sem_op :=
| sem_post (s : sem)
| sem_wait (s : sem).

(** Up to the wait on [data_avail]: the semaphore operations and [isready]. *)
Definition write_data_bg_enter (isready : Z) (fh : ftpfs_file)
  : list sem_op * Z :=
  let first := if isready =? 0 then [sem_post ready] else [] in
  let done :=
    if (len (stream_buf fh) =? 0) && negb (written_flag fh =? 0)
    then [sem_post data_written] else [] in
  (first ++ done ++ [sem_wait data_avail], 1).

(** After the wait: the bytes copied to [ptr], the return value, the
    semaphore posted, and the handle.  [size * nmemb] is computed in
    [size_t]. *)
Definition write_data_bg_take (size nmemb : Z) (fh : ftpfs_file)
  : Z * list byte * list sem_op * ftpfs_file :=
  if negb (eof fh =? 0) then (0, [], [], fh)
  else
    let sb := stream_buf fh in
    let to_copy := to_size_t (size * nmemb) in
    let to_copy := if to_copy >? len sb then len sb else to_copy in
    let out := bytes_at (p sb) 0 to_copy in
    if len sb >? to_copy
    then
      let newlen := to_size_t (len sb - to_copy) in
      (to_copy, out, [sem_post data_avail],
       set_stream_buf
         (mk_buffer (memmove_front (p sb) to_copy newlen) newlen
            (begin_offset sb)) fh)
    else
      (to_copy, out, [sem_post data_need],
       set_written_flag 1
         (set_stream_buf (mk_buffer (p sb) 0 (begin_offset sb)) fh)).

(** The callbacks the library makes for one chunk: each asks for [nmemb]
    bytes ([size] is 1); a callback that has posted [data_avail] is followed
    by the next one, a callback that has emptied the buffer or has seen [eof]
    is the last.  The result is the bytes handed to the library, the
    semaphores posted, and the handle. *)
Fixpoint drain (requests : list Z) (fh : ftpfs_file)
  : list byte * list sem_op * ftpfs_file :=
  match requests with
  | [] => ([], [], fh)
  | nmemb :: requests' =>
      let '(_, out, ops, fh') := write_data_bg_take 1 nmemb fh in
      match ops with
      | [sem_post data_avail] =>
          let '(out', ops', fh'') := drain requests' fh' in
          (out ++ out', ops ++ ops', fh'')
      | _ => (out, ops, fh')
      end
  end.

(** ** The worker thread: [ftpfs_write_thread] *)

(** The options the worker sets on its own connection. *)
Inductive upload_call :=
| upload_url (url : string)
| upload_flag (n : Z)              (* CURLOPT_UPLOAD *)
| upload_readfunction_bg           (* CURLOPT_READFUNCTION, write_data_bg *)
| upload_readdata                  (* CURLOPT_READDATA, the handle *)
| upload_low_speed_limit (n : Z)
| upload_low_speed_time (n : Z)
| upload_errorbuffer
| upload_append (n : Z)
| upload_perform.

(** [isready] is what the callback has left; [curl_res] is what the transfer
    ends with.  The result is the calls on the connection of the upload, the
    semaphores posted on the way out, and the handle. *)
Definition ftpfs_write_thread (isready : Z) (curl_res : CURLcode)
    (fh : ftpfs_file) : list upload_call * list sem_op * ftpfs_file :=
  (  [ upload_url (full_path fh); upload_flag 1; upload_readfunction_bg;
       upload_readdata; upload_low_speed_limit 1; upload_low_speed_time 60;
       upload_errorbuffer ]
     ++ (if pos fh >? 0 then [upload_append 1] else [])
     ++ [upload_perform; upload_flag 0],
     (if isready =? 0 then [sem_post ready] else [])
     ++ (if (curl_res =? CURLE_OK)%N then [] else [sem_post data_need])
     ++ [sem_post data_written],
     ftpfs_write_thread_exit curl_res fh ).

(** ** The upload callback of the shared connection: [write_data]

    [data] is [None] for a [NULL] handle, else the window and [copied]. *)
Definition write_data (size nmemb : Z) (data : option (buffer * Z))
  : Z * list byte * option (buffer * Z) :=
  match data with
  | None => (0, [], None)
  | Some (b, copied) =>
      let to_copy := to_size_t (size * nmemb) in
      let to_copy :=
        if to_copy >? to_size_t (len b - copied)
        then to_size_t (len b - copied) else to_copy in
      (to_copy, bytes_at (p b) copied to_copy,
       Some (b, to_int (to_size_t (copied + to_copy))))
  end.

Section Entries.

Variable get_full_path : string -> string.
Variable get_dir_path : string -> string.
Variable get_fulldir_path : string -> string.
Variable get_file_name : string -> string.

(** [ftpfs.host], [ftpfs.codepage] and the conversion from [ftpfs.iocharset]
    to it ([charset_utils.h] is not part of the sources). *)
Variable host : string.
Variable codepage : option string.
Variable convert_charsets : string -> string.

(** [CURLFTPFS_O_RW_WORKAROUND] of [config.h], not part of the sources. *)
Variable O_RW_WORKAROUND : bool.

(** ** Listings *)

Definition ftpfs_getdir (path : string) (curl_res : CURLcode) (g : ftpfs_t)
  : Z * ftpfs_t :=
  let g := cancel_previous_multi g in
  let g := call (curl_easy_setopt (CURLOPT_URL (get_fulldir_path path))) g in
  let g := call (curl_easy_setopt (CURLOPT_WRITEDATA local_buf)) g in
  let g := call curl_easy_perform g in
  (op_return (if (curl_res =? 0)%N then 0 else - EIO) "ftpfs_getdir", g).

(** [found] tells whether [parse_dir] finds the link. *)
Definition ftpfs_readlink (path : string) (found : bool) (g : ftpfs_t)
  : Z * ftpfs_t :=
  let g := cancel_previous_multi g in
  let g := call (curl_easy_setopt (CURLOPT_URL (get_dir_path path))) g in
  let g := call (curl_easy_setopt (CURLOPT_WRITEDATA local_buf)) g in
  let g := call curl_easy_perform g in
  (if found then op_return 0 "ftpfs_readlink"
   else op_return (- ENOENT) "ftpfs_readlink", g).

Definition test_exists (path : string) (a : getattr_answer) (g : ftpfs_t)
  : Z * ftpfs_t :=
  let '(err, _, g) := ftpfs_getattr get_dir_path path a g in (err, g).

(** ** Server commands *)

(** The body of [ftpfs_do_cmd] once [url] is chosen: the directory of [path],
    or [ftpfs.host] for a [NULL] path. *)
Definition ftpfs_do_cmd_at (header : list string) (url : string)
    (curl_res : CURLcode) (g : ftpfs_t) : Z * ftpfs_t :=
  let g := cancel_previous_multi g in
  let g := call (curl_easy_setopt (CURLOPT_POSTQUOTE header)) g in
  let g := call (curl_easy_setopt (CURLOPT_URL url)) g in
  let g := call (curl_easy_setopt (CURLOPT_WRITEDATA local_buf)) g in
  let g := call (curl_easy_setopt (CURLOPT_NOBODY (safe_nobody g))) g in
  let g := call curl_easy_perform g in
  let g := call (curl_easy_setopt (CURLOPT_POSTQUOTE [])) g in
  let g := call (curl_easy_setopt (CURLOPT_NOBODY 0)) g in
  (if (curl_res =? 0)%N then 0 else - EPERM, g).

(** ["%i"] of a [uid_t] or [gid_t]: the 32 bits read as an [int]. *)
Definition percent_i (n : Z) : string := lld (to_int n).

Definition ftpfs_chown (path : string) (uid gid : Z) (curl_res : CURLcode)
    (g : ftpfs_t) : Z * ftpfs_t :=
  let filename := get_file_name path in
  let cmd := ("SITE CHUID " ++ percent_i uid ++ " " ++ filename)%string in
  let cmd2 := ("SITE CHGID " ++ percent_i gid ++ " " ++ filename)%string in
  let (err, g) := ftpfs_do_cmd get_dir_path [cmd; cmd2] path curl_res g in
  (op_return err "ftpfs_chown", g).

Definition ftpfs_rmdir (path : string) (curl_res : CURLcode) (g : ftpfs_t)
  : Z * ftpfs_t :=
  let cmd := ("RMD " ++ get_file_name path)%string in
  let (err, g) := ftpfs_do_cmd get_dir_path [cmd] path curl_res g in
  (op_return err "ftpfs_rmdir", g).

Definition ftpfs_mkdir (path : string) (mode : Z)
    (mkd_res chmod_res : CURLcode) (g : ftpfs_t) : Z * ftpfs_t :=
  let cmd := ("MKD " ++ get_file_name path)%string in
  let (err, g) := ftpfs_do_cmd get_dir_path [cmd] path mkd_res g in
  let g :=
    if err =? 0
    then snd (ftpfs_chmod get_dir_path get_file_name path mode chmod_res g)
    else g in
  (op_return err "ftpfs_mkdir", g).

Definition ftpfs_unlink (path : string) (curl_res : CURLcode) (g : ftpfs_t)
  : Z * ftpfs_t :=
  let cmd := ("DELE " ++ get_file_name path)%string in
  let (err, g) := ftpfs_do_cmd get_dir_path [cmd] path curl_res g in
  (op_return err "ftpfs_unlink", g).

(** [s + 1]: the text after the first character. *)
Definition after_first (s : string) : string :=
  match s with
  | EmptyString => EmptyString
  | String _ s' => s'
  end.

Definition ftpfs_rename (from to : string) (curl_res : CURLcode)
    (g : ftpfs_t) : Z * ftpfs_t :=
  let rnfr := ("RNFR " ++ after_first from)%string in
  let rnto := ("RNTO " ++ after_first to)%string in
  let '(rnfr, rnto) :=
    match codepage with
    | Some _ => (convert_charsets rnfr, convert_charsets rnto)
    | None => (rnfr, rnto)
    end in
  let (err, g) := ftpfs_do_cmd_at [rnfr; rnto] host curl_res g in
  (op_return err "ftpfs_rename", g).

Definition ftpfs_utime (path : string) : Z := op_return 0 "ftpfs_utime".

(** ** open, create, fsync, release *)

(** [on_open_ready] answers the wait on [ready] after the worker has been
    started: [None] when the read callback has posted it and the transfer
    goes on, [Some curl_res] when the worker has posted it on its way out of
    a transfer that has ended with [curl_res] and has recorded the cause of a
    failure by the time the open returns. *)
Record open_answer := mk_open_answer {
  on_mknod_create : CURLcode;
  on_mknod_chmod : CURLcode;
  on_probe : read_answer;
  on_exists : getattr_answer;
  on_open_start : start_answer;
  on_open_ready : option CURLcode;
  on_open_chmod : CURLcode
}.

(** The handle as set up before the flags are looked at. *)
Definition new_handle (path : string) (mode : Z) : ftpfs_file :=
  mk_ftpfs_file buf_init 0 0 0 mode path (get_full_path path) buf_init
    false 0 0 0 0 0.

(** The write-open part, after the read-write test: [err] and the handle. *)
Definition open_for_writing (path : string) (mode flags : Z)
    (a : open_answer) (g : ftpfs_t) (fh : ftpfs_file)
  : Z * ftpfs_t * ftpfs_file :=
  let err := if has flags O_APPEND then - ENOTSUP else 0 in
  let '(err, g) :=
    if has flags O_EXCL
    then
      let (exists_r, g) := test_exists path (on_exists a) g in
      (if negb (exists_r =? - ENOENT) then - EACCES else err, g)
    else (err, g) in
  if err =? 0
  then
    if has flags O_CREAT || has flags O_TRUNC
    then
      let fh := set_write_may_start 1 fh in
      let (success, fh) := start_write_thread (on_open_start a) fh in
      if negb (success =? 0)
      then
        let fh :=
          match on_open_ready a with
          | Some curl_res => ftpfs_write_thread_exit curl_res fh
          | None => fh
          end in
        let g :=
          if has flags O_CREAT
          then snd (ftpfs_chmod get_dir_path get_file_name path mode
                      (on_open_chmod a) g)
          else g in
        (err, g, fh)
      else (- EIO, g, fh)
    else (err, g, set_write_may_start 0 fh)
  else (err, g, fh).

(** [fi] is the address of the new handle.  The handle in the result is
    [None] when it has been freed. *)
Definition ftpfs_open_common (path : string) (mode flags fi : Z)
    (a : open_answer) (g : ftpfs_t)
  : option (Z * ftpfs_t * option ftpfs_file) :=
  let fh := new_handle path mode in
  let fin (r : Z * ftpfs_t * ftpfs_file) :=
    let '(err, g, fh) := r in
    (op_return err "ftpfs_open", g, if err =? 0 then Some fh else None) in
  if Z.land flags O_ACCMODE =? O_RDONLY
  then
    if has flags O_CREAT
    then
      let (err, g) :=
        ftpfs_mknod get_full_path get_dir_path get_file_name path
          (Z.lor (Z.land mode 4095) S_IFREG)
          (on_mknod_create a) (on_mknod_chmod a) g in
      Some (fin (err, g, fh))
    else
      let fh := set_can_shrink 1 fh in
      match ftpfs_read_chunk (full_path fh) false 1 0 fi 0 (on_probe a) g fh with
      | None => None
      | Some (size, _, g, fh) =>
          Some (fin (if size =? CURLFTPFS_BAD_READ then - EACCES else 0, g, fh))
      end
  else if (Z.land flags O_ACCMODE =? O_RDWR)
          || (Z.land flags O_ACCMODE =? O_WRONLY)
  then
    if negb O_RW_WORKAROUND && (Z.land flags O_ACCMODE =? O_RDWR)
    then Some (fin (- ENOTSUP, g, fh))
    else Some (fin (open_for_writing path mode flags a g fh))
  else Some (fin (- EIO, g, fh)).

Definition ftpfs_open (path : string) (flags fi : Z)
    (a : open_answer) (g : ftpfs_t) :=
  ftpfs_open_common path 0 flags fi a g.

Definition ftpfs_create (path : string) (mode flags fi : Z)
    (a : open_answer) (g : ftpfs_t) :=
  ftpfs_open_common path mode flags fi a g.

Definition ftpfs_fsync (path : string) (a : flush_answer)
    (g : ftpfs_t) (fh : ftpfs_file) : Z * ftpfs_t * ftpfs_file :=
  ftpfs_flush get_dir_path path a g fh.

(** The handle in the result is the one that is freed. *)
Definition ftpfs_release (path : string) (fi : Z) (a : flush_answer)
    (g : ftpfs_t) (fh : ftpfs_file) : Z * ftpfs_t * ftpfs_file :=
  let '(_, g, fh) := ftpfs_flush get_dir_path path a g fh in
  let g := if current_fh g =? fi then set_current_fh 0 g else g in
  (op_return 0 "ftpfs_release", g, fh).

(** ** Flush and release on any handle

    [finish_write_thread] waits on [data_need] and joins the thread of the
    upload.  [start_write_thread] leaves [write_conn] set when
    [pthread_create] fails ("FIXME: destroy curl_easy"); on such a handle
    nothing posts [data_need] and there is no thread to join, so a flush does
    not return.  [worker] tells whether the thread of the upload exists;
    [None] is a call that does not return. *)
Definition ftpfs_flush_joining (worker : bool) (path : string)
    (a : flush_answer) (g : ftpfs_t) (fh : ftpfs_file)
  : option (Z * ftpfs_t * ftpfs_file) :=
  if write_conn fh && negb worker then None
  else Some (ftpfs_flush get_dir_path path a g fh).

Definition ftpfs_release_joining (worker : bool) (path : string) (fi : Z)
    (a : flush_answer) (g : ftpfs_t) (fh : ftpfs_file)
  : option (Z * ftpfs_t * ftpfs_file) :=
  if write_conn fh && negb worker then None
  else Some (ftpfs_release path fi a g fh).

(** ** The hand-over of a write to the worker

    The handle at the moment [ftpfs_write] has posted [data_avail] and waits
    for [data_written]: the bytes are in [stream_buf] and [pos] is advanced.
    [None] when the call returns before it gets there. *)
Definition write_chunk_posted (wbuf : list byte) (size offset : Z)
    (a : write_answer) (fh : ftpfs_file) : option ftpfs_file :=
  if write_conn fh then
    if negb (offset =? pos fh) then None
    else
      let (r, sb) := buf_add_mem (stream_buf fh) (bytes_at wbuf 0 size)
                       (on_buf_add_mem a) in
      if r =? -1 then None
      else Some (set_pos (to_off_t (pos fh + size)) (set_stream_buf sb fh))
  else None.

Definition ftpfs_write_posted (path : string) (wbuf : list byte)
    (size offset : Z) (a : write_answer) (g : ftpfs_t) (fh : ftpfs_file)
  : option ftpfs_file :=
  if negb (write_fail_cause fh =? 0) then None
  else
    match start_streaming get_dir_path path offset a g fh with
    | (Some _, _, _) => None
    | (None, g, fh) =>
        match resume_streaming offset a g fh with
        | (Some _, _, _) => None
        | (None, _, fh) => write_chunk_posted wbuf size offset a fh
        end
    end.

End Entries.

(** * States and answers the properties speak of *)

(** The memory at [p] holds the [len] bytes of the content. *)
Definition holds_content (b : buffer) : Prop :=
  0 <= len b <= Z.of_nat (List.length (p b)).

(** The read window holds exactly the bytes [begin_offset, begin_offset + len)
    of the remote file. *)
Definition holds_window (remote : list byte) (b : buffer) : Prop :=
  0 <= begin_offset b /\ 0 <= len b
  /\ begin_offset b + len b <= Z.of_nat (List.length remote)
  /\ content b = bytes_at remote (begin_offset b) (len b).

(** The bytes the pump hands over in the course of one call. *)
Definition chunk_bytes (a : perform_answer) : Z :=
  fold_right (fun c n => Z.of_nat (List.length (fst c)) + n) 0 (delivered a).

Definition script_bytes (script : list (Z * perform_answer)) : Z :=
  fold_right (fun x n => chunk_bytes (snd x) + n) 0 script.

Definition answer_bytes (a : read_answer) : Z :=
  chunk_bytes (on_check_running a) + chunk_bytes (on_perform a)
  + script_bytes (on_select a).

(** [fh'] is [fh] after the pump has appended at most [n] bytes to the read
    window: nothing else has changed. *)
Definition grown (n : Z) (fh fh' : ftpfs_file) : Prop :=
  begin_offset (buf fh') = begin_offset (buf fh)
  /\ len (buf fh) <= len (buf fh') <= len (buf fh) + n
  /\ holds_content (buf fh')
  /\ can_shrink fh' = can_shrink fh
  /\ last_offset fh' = last_offset fh.

(** A request the types of [ftpfs_read_chunk] admit on a window that lies
    within the range of [off_t], together with the bytes still to come. *)
Definition read_in_range (size offset : Z) (a : read_answer) (fh : ftpfs_file)
  : Prop :=
  0 <= size < 2 ^ 64 /\ 0 <= offset /\ 0 <= begin_offset (buf fh)
  /\ holds_content (buf fh)
  /\ Z.max offset (begin_offset (buf fh) + len (buf fh)) + answer_bytes a
     <= OFF_MAX.

(** * Concrete handles and answers used below *)

Definition path_id (s : string) : string := s.

Definition idle : ftpfs_t := mk_ftpfs 0 0 0 [].

(** A handle as [ftpfs_open_common] leaves it for a write-only open without
    create or truncate: no upload yet, nothing written. *)
Definition fresh : ftpfs_file :=
  mk_ftpfs_file buf_init 0 0 0 0 "/f" "ftp://host/f" buf_init
    false 0 0 0 0 0.

(** A handle with a running upload that has taken [n] bytes. *)
Definition uploading (n : Z) : ftpfs_file :=
  mk_ftpfs_file buf_init 0 0 0 0 "/f" "ftp://host/f" buf_init
    true 0 0 0 1 n.

Definition no_listing : getattr_answer := mk_getattr_answer 0%N None.

Definition no_pump : perform_answer := mk_perform [] 0.

Definition no_transfer : read_answer := mk_read_answer no_pump no_pump [] [].

(** The shared connection while the handle at address [fi] owns a running
    download. *)
Definition owned_by (fi : Z) : ftpfs_t := mk_ftpfs 1 fi 0 [].

(** A handle opened for reading at whose memory [mem] the window of [n]
    bytes starts at file offset [begin]. *)
Definition reading (mem : list byte) (n begin shrinkable : Z) : ftpfs_file :=
  mk_ftpfs_file (mk_buffer mem n begin) 0 0 shrinkable 0
    "/f" "ftp://host/f" buf_init false 0 0 0 0 0.

Definition twenty : list byte :=
  [x00; x01; x02; x03; x04; x05; x06; x07; x08; x09;
   x0a; x0b; x0c; x0d; x0e; x0f; x10; x11; x12; x13].

(** The ten bytes at offsets 10..19 of [twenty]. *)
Definition second_ten : list byte :=
  [x0a; x0b; x0c; x0d; x0e; x0f; x10; x11; x12; x13].

(** A remote file of 307201 bytes, one more than [MAX_BUFFER_LEN]. *)
Definition big : list byte := repeat x61 (Z.to_nat 307201).

(** ** Sequences of write calls on one handle *)

Record write_call := mk_write_call {
  wc_buf : list byte;
  wc_size : Z;
  wc_offset : Z;
  wc_answer : write_answer
}.

(** What is seen of one call: the handle before, the return value, the
    handle after. *)
Record write_obs := mk_write_obs {
  ob_call : write_call;
  ob_before : ftpfs_file;
  ob_ret : Z;
  ob_after : ftpfs_file
}.

Fixpoint run_writes (get_dir_path : string -> string) (path : string)
    (cs : list write_call) (g : ftpfs_t) (fh : ftpfs_file)
  : list write_obs * ftpfs_t * ftpfs_file :=
  match cs with
  | [] => ([], g, fh)
  | c :: cs' =>
      let '(r, g', fh') :=
        ftpfs_write get_dir_path path (wc_buf c) (wc_size c) (wc_offset c)
          (wc_answer c) g fh in
      let '(log, g'', fh'') := run_writes get_dir_path path cs' g' fh' in
      (mk_write_obs c fh r fh' :: log, g'', fh'')
  end.

(** The sizes of all calls, and of the calls that succeeded. *)
Definition requested (cs : list write_call) : Z :=
  fold_right (fun c n => wc_size c + n) 0 cs.

Definition written (log : list write_obs) : Z :=
  fold_right
    (fun o n => (if 0 <=? ob_ret o then wc_size (ob_call o) else 0) + n) 0 log.

(** A write at an offset other than [pos] while no upload is running. *)
Definition stray (o : write_obs) : Prop :=
  write_fail_cause (ob_before o) = 0
  /\ write_conn (ob_before o) = false
  /\ wc_offset (ob_call o) <> pos (ob_before o).

Definition all_good : write_answer :=
  mk_write_answer no_listing (mk_start_answer true 0) true consumed 0%N.

Definition worker_fails (curl_res : CURLcode) : write_answer :=
  mk_write_answer no_listing (mk_start_answer true 0) true
    (worker_exited curl_res) curl_res.

Definition hello : list byte := [x68; x65; x6c; x6c; x6f].
Definition world : list byte := [x20; x77; x6f; x72; x6c; x64].
Definition xyz : list byte := [x78; x79; x7a].

(** ** The text of a [SITE CHMOD] command *)

Definition octal_digit (c : ascii) : option Z :=
  let n := Z.of_nat (nat_of_ascii c) in
  if (48 <=? n) && (n <=? 55) then Some (n - 48) else None.

Fixpoint octal_from (acc : Z) (s : string) : option Z :=
  match s with
  | EmptyString => Some acc
  | String c s' =>
      match octal_digit c with
      | Some d => octal_from (8 * acc + d) s'
      | None => None
      end
  end.

(** The number a text of octal digits denotes; a text that is empty or holds
    another character denotes none. *)
Definition octal_value (s : string) : option Z :=
  match s with
  | EmptyString => None
  | _ => octal_from 0 s
  end.

(** [cmd] is the command that sets the permission bits [perm] (below
    [010000]) of [filename]: the words [SITE CHMOD], the bits in octal with
    three digits, or four when three do not hold them, a space and the
    name. *)
Definition chmod_command (cmd : string) (perm : Z) (filename : string)
  : Prop :=
  exists d : string,
    cmd = ("SITE CHMOD " ++ d ++ " " ++ filename)%string
    /\ octal_value d = Some perm
    /\ String.length d = if perm <? 512 then 3%nat else 4%nat.

(** * More states and answers the properties speak of *)

(** A completion message of a transfer that ended well. *)
Definition completed_well (m : CURLMsg) : Prop :=
  msg m = CURLMSG_DONE /\ result m = CURLE_OK.

(** A running download that has just handed over two more bytes. *)
Definition streaming : read_answer :=
  mk_read_answer (mk_perform [] 1) (mk_perform [([x14; x15], true)] 1) [] [].

(** A download that ends at once, with or without its completion message. *)
Definition ended (queue : list CURLMsg) : read_answer :=
  mk_read_answer no_pump no_pump [] queue.

(** The bytes one drive of the pump appends to the window, in order; a chunk
    for which the buffer cannot grow adds nothing. *)
Definition appended (a : perform_answer) : list byte :=
  flat_map (fun c : list byte * bool => if snd c then fst c else [])
    (delivered a).

(** The bytes the pump can append in the course of one call once it is
    decided whether the transfer is restarted. *)
Definition stream (a : read_answer) : list byte :=
  appended (on_perform a)
  ++ flat_map (fun x : Z * perform_answer => appended (snd x)) (on_select a).

(** [data] is what the remote file holds from offset [from] on. *)
Definition follows (remote : list byte) (from : Z) (data : list byte) : Prop :=
  from + Z.of_nat (List.length data) <= Z.of_nat (List.length remote)
  /\ data = bytes_at remote from (Z.of_nat (List.length data)).

(** The server sends the bytes of [remote]: after a restart the bytes from
    [offset] on, otherwise the bytes that follow the end of the window. *)
Definition faithful (remote : list byte) (size offset fi : Z)
    (a : read_answer) (g : ftpfs_t) (fh : ftpfs_file) : Prop :=
  cache_miss fh size offset = true ->
  if fst (fst (must_restart fi offset (on_check_running a) g fh))
  then follows remote offset (stream a)
  else follows remote (begin_offset (buf fh) + len (buf fh))
         (appended (on_check_running a) ++ stream a).

(** A remote file of 22 bytes that continues [twenty] with what [streaming]
    hands over. *)
Definition twenty_two : list byte := twenty ++ [x14; x15].

(** The bytes the library asks for in a run of callbacks. *)
Definition asked (requests : list Z) : Z := fold_right Z.add 0 requests.

(** A handle with a running upload whose stream buffer holds [data], not yet
    taken by the library. *)
Definition pending (data : list byte) : ftpfs_file :=
  mk_ftpfs_file buf_init 0 0 0 0 "/f" "ftp://host/f"
    (mk_buffer data (Z.of_nat (List.length data)) 0)
    true 0 0 0 1 (Z.of_nat (List.length data)).

(** The bytes the library is handed in a run of writes.  The handle goes
    from write to write through [ftpfs_write]; what the library takes in the
    course of a write is what its callbacks ([requests], run by [drain]) take
    from the handle as [ftpfs_write] has posted it; a write that returns
    before it posts hands over nothing. *)
Fixpoint uploaded (get_dir_path : string -> string) (path : string)
    (cs : list (write_call * list Z)) (g : ftpfs_t) (fh : ftpfs_file)
  : list byte :=
  match cs with
  | [] => []
  | (c, requests) :: cs' =>
      let out :=
        match ftpfs_write_posted get_dir_path path (wc_buf c) (wc_size c)
                (wc_offset c) (wc_answer c) g fh with
        | Some posted => fst (fst (drain requests posted))
        | None => []
        end in
      let '(_, g', fh') :=
        ftpfs_write get_dir_path path (wc_buf c) (wc_size c) (wc_offset c)
          (wc_answer c) g fh in
      out ++ uploaded get_dir_path path cs' g' fh'
  end.

(** A run of writes that follow one another from position [from]: each is at
    the position the one before has reached, has at least one byte, all of
    them in its buffer, finds memory for them and is answered by the
    callbacks, which ask for at least one byte each and together for no less
    than the write holds. *)
Fixpoint in_sequence (from : Z) (cs : list (write_call * list Z)) : Prop :=
  match cs with
  | [] => True
  | (c, requests) :: cs' =>
      wc_offset c = from
      /\ 0 < wc_size c <= INT_MAX
      /\ wc_size c <= Z.of_nat (List.length (wc_buf c))
      /\ on_buf_add_mem (wc_answer c) = true
      /\ on_data_written (wc_answer c) = consumed
      /\ requests <> []
      /\ Forall (fun n => 0 < n < 2 ^ 64) requests
      /\ wc_size c <= asked requests
      /\ in_sequence (from + wc_size c) cs'
  end.

(** The bytes the writes of a run hold, one write after the other. *)
Definition written_bytes (cs : list (write_call * list Z)) : list byte :=
  List.concat
    (map (fun x : write_call * list Z =>
            bytes_at (wc_buf (fst x)) 0 (wc_size (fst x))) cs).

(** What is seen of a handle, the memory of [stream_buf] beyond its content
    apart. *)
Definition upload_view (fh : ftpfs_file) :=
  (buf fh, dirty fh, last_offset fh, can_shrink fh, mode fh, open_path fh,
   full_path fh, content (stream_buf fh), len (stream_buf fh),
   begin_offset (stream_buf fh), write_conn fh, eof fh, written_flag fh,
   write_fail_cause fh, write_may_start fh, pos fh).

(** A handle whose upload of [n] bytes has been finished by a flush. *)
Definition flushed (n : Z) : ftpfs_file :=
  snd (finish_write_thread 0%N (uploading n)).

(** The listing holds the name. *)
Definition listed (a : getattr_answer) : bool :=
  match parsed_size a with
  | Some _ => true
  | None => false
  end.

(** The connection of the upload and its thread can be created. *)
Definition started_ok (a : start_answer) : bool :=
  curl_easy_init_ok a && (pthread_create_err a =? 0).

(** What an open for writing returns, by the flags, the listing and the start
    of the worker. *)
Definition write_open_result (flags : Z) (a : open_answer) : Z :=
  if has flags O_EXCL && listed (on_exists a) then - EACCES
  else if has flags O_APPEND then - ENOTSUP
  else if (has flags O_CREAT || has flags O_TRUNC)
          && negb (started_ok (on_open_start a)) then - EIO
  else 0.

Definition everything_works : open_answer :=
  mk_open_answer 0%N 0%N no_transfer no_listing (mk_start_answer true 0)
    None 0%N.

(** The worker starts, and its transfer has ended with
    [CURLE_COULDNT_CONNECT] (7) by the time the open returns. *)
Definition upload_fails_at_once : open_answer :=
  mk_open_answer 0%N 0%N no_transfer no_listing (mk_start_answer true 0)
    (Some 7%N) 0%N.

(** What a handle holds beside its read window and [last_offset]. *)
Definition beside_window (fh : ftpfs_file) :=
  (dirty fh, can_shrink fh, mode fh, open_path fh, full_path fh,
   stream_buf fh, write_conn fh, eof fh, written_flag fh,
   write_fail_cause fh, write_may_start fh, pos fh).

Definition beside_buf (fh : ftpfs_file) := (beside_window fh, last_offset fh).

Definition under_host (path : string) : string := ("ftp://host" ++ path)%string.

(** The server sends the twenty bytes of [twenty] and the transfer ends
    well. *)
Definition serving_twenty : open_answer :=
  mk_open_answer 0%N 0%N
    (mk_read_answer no_pump (mk_perform [(twenty, true)] 0) []
       [mk_msg CURLMSG_DONE CURLE_OK])
    no_listing (mk_start_answer true 0) None 0%N.

(** ** The shared connection as the library sees it

    Whether the easy handle is attached to the multi handle, and the options
    that change what the next request does. *)
Record connection := mk_connection {
  c_in_multi : bool;
  c_range : option string;
  c_upload : Z;
  c_postquote : list string;
  c_nobody : Z
}.

(** One call on the connection; [None] is a call the library refuses: a
    blocking transfer, or a second attach, while the handle is attached to the
    multi handle, or a detach of a handle that is not attached. *)
Definition connection_step (c : connection) (x : curl_call)
  : option connection :=
  match x with
  | curl_easy_setopt (CURLOPT_RANGE r) =>
      Some (mk_connection (c_in_multi c) r (c_upload c) (c_postquote c)
              (c_nobody c))
  | curl_easy_setopt (CURLOPT_UPLOAD n) =>
      Some (mk_connection (c_in_multi c) (c_range c) n (c_postquote c)
              (c_nobody c))
  | curl_easy_setopt (CURLOPT_POSTQUOTE l) =>
      Some (mk_connection (c_in_multi c) (c_range c) (c_upload c) l
              (c_nobody c))
  | curl_easy_setopt (CURLOPT_NOBODY n) =>
      Some (mk_connection (c_in_multi c) (c_range c) (c_upload c)
              (c_postquote c) n)
  | curl_easy_setopt _ => Some c
  | curl_easy_perform => if c_in_multi c then None else Some c
  | curl_multi_add_handle =>
      if c_in_multi c then None
      else Some (mk_connection true (c_range c) (c_upload c) (c_postquote c)
                   (c_nobody c))
  | curl_multi_remove_handle =>
      if c_in_multi c
      then Some (mk_connection false (c_range c) (c_upload c) (c_postquote c)
                   (c_nobody c))
      else None
  | _ => Some c
  end.

Fixpoint connection_run (cs : list curl_call) (c : connection)
  : option connection :=
  match cs with
  | [] => Some c
  | x :: cs' =>
      match connection_step c x with
      | Some c' => connection_run cs' c'
      | None => None
      end
  end.

(** The connection between two requests: every call so far was accepted,
    [attached_to_multi] tells whether the handle is attached, and no range,
    upload flag, quote command or [NOBODY] is left over. *)
Definition at_rest (g : ftpfs_t) : Prop :=
  connection_run (calls g) (mk_connection false None 0 [] 0)
  = Some (mk_connection (negb (attached_to_multi g =? 0)) None 0 [] 0).

(** As [at_rest], but a range may be set: the connection between a restart
    and the first drive of the pump. *)
Definition at_rest_but_range (g : ftpfs_t) : Prop :=
  exists r,
    connection_run (calls g) (mk_connection false None 0 [] 0)
    = Some (mk_connection (negb (attached_to_multi g =? 0)) r 0 [] 0).

(** The shared connection after the handle at address 1 has started a
    download. *)
Definition downloading : ftpfs_t :=
  mk_ftpfs 1 1 0
    [ curl_easy_setopt (CURLOPT_URL "ftp://host/f");
      curl_easy_setopt (CURLOPT_WRITEDATA (handle_buf 1));
      curl_multi_add_handle;
      curl_multi_perform;
      curl_easy_setopt (CURLOPT_RANGE None) ].

(** What a handle holds beside the content of [stream_buf] and
    [written_flag]. *)
Definition beside_stream (fh : ftpfs_file) :=
  (buf fh, dirty fh, last_offset fh, can_shrink fh, mode fh, open_path fh,
   full_path fh, begin_offset (stream_buf fh), write_conn fh, eof fh,
   write_fail_cause fh, write_may_start fh, pos fh).

(** * Properties *)

(** Boolean tests of the code as propositions. *)
Ltac tests :=
  repeat match goal with
  | H : negb _ = true |- _ => apply negb_true_iff in H
  | H : negb _ = false |- _ => apply negb_false_iff in H
  | H : (_ && _)%bool = true |- _ => apply andb_true_iff in H; destruct H
  | H : (_ || _)%bool = false |- _ => apply orb_false_iff in H; destruct H
  | H : (_ >? _) = _ |- _ => rewrite Z.gtb_ltb in H
  | H : (_ =? _) = true |- _ => apply Z.eqb_eq in H
  | H : (_ =? _) = false |- _ => apply Z.eqb_neq in H
  | H : (_ <? _) = true |- _ => apply Z.ltb_lt in H
  | H : (_ <? _) = false |- _ => apply Z.ltb_ge in H
  | H : (_ =? _)%N = true |- _ => apply N.eqb_eq in H
  | H : (_ =? _)%N = false |- _ => apply N.eqb_neq in H
  end.

(** ** Machine integers *)

Lemma to_size_t_small (z : Z) : 0 <= z < 2 ^ 64 -> to_size_t z = z.
Proof. intros H. unfold to_size_t. now apply Z.mod_small. Qed.

Lemma to_off_t_small (z : Z) : - 2 ^ 63 <= z <= OFF_MAX -> to_off_t z = z.
Proof.
  unfold to_off_t, OFF_MAX. intros H.
  rewrite Z.mod_small; lia.
Qed.

Lemma to_int_small (z : Z) : - 2 ^ 31 <= z <= INT_MAX -> to_int z = z.
Proof.
  unfold to_int, INT_MAX. intros H.
  rewrite Z.mod_small; lia.
Qed.

(** ** The call record *)

Lemma calls_call (c : curl_call) (g : ftpfs_t) : calls (call c g) = calls g ++ [c].
Proof. reflexivity. Qed.

Lemma cancel_previous_multi_detached (g : ftpfs_t) :
  attached_to_multi (cancel_previous_multi g) = 0.
Proof.
  unfold cancel_previous_multi.
  destruct (attached_to_multi g =? 0) eqn:E; [now apply Z.eqb_eq | reflexivity].
Qed.

Lemma cancel_previous_multi_again (g : ftpfs_t) :
  attached_to_multi g = 0 -> cancel_previous_multi g = g.
Proof. intros H. unfold cancel_previous_multi. now rewrite H. Qed.

Lemma cancel_previous_multi_calls (g : ftpfs_t) :
  calls (cancel_previous_multi g) =
  calls g ++ (if attached_to_multi g =? 0 then [] else [curl_multi_remove_handle]).
Proof.
  unfold cancel_previous_multi.
  destruct (attached_to_multi g =? 0); [now rewrite app_nil_r | reflexivity].
Qed.

Lemma create_empty_file_calls gfp (path : string) (res : CURLcode) (g : ftpfs_t) :
  calls (snd (create_empty_file gfp path res g)) =
  calls (cancel_previous_multi g) ++
  [ curl_easy_setopt (CURLOPT_URL (gfp path));
    curl_easy_setopt (CURLOPT_INFILESIZE 0);
    curl_easy_setopt (CURLOPT_UPLOAD 1);
    curl_easy_setopt CURLOPT_READDATA_NULL;
    curl_easy_perform;
    curl_easy_setopt (CURLOPT_UPLOAD 0) ].
Proof.
  unfold create_empty_file. cbn [snd]. rewrite !calls_call.
  now rewrite <- !app_assoc.
Qed.

Lemma create_empty_file_detached gfp (path : string) (res : CURLcode) (g : ftpfs_t) :
  attached_to_multi (snd (create_empty_file gfp path res g)) = 0.
Proof. unfold create_empty_file. cbn. apply cancel_previous_multi_detached. Qed.

Lemma cancel_previous_multi_safe_nobody (g : ftpfs_t) :
  safe_nobody (cancel_previous_multi g) = safe_nobody g.
Proof. unfold cancel_previous_multi. now destruct (attached_to_multi g =? 0). Qed.

Lemma create_empty_file_safe_nobody gfp (path : string) (res : CURLcode) (g : ftpfs_t) :
  safe_nobody (snd (create_empty_file gfp path res g)) = safe_nobody g.
Proof. unfold create_empty_file. cbn. apply cancel_previous_multi_safe_nobody. Qed.

Lemma create_empty_file_ret gfp (path : string) (res : CURLcode) (g : ftpfs_t) :
  fst (create_empty_file gfp path res g) = if (res =? CURLE_OK)%N then 0 else - EPERM.
Proof. reflexivity. Qed.

Lemma ftpfs_getattr_calls gdp (path : string) (a : getattr_answer) (g : ftpfs_t) :
  calls (snd (ftpfs_getattr gdp path a g)) =
  calls (cancel_previous_multi g) ++
  [ curl_easy_setopt (CURLOPT_URL (gdp path));
    curl_easy_setopt (CURLOPT_WRITEDATA local_buf);
    curl_easy_perform ].
Proof.
  unfold ftpfs_getattr.
  destruct (parsed_size a); cbn [snd]; rewrite !calls_call;
    now rewrite <- !app_assoc.
Qed.

Lemma chmod_mode_bits (mode : Z) :
  0 <= mode < 2 ^ 32 ->
  to_int ((mode - mode / 4096 * 4096) mod 2 ^ 32) = mode mod 4096.
Proof.
  intros H.
  assert (E : mode - mode / 4096 * 4096 = mode mod 4096)
    by (rewrite Z.mod_eq; lia).
  rewrite E.
  assert (B : 0 <= mode mod 4096 < 4096) by (apply Z.mod_pos_bound; lia).
  rewrite Z.mod_small by lia.
  apply to_int_small. unfold INT_MAX. lia.
Qed.

(** The octal text of the permission bits, checked on every value below
    [010000]. *)
Lemma o3_octal (n : Z) :
  0 <= n < 4096 ->
  octal_value (o3 n) = Some n
  /\ String.length (o3 n) = if n <? 512 then 3%nat else 4%nat.
Proof.
  intros Hn.
  assert (Hall : forallb
                   (fun k : nat =>
                      let n := Z.of_nat k in
                      match octal_value (o3 n) with
                      | Some v =>
                          (v =? n)
                          && Nat.eqb (String.length (o3 n))
                               (if n <? 512 then 3%nat else 4%nat)
                      | None => false
                      end)
                   (seq 0 4096) = true)
    by (vm_compute; reflexivity).
  rewrite forallb_forall in Hall.
  specialize (Hall (Z.to_nat n)). rewrite Z2Nat.id in Hall by lia.
  cbv zeta in Hall.
  assert (Hin : In (Z.to_nat n) (seq 0 4096)) by (apply in_seq; lia).
  apply Hall in Hin. clear Hall.
  destruct (octal_value (o3 n)) as [v |]; [| discriminate].
  apply andb_true_iff in Hin. destruct Hin as [Hv Hl].
  apply Z.eqb_eq in Hv. apply Nat.eqb_eq in Hl. now subst v.
Qed.

Lemma site_chmod_command (perm : Z) (filename : string) :
  0 <= perm < 4096 ->
  chmod_command (site_chmod perm filename) perm filename.
Proof.
  intros Hperm. destruct (o3_octal perm Hperm) as [Hv Hl].
  exists (o3 perm). split; [reflexivity |]. now split.
Qed.

(** ** mknod *)

(** C10.  A mode whose file-type bits are not those of a regular file is
    refused with [-EPERM] and nothing is sent; for a regular file an empty
    file is uploaded and, when that succeeded, one [SITE CHMOD] with the
    permission bits of the mode follows (its result is not returned).  The
    command is the text [SITE CHMOD], the low twelve bits of the mode in
    octal with at least three digits, a space and the file name. *)
Theorem ftpfs_mknod_regular_only
    (get_full_path get_dir_path get_file_name : string -> string)
    (path : string) (mode : Z) (create_res chmod_res : CURLcode) (g : ftpfs_t) :
  0 <= mode < 2 ^ 32 ->
  (Z.land mode S_IFMT <> S_IFREG ->
   ftpfs_mknod get_full_path get_dir_path get_file_name
     path mode create_res chmod_res g = (- EPERM, g))
  /\
  (Z.land mode S_IFMT = S_IFREG ->
   fst (ftpfs_mknod get_full_path get_dir_path get_file_name
          path mode create_res chmod_res g)
   = (if (create_res =? CURLE_OK)%N then 0 else - EPERM)
   /\
   calls (snd (ftpfs_mknod get_full_path get_dir_path get_file_name
                 path mode create_res chmod_res g))
   = calls (cancel_previous_multi g) ++
     [ curl_easy_setopt (CURLOPT_URL (get_full_path path));
       curl_easy_setopt (CURLOPT_INFILESIZE 0);
       curl_easy_setopt (CURLOPT_UPLOAD 1);
       curl_easy_setopt CURLOPT_READDATA_NULL;
       curl_easy_perform;
       curl_easy_setopt (CURLOPT_UPLOAD 0) ] ++
     (if (create_res =? CURLE_OK)%N
      then [ curl_easy_setopt
               (CURLOPT_POSTQUOTE
                  [site_chmod (mode mod 4096) (get_file_name path)]);
             curl_easy_setopt (CURLOPT_URL (get_dir_path path));
             curl_easy_setopt (CURLOPT_WRITEDATA local_buf);
             curl_easy_setopt (CURLOPT_NOBODY (safe_nobody g));
             curl_easy_perform;
             curl_easy_setopt (CURLOPT_POSTQUOTE []);
             curl_easy_setopt (CURLOPT_NOBODY 0) ]
      else [])
   /\
   chmod_command (site_chmod (mode mod 4096) (get_file_name path))
     (mode mod 4096) (get_file_name path)).
Proof.
  intros Hmode. split; intros Hreg; unfold ftpfs_mknod.
  - destruct (Z.land mode S_IFMT =? S_IFREG) eqn:E; [| reflexivity].
    apply Z.eqb_eq in E. contradiction.
  - rewrite <- and_assoc.
    split; [| apply site_chmod_command; apply Z.mod_pos_bound; lia].
    rewrite Hreg, Z.eqb_refl. cbn [negb].
    pose proof (create_empty_file_calls get_full_path path create_res g) as Hc.
    pose proof (create_empty_file_detached get_full_path path create_res g) as Hd.
    pose proof (create_empty_file_ret get_full_path path create_res g) as Hr.
    pose proof (create_empty_file_safe_nobody get_full_path path create_res g) as Hs.
    destruct (create_empty_file get_full_path path create_res g) as [err g1].
    cbn [fst snd] in *. unfold op_return. subst err. split; [reflexivity |].
    destruct (create_res =? CURLE_OK)%N; cbn [Z.eqb Z.opp EPERM].
    + unfold ftpfs_chmod, ftpfs_do_cmd.
      rewrite (cancel_previous_multi_again g1 Hd), chmod_mode_bits by exact Hmode.
      cbn [snd]. rewrite !calls_call. cbn [safe_nobody call].
      rewrite Hc, Hs, <- !app_assoc. reflexivity.
    + now rewrite Hc.
Qed.

Lemma ftpfs_mknod_regular_only_witness :
  ftpfs_mknod path_id path_id path_id "/d" 16877 0%N 0%N idle = (- EPERM, idle)
  /\ fst (ftpfs_mknod path_id path_id path_id "/f" 33188 0%N 0%N idle) = 0.
Proof.
  split.
  - apply (ftpfs_mknod_regular_only path_id path_id path_id "/d" 16877 0%N 0%N idle).
    + lia.
    + vm_compute. discriminate.
  - apply (ftpfs_mknod_regular_only path_id path_id path_id "/f" 33188 0%N 0%N idle).
    + lia.
    + reflexivity.
Defined.

(** ** truncate and ftruncate *)

(** C6, as the code has it.  Truncating to zero is done by uploading an empty
    file, whatever the size of the remote file is, and returns 0 when the
    server accepts that upload and [-EPERM] when it does not; truncating to a
    length above zero that the listing reports as the size returns 0 after
    that listing alone, nothing is sent that changes the remote file; any
    other length above zero is refused with [-EPERM]. *)
Theorem ftpfs_truncate_cases
    (get_full_path get_dir_path : string -> string)
    (path : string) (offset : Z) (create_res : CURLcode)
    (a : getattr_answer) (g : ftpfs_t) :
  (offset = 0 ->
   fst (ftpfs_truncate get_full_path get_dir_path path offset create_res a g)
   = (if (create_res =? CURLE_OK)%N then 0 else - EPERM)
   /\ calls (snd (ftpfs_truncate get_full_path get_dir_path path offset create_res a g))
      = calls (cancel_previous_multi g) ++
        [ curl_easy_setopt (CURLOPT_URL (get_full_path path));
          curl_easy_setopt (CURLOPT_INFILESIZE 0);
          curl_easy_setopt (CURLOPT_UPLOAD 1);
          curl_easy_setopt CURLOPT_READDATA_NULL;
          curl_easy_perform;
          curl_easy_setopt (CURLOPT_UPLOAD 0) ])
  /\
  (0 < offset -> parsed_size a = Some offset ->
   fst (ftpfs_truncate get_full_path get_dir_path path offset create_res a g) = 0
   /\ calls (snd (ftpfs_truncate get_full_path get_dir_path path offset create_res a g))
      = calls (cancel_previous_multi g) ++
        [ curl_easy_setopt (CURLOPT_URL (get_dir_path path));
          curl_easy_setopt (CURLOPT_WRITEDATA local_buf);
          curl_easy_perform ])
  /\
  (0 < offset -> parsed_size a <> Some offset ->
   fst (ftpfs_truncate get_full_path get_dir_path path offset create_res a g) = - EPERM).
Proof.
  split; [| split].
  - intros ->. unfold ftpfs_truncate. cbn [Z.eqb].
    pose proof (create_empty_file_calls get_full_path path create_res g) as Hc.
    pose proof (create_empty_file_ret get_full_path path create_res g) as Hr.
    destruct (create_empty_file get_full_path path create_res g) as [err g1].
    split; [exact Hr | exact Hc].
  - intros Hpos Hsize.
    pose proof (ftpfs_getattr_calls get_dir_path path a g) as Hc.
    unfold ftpfs_truncate, test_size.
    destruct (offset =? 0) eqn:E0; [apply Z.eqb_eq in E0; lia |].
    unfold ftpfs_getattr in *. rewrite Hsize in *. cbn [Z.eqb].
    rewrite Z.eqb_refl. split; [reflexivity | exact Hc].
  - intros Hpos Hne. unfold ftpfs_truncate, test_size, ftpfs_getattr.
    destruct (offset =? 0) eqn:E0; [apply Z.eqb_eq in E0; lia |].
    destruct (parsed_size a) as [s |] eqn:Ep; unfold op_return.
    + cbn [Z.eqb]. destruct (offset =? s) eqn:E; [| reflexivity].
      apply Z.eqb_eq in E. congruence.
    + destruct (offset =? - ENOENT) eqn:E; [| reflexivity].
      apply Z.eqb_eq in E. unfold ENOENT in E. lia.
Qed.

(** C6 as stated fails: the remote file is empty, so length zero is its
    current size, and the server refuses the upload of the empty file (a
    result other than [CURLE_OK], here 25).  Truncating to zero returns
    [-EPERM], and a request that writes the remote file has been made. *)
Lemma ftpfs_truncate_to_zero_refused :
  parsed_size (mk_getattr_answer 0%N (Some 0)) = Some 0
  /\ fst (ftpfs_truncate path_id path_id "/f" 0 25%N
            (mk_getattr_answer 0%N (Some 0)) idle) = - EPERM
  /\ calls (snd (ftpfs_truncate path_id path_id "/f" 0 25%N
                   (mk_getattr_answer 0%N (Some 0)) idle))
     = [ curl_easy_setopt (CURLOPT_URL "/f");
         curl_easy_setopt (CURLOPT_INFILESIZE 0);
         curl_easy_setopt (CURLOPT_UPLOAD 1);
         curl_easy_setopt CURLOPT_READDATA_NULL;
         curl_easy_perform;
         curl_easy_setopt (CURLOPT_UPLOAD 0) ].
Proof. repeat split. Qed.

Lemma ftpfs_truncate_cases_witness :
  fst (ftpfs_truncate path_id path_id "/f" 0 0%N (mk_getattr_answer 0%N None) idle) = 0
  /\ fst (ftpfs_truncate path_id path_id "/f" 7 0%N (mk_getattr_answer 0%N (Some 7)) idle) = 0
  /\ fst (ftpfs_truncate path_id path_id "/f" 7 0%N (mk_getattr_answer 0%N (Some 9)) idle) = - EPERM.
Proof.
  split; [| split].
  - destruct (ftpfs_truncate_cases path_id path_id "/f" 0 0%N
                (mk_getattr_answer 0%N None) idle) as (H & _ & _).
    now destruct (H eq_refl).
  - destruct (ftpfs_truncate_cases path_id path_id "/f" 7 0%N
                (mk_getattr_answer 0%N (Some 7)) idle) as (_ & H & _).
    assert (Hpos : 0 < 7) by lia.
    now destruct (H Hpos eq_refl).
  - destruct (ftpfs_truncate_cases path_id path_id "/f" 7 0%N
                (mk_getattr_answer 0%N (Some 9)) idle) as (_ & _ & H).
    apply H; [lia | discriminate].
Defined.

(** C9.  [ftruncate] to zero on a handle with [pos = 0] sets
    [write_may_start], uploads an empty file at the path the handle was opened
    with and returns the result of that upload; with [pos > 0] it returns
    [-EPERM] and changes nothing. *)
Theorem ftpfs_ftruncate_zero
    (get_full_path get_dir_path : string -> string)
    (path : string) (create_res : CURLcode) (a : getattr_answer)
    (g : ftpfs_t) (fh : ftpfs_file) :
  (pos fh = 0 ->
   ftpfs_ftruncate get_full_path get_dir_path path 0 create_res a g fh
   = (fst (create_empty_file get_full_path (open_path fh) create_res g),
      snd (create_empty_file get_full_path (open_path fh) create_res g),
      set_write_may_start 1 fh)
   /\ write_may_start
        (snd (ftpfs_ftruncate get_full_path get_dir_path path 0 create_res a g fh)) = 1
   /\ fst (fst (ftpfs_ftruncate get_full_path get_dir_path path 0 create_res a g fh))
      = (if (create_res =? CURLE_OK)%N then 0 else - EPERM)
   /\ calls (snd (fst (ftpfs_ftruncate get_full_path get_dir_path path 0 create_res a g fh)))
      = calls (cancel_previous_multi g) ++
        [ curl_easy_setopt (CURLOPT_URL (get_full_path (open_path fh)));
          curl_easy_setopt (CURLOPT_INFILESIZE 0);
          curl_easy_setopt (CURLOPT_UPLOAD 1);
          curl_easy_setopt CURLOPT_READDATA_NULL;
          curl_easy_perform;
          curl_easy_setopt (CURLOPT_UPLOAD 0) ])
  /\
  (pos fh > 0 ->
   ftpfs_ftruncate get_full_path get_dir_path path 0 create_res a g fh
   = (- EPERM, g, fh)).
Proof.
  split; intros Hpos; unfold ftpfs_ftruncate; cbn [Z.eqb].
  - rewrite Hpos. cbn [Z.eqb open_path set_write_may_start].
    pose proof (create_empty_file_calls get_full_path (open_path fh) create_res g) as Hc.
    pose proof (create_empty_file_ret get_full_path (open_path fh) create_res g) as Hr.
    destruct (create_empty_file get_full_path (open_path fh) create_res g) as [err g1].
    cbn [fst snd] in *. repeat split; assumption.
  - destruct (pos fh =? 0) eqn:E; [apply Z.eqb_eq in E; lia | reflexivity].
Qed.

Lemma ftpfs_ftruncate_zero_witness :
  write_may_start
    (snd (ftpfs_ftruncate path_id path_id "/f" 0 0%N no_listing idle fresh)) = 1
  /\ ftpfs_ftruncate path_id path_id "/f" 0 0%N no_listing idle (uploading 5)
     = (- EPERM, idle, uploading 5).
Proof.
  split.
  - destruct (ftpfs_ftruncate_zero path_id path_id "/f" 0%N no_listing idle fresh)
      as (H & _).
    now destruct (H eq_refl) as (_ & Hw & _).
  - apply (ftpfs_ftruncate_zero path_id path_id "/f" 0%N no_listing idle (uploading 5)).
    reflexivity.
Defined.

(** ** read *)

(** C7.  A read on a handle that has written bytes ([pos > 0]) or has an
    upload running returns [-EIO] and leaves the handle and the shared
    connection as they were; any other read is [ftpfs_read_chunk] on the full
    path with [update_offset = 1]. *)
Theorem ftpfs_read_after_write
    (get_full_path : string -> string)
    (path : string) (rbuf : bool) (size offset fi : Z)
    (a : read_answer) (g : ftpfs_t) (fh : ftpfs_file) :
  (pos fh > 0 \/ write_conn fh = true ->
   ftpfs_read get_full_path path rbuf size offset fi a g fh
   = Some (- EIO, None, g, fh))
  /\
  (pos fh <= 0 -> write_conn fh = false ->
   ftpfs_read get_full_path path rbuf size offset fi a g fh
   = match ftpfs_read_chunk (get_full_path path) rbuf size offset fi 1 a g fh with
     | None => None
     | Some (size_read, out, g', fh') =>
         Some (if size_read =? CURLFTPFS_BAD_READ then - EIO
               else to_int size_read, out, g', fh')
     end).
Proof.
  unfold ftpfs_read. split.
  - intros [Hpos | Hconn].
    + destruct (pos fh >? 0) eqn:E; [reflexivity |]. tests. lia.
    + rewrite Hconn, orb_true_r. reflexivity.
  - intros Hpos Hconn. rewrite Hconn.
    destruct (pos fh >? 0) eqn:E; [| reflexivity]. tests. lia.
Qed.

Lemma ftpfs_read_after_write_witness :
  ftpfs_read path_id "/f" true 4 0 1 no_transfer idle (uploading 5)
  = Some (- EIO, None, idle, uploading 5)
  /\ ftpfs_read path_id "/f" true 4 0 1 no_transfer idle fresh
     = match ftpfs_read_chunk "/f" true 4 0 1 1 no_transfer idle fresh with
       | None => None
       | Some (size_read, out, g', fh') =>
           Some (if size_read =? CURLFTPFS_BAD_READ then - EIO
                 else to_int size_read, out, g', fh')
       end.
Proof.
  split.
  - apply (ftpfs_read_after_write path_id "/f" true 4 0 1 no_transfer idle (uploading 5)).
    right. reflexivity.
  - apply (ftpfs_read_after_write path_id "/f" true 4 0 1 no_transfer idle fresh).
    + cbn. lia.
    + reflexivity.
Defined.

(** ** The upload worker as the request thread sees it *)

Lemma finish_write_thread_state (curl_res : CURLcode) (fh : ftpfs_file) :
  let fh' := snd (finish_write_thread curl_res fh) in
  write_conn fh' = false /\ eof fh' = 1 /\ pos fh' = pos fh
  /\ write_fail_cause fh' =
     (if write_fail_cause fh =? 0 then Z.of_N curl_res else write_fail_cause fh)
  /\ fst (finish_write_thread curl_res fh) =
     (if write_fail_cause fh' =? 0 then 0 else - EIO).
Proof.
  unfold finish_write_thread, ftpfs_write_thread_exit.
  destruct (write_fail_cause fh =? 0) eqn:E; cbn.
  - destruct (curl_res =? CURLE_OK)%N eqn:Ec; cbn; tests.
    + rewrite E, Ec. repeat split; reflexivity.
    + repeat split; reflexivity.
  - rewrite E. repeat split; reflexivity.
Qed.

(** ** flush *)

(** C8, as the code has it.  Flush on a handle with an upload finishes the
    upload.  When the upload has failed it returns [-EIO] and the attributes
    are not queried.  Otherwise it queries the attributes, and a reported size
    other than [pos] sets [write_fail_cause] to [-999] and returns [-EIO];
    [-999] is negative and no [CURLcode] equals it. *)
Theorem ftpfs_flush_upload
    (get_dir_path : string -> string)
    (path : string) (a : flush_answer) (g : ftpfs_t) (fh : ftpfs_file) :
  write_conn fh = true ->
  let r := ftpfs_flush get_dir_path path a g fh in
  write_conn (snd r) = false /\ eof (snd r) = 1
  /\ (write_fail_cause fh <> 0 \/ on_finish a <> CURLE_OK ->
      fst (fst r) = - EIO /\ snd (fst r) = g)
  /\ (write_fail_cause fh = 0 -> on_finish a = CURLE_OK ->
      calls (snd (fst r))
      = calls (cancel_previous_multi g) ++
        [ curl_easy_setopt (CURLOPT_URL (get_dir_path path));
          curl_easy_setopt (CURLOPT_WRITEDATA local_buf);
          curl_easy_perform ]
      /\ forall st_size,
           parsed_size (on_getattr a) = Some st_size -> st_size <> pos fh ->
           fst (fst r) = - EIO /\ write_fail_cause (snd r) = -999)
  /\ -999 < 0
  /\ forall curl_res : CURLcode, Z.of_N curl_res <> -999.
Proof.
  intros Hconn r. subst r. unfold ftpfs_flush. rewrite Hconn.
  pose proof (finish_write_thread_state (on_finish a) fh) as Hf.
  destruct (finish_write_thread (on_finish a) fh) as [err fh1].
  cbn [fst snd] in Hf. destruct Hf as (Hc & He & Hp & Hw & Hr).
  pose proof (ftpfs_getattr_calls get_dir_path path (on_getattr a) g) as Hcalls.
  assert (Hsent : forall c : CURLcode, Z.of_N c <> -999) by (intros c; lia).
  unfold ftpfs_getattr in *. unfold op_return. rewrite <- Hp.
  destruct (write_fail_cause fh1 =? 0) eqn:E1; subst err;
    cbn [Z.eqb negb Z.opp EIO fst snd]; tests.
  - (* the upload ended well: the attributes are queried *)
    assert (Hok : write_fail_cause fh = 0 /\ on_finish a = CURLE_OK).
    { destruct (write_fail_cause fh =? 0) eqn:E0; tests; unfold CURLE_OK; lia. }
    destruct (parsed_size (on_getattr a)) as [s |] eqn:Ep; cbn [fst snd] in *;
      [destruct (s =? pos fh1) eqn:Es |];
      cbn [Z.eqb negb fst snd write_conn eof write_fail_cause set_write_fail_cause];
      tests; repeat split; try assumption; try lia; try tauto;
      try (intros; congruence).
  - (* the upload has failed: an early return *)
    assert (Hko : ~ (write_fail_cause fh = 0 /\ on_finish a = CURLE_OK)).
    { intros [H0 H1]. rewrite H0, H1 in Hw. cbn in Hw. contradiction. }
    repeat split; try assumption; try lia; tauto.
Qed.

(** C8 as stated fails: the worker of this upload ended with
    [CURLE_SEND_ERROR] (55); flush returns [-EIO] and no request at all is made
    on the shared connection, so the attributes are not queried. *)
Lemma ftpfs_flush_failed_upload_skips_query :
  write_conn (uploading 5) = true
  /\ fst (fst (ftpfs_flush path_id "/f"
                 (mk_flush_answer 55%N (mk_getattr_answer 0%N (Some 5)))
                 idle (uploading 5))) = - EIO
  /\ calls (snd (fst (ftpfs_flush path_id "/f"
                        (mk_flush_answer 55%N (mk_getattr_answer 0%N (Some 5)))
                        idle (uploading 5)))) = [].
Proof. repeat split. Qed.

Lemma ftpfs_flush_upload_witness :
  fst (fst (ftpfs_flush path_id "/f"
              (mk_flush_answer 0%N (mk_getattr_answer 0%N (Some 3)))
              idle (uploading 5))) = - EIO
  /\ write_fail_cause
       (snd (ftpfs_flush path_id "/f"
               (mk_flush_answer 0%N (mk_getattr_answer 0%N (Some 3)))
               idle (uploading 5))) = -999.
Proof.
  destruct (ftpfs_flush_upload path_id "/f"
              (mk_flush_answer 0%N (mk_getattr_answer 0%N (Some 3)))
              idle (uploading 5) eq_refl) as (_ & _ & _ & H & _).
  destruct (H eq_refl eq_refl) as (_ & H').
  apply (H' 3); [reflexivity | cbn; lia].
Defined.

(** ** Bytes *)

Lemma bytes_at_length (mem : list byte) (i n : Z) :
  0 <= i -> 0 <= n -> i + n <= Z.of_nat (List.length mem) ->
  Z.of_nat (List.length (bytes_at mem i n)) = n.
Proof.
  intros Hi Hn Hb. unfold bytes_at.
  rewrite length_firstn, length_skipn. lia.
Qed.

Lemma content_bytes_at (b : buffer) : content b = bytes_at (p b) 0 (len b).
Proof. reflexivity. Qed.

Lemma content_length (b : buffer) :
  holds_content b -> Z.of_nat (List.length (content b)) = len b.
Proof.
  intros [H0 H1]. unfold content. rewrite length_firstn. lia.
Qed.

Lemma skipn_bytes_at (mem : list byte) (i m k : Z) :
  0 <= i -> 0 <= k <= m ->
  skipn (Z.to_nat k) (bytes_at mem i m) = bytes_at mem (i + k) (m - k).
Proof.
  intros Hi Hk. unfold bytes_at.
  rewrite skipn_firstn_comm, skipn_skipn.
  f_equal; [lia | f_equal; lia].
Qed.

Lemma bytes_at_bytes_at (mem : list byte) (i m j n : Z) :
  0 <= i -> 0 <= j -> 0 <= n -> j + n <= m ->
  bytes_at (bytes_at mem i m) j n = bytes_at mem (i + j) n.
Proof.
  intros Hi Hj Hn Hm. unfold bytes_at at 1.
  rewrite skipn_bytes_at by lia. unfold bytes_at.
  rewrite firstn_firstn. f_equal. lia.
Qed.

Lemma nth_bytes_at (mem : list byte) (i n k : Z) (d : byte) :
  0 <= i -> 0 <= k < n ->
  nth (Z.to_nat k) (bytes_at mem i n) d = nth (Z.to_nat (i + k)) mem d.
Proof.
  intros Hi Hk. unfold bytes_at.
  rewrite nth_firstn, nth_skipn.
  destruct (Nat.ltb_spec (Z.to_nat k) (Z.to_nat n)); [| lia].
  f_equal. lia.
Qed.

(** ** The pump only appends to the window *)

Lemma chunk_bytes_nonneg (a : perform_answer) : 0 <= chunk_bytes a.
Proof.
  unfold chunk_bytes.
  induction (delivered a) as [| c l IH]; cbn [fold_right]; lia.
Qed.

Lemma script_bytes_nonneg (script : list (Z * perform_answer)) :
  0 <= script_bytes script.
Proof.
  induction script as [| x l IH]; [cbn; lia |].
  change (script_bytes (x :: l)) with (chunk_bytes (snd x) + script_bytes l).
  pose proof (chunk_bytes_nonneg (snd x)). lia.
Qed.

Lemma grown_refl (fh : ftpfs_file) : holds_content (buf fh) -> grown 0 fh fh.
Proof. intros H. unfold grown. pose proof H as [H0 H1]. repeat split; lia. Qed.

Lemma grown_trans (n m : Z) (fh1 fh2 fh3 : ftpfs_file) :
  grown n fh1 fh2 -> grown m fh2 fh3 -> grown (n + m) fh1 fh3.
Proof.
  unfold grown. intros (Hb & Hl & Hc & Hs & Ho) (Hb' & Hl' & Hc' & Hs' & Ho').
  split; [congruence |]. split; [lia |]. split; [assumption |].
  split; congruence.
Qed.

Lemma read_data_grown (data : list byte) (ok : bool) (fh : ftpfs_file) :
  holds_content (buf fh) ->
  len (buf fh) + Z.of_nat (List.length data) < 2 ^ 64 ->
  grown (Z.of_nat (List.length data)) fh
    (set_buf (snd (read_data data ok (buf fh))) fh).
Proof.
  intros Hc Hb. pose proof (content_length _ Hc) as Hl.
  unfold read_data, buf_add_mem, grown, holds_content in *.
  destruct ok; cbn.
  - rewrite to_size_t_small by lia.
    rewrite length_app. repeat split; lia.
  - repeat split; lia.
Qed.

Lemma deliver_grown (a : perform_answer) (fh : ftpfs_file) :
  holds_content (buf fh) ->
  len (buf fh) + chunk_bytes a < 2 ^ 64 ->
  grown (chunk_bytes a) fh (deliver a fh).
Proof.
  unfold deliver, chunk_bytes. revert fh.
  induction (delivered a) as [| c l IH]; intros fh Hc Hb; cbn in *.
  - now apply grown_refl.
  - pose proof (chunk_bytes_nonneg (mk_perform l 0)) as Hl.
    unfold chunk_bytes in Hl. cbn in Hl.
    pose proof (read_data_grown (fst c) (snd c) fh Hc) as Hstep.
    eapply grown_trans; [apply Hstep; lia |].
    apply IH.
    + apply Hstep. lia.
    + destruct Hstep as (_ & Hlen & _); lia.
Qed.

Lemma wait_for_data_grown (script : list (Z * perform_answer)) :
  forall (size offset : Z) (g : ftpfs_t) (fh : ftpfs_file) (running_handles : Z)
         err running_handles' g' fh',
    holds_content (buf fh) ->
    len (buf fh) + script_bytes script < 2 ^ 64 ->
    wait_for_data script size offset g fh running_handles
    = Some (err, running_handles', g', fh') ->
    grown (script_bytes script) fh fh'.
Proof.
  induction script as [| [rc a] script IH];
    intros size offset g fh rh err rh' g' fh' Hc Hb; cbn [wait_for_data].
  - destruct (_ && _)%bool; [discriminate |].
    intros E. inversion E; subst. now apply grown_refl.
  - pose proof (chunk_bytes_nonneg a) as Ha.
    pose proof (script_bytes_nonneg script) as Hs.
    change (script_bytes ((rc, a) :: script))
      with (chunk_bytes a + script_bytes script) in *.
    destruct (_ && _)%bool.
    + destruct (rc =? -1).
      * intros E. inversion E; subst.
        replace (chunk_bytes a + script_bytes script)
          with (0 + (chunk_bytes a + script_bytes script)) by lia.
        eapply grown_trans; [now apply grown_refl |].
        unfold grown. unfold holds_content in Hc. repeat split; try lia.
      * intros E.
        pose proof (deliver_grown a fh Hc) as Hd.
        eapply grown_trans; [apply Hd; lia |].
        eapply IH; [apply Hd; lia | | exact E].
        destruct Hd as (_ & Hlen & _); lia.
    + intros E. inversion E; subst.
      replace (chunk_bytes a + script_bytes script)
        with (0 + (chunk_bytes a + script_bytes script)) by lia.
      eapply grown_trans; [now apply grown_refl |].
      unfold grown. unfold holds_content in Hc. repeat split; try lia.
Qed.

Lemma pump_window_grown (size offset : Z) (a : read_answer)
    (g : ftpfs_t) (fh : ftpfs_file) err g1 fh1 :
  holds_content (buf fh) ->
  len (buf fh) + (chunk_bytes (on_perform a) + script_bytes (on_select a)) < 2 ^ 64 ->
  pump_window size offset a g fh = Some (err, g1, fh1) ->
  grown (chunk_bytes (on_perform a) + script_bytes (on_select a)) fh fh1.
Proof.
  intros Hc Hb. unfold pump_window.
  pose proof (script_bytes_nonneg (on_select a)) as Hs.
  pose proof (deliver_grown (on_perform a) fh Hc) as Hd.
  destruct (wait_for_data _ _ _ _ _ _) as [[[[e rh] g'] fh'] |] eqn:Ew;
    [| discriminate].
  intros E.
  assert (fh' = fh1) as ->.
  { destruct (rh =? 0); [destruct (read_messages _ _ _) |]; now inversion E. }
  eapply grown_trans; [apply Hd; lia |].
  eapply wait_for_data_grown; [apply Hd; lia | | exact Ew].
  destruct Hd as (_ & Hlen & _); lia.
Qed.

(** ** The call returns once the pump reports the end of the transfer *)

Lemma wait_for_data_stopped (script : list (Z * perform_answer))
    (size offset : Z) (g : ftpfs_t) (fh : ftpfs_file) :
  wait_for_data script size offset g fh 0 = Some (0, 0, g, fh).
Proof.
  destruct script as [| [rc a] script]; cbn [wait_for_data];
    now rewrite andb_false_r.
Qed.

Lemma wait_for_data_returns (script : list (Z * perform_answer)) :
  Exists (fun x => fst x = -1 \/ running (snd x) = 0) script ->
  forall (size offset : Z) (g : ftpfs_t) (fh : ftpfs_file) (running_handles : Z),
    wait_for_data script size offset g fh running_handles <> None.
Proof.
  induction 1 as [[rc a] script [Hrc | Hrun] | [rc a] script _ IH];
    intros size offset g fh rh; cbn [wait_for_data fst snd] in *;
    destruct (_ && _)%bool; try discriminate.
  - subst rc. discriminate.
  - destruct (rc =? -1); [discriminate |].
    rewrite Hrun, wait_for_data_stopped. discriminate.
  - destruct (rc =? -1); [discriminate | apply IH].
Qed.

Lemma ftpfs_read_chunk_returns
    (full_path : string) (rbuf : bool) (size offset fi update_offset : Z)
    (a : read_answer) (g : ftpfs_t) (fh : ftpfs_file) :
  running (on_perform a) = 0
  \/ Exists (fun x => fst x = -1 \/ running (snd x) = 0) (on_select a) ->
  ftpfs_read_chunk full_path rbuf size offset fi update_offset a g fh <> None.
Proof.
  intros Hend. unfold ftpfs_read_chunk, fill_window.
  destruct (cache_miss fh size offset); [| discriminate].
  destruct (must_restart fi offset (on_check_running a) g fh) as [[restart g1] fh1].
  destruct (if restart then _ else _) as [g2 fh2].
  unfold pump_window.
  destruct (wait_for_data _ _ _ _ _ _) as [[[[e rh] g3] fh3] |] eqn:Ew.
  - destruct (rh =? 0); [destruct (read_messages _ _ _) |]; discriminate.
  - exfalso. destruct Hend as [Hzero | Hscript].
    + rewrite Hzero, wait_for_data_stopped in Ew. discriminate.
    + now apply (wait_for_data_returns _ Hscript) in Ew.
Qed.

(** ** The restart *)

Lemma restart_transfer_state (full_path : string) (offset fi : Z)
    (g : ftpfs_t) (fh : ftpfs_file) :
  let r := restart_transfer full_path offset fi g fh in
  len (buf (snd r)) = 0
  /\ begin_offset (buf (snd r)) = offset
  /\ p (buf (snd r)) = p (buf fh)
  /\ can_shrink (snd r) = can_shrink fh
  /\ last_offset (snd r) = last_offset fh
  /\ current_fh (fst r) = fi
  /\ attached_to_multi (fst r) = 1
  /\ calls (fst r)
     = calls g
       ++ (if attached_to_multi g =? 0 then [] else [curl_multi_remove_handle])
       ++ [ curl_easy_setopt (CURLOPT_URL full_path);
            curl_easy_setopt (CURLOPT_WRITEDATA (handle_buf fi)) ]
       ++ (if offset =? 0 then []
           else [ curl_easy_setopt
                    (CURLOPT_RANGE (Some (snprintf 15 (lld offset ++ "-")))) ])
       ++ [ curl_multi_add_handle ].
Proof.
  unfold restart_transfer. cbn [fst snd buf set_buf len begin_offset p buf_clear
    can_shrink last_offset].
  repeat split.
  - unfold cancel_previous_multi. cbn [attached_to_multi set_current_fh].
    destruct (attached_to_multi g =? 0), (offset =? 0); reflexivity.
  - unfold cancel_previous_multi. cbn [attached_to_multi set_current_fh].
    destruct (attached_to_multi g =? 0), (offset =? 0); cbn;
      rewrite <- ?app_assoc; reflexivity.
Qed.

(** ** The window when the request is served *)

Lemma fill_window_in_window (full_path : string) (size offset fi : Z)
    (a : read_answer) (g : ftpfs_t) (fh : ftpfs_file) err g1 fh1 :
  read_in_range size offset a fh ->
  fill_window full_path size offset fi a g fh = Some (err, g1, fh1) ->
  0 <= begin_offset (buf fh1) <= offset
  /\ offset <= begin_offset (buf fh1) + len (buf fh1) <= OFF_MAX
  /\ holds_content (buf fh1)
  /\ can_shrink fh1 = can_shrink fh
  /\ last_offset fh1 = last_offset fh.
Proof.
  unfold read_in_range, answer_bytes. intros (Hsize & Hoff & Hbeg & Hc & Hmax).
  pose proof (chunk_bytes_nonneg (on_check_running a)) as H0.
  pose proof (chunk_bytes_nonneg (on_perform a)) as H1.
  pose proof (script_bytes_nonneg (on_select a)) as H2.
  pose proof Hc as [Hl0 Hl1]. unfold OFF_MAX in *.
  assert (Hwin : past_window fh offset = false ->
                 offset <= begin_offset (buf fh) + len (buf fh)).
  { unfold past_window. intros Hb.
    rewrite !to_size_t_small in Hb by lia. tests. lia. }
  unfold fill_window. destruct (cache_miss fh size offset) eqn:Em.
  - unfold must_restart.
    destruct (negb (current_fh g =? fi) || (offset <? begin_offset (buf fh))
              || past_window fh offset)%bool eqn:Et.
    + (* another owner, or the offset is outside the window *)
      pose proof (restart_transfer_state full_path offset fi g fh) as Hr.
      destruct (restart_transfer full_path offset fi g fh) as [gr fhr].
      cbn [fst snd] in Hr. destruct Hr as (Hrl & Hrb & Hrp & Hrs & Hro & _).
      intros E. apply pump_window_grown in E.
      * destruct E as (Eb & El & Ec & Es & Eo). split; [lia |]. split; [lia |]. split; [assumption |]. split; congruence.
      * unfold holds_content. rewrite Hrl, Hrp. lia.
      * lia.
    + (* same owner, inside the window: is the transfer still running? *)
      tests.
      assert (Hin : offset <= begin_offset (buf fh) + len (buf fh))
        by (apply Hwin; assumption).
      unfold check_running.
      pose proof (deliver_grown (on_check_running a) fh Hc) as Hd.
      assert (Hd' : grown (chunk_bytes (on_check_running a)) fh
                      (deliver (on_check_running a) fh)) by (apply Hd; lia).
      clear Hd. destruct Hd' as (Db & Dl & Dc & Ds & Do).
      destruct (running (on_check_running a) =? 0).
      * pose proof (restart_transfer_state full_path offset fi
                      (call curl_multi_perform g)
                      (deliver (on_check_running a) fh)) as Hr.
        destruct (restart_transfer _ _ _ _ _) as [gr fhr].
        cbn [fst snd] in Hr. destruct Hr as (Hrl & Hrb & Hrp & Hrs & Hro & _).
        intros E. apply pump_window_grown in E.
        -- destruct E as (Eb & El & Ec & Es & Eo).
           split; [lia |]. split; [lia |]. split; [assumption |]. split; congruence.
        -- unfold holds_content. rewrite Hrl, Hrp. destruct Dc. lia.
        -- lia.
      * intros E. apply pump_window_grown in E.
        -- destruct E as (Eb & El & Ec & Es & Eo).
           split; [lia |]. split; [lia |]. split; [assumption |]. split; congruence.
        -- exact Dc.
        -- lia.
  - intros E. injection E as He Hg Hf. subst err g1 fh1.
    unfold cache_miss in Em. tests.
    assert (Hin : offset <= begin_offset (buf fh) + len (buf fh))
      by (apply Hwin; assumption).
    split; [lia |]. split; [lia |]. split; [assumption |]. split; reflexivity.
Qed.

(** ** Serving *)

Lemma to_copy_in_window (fh : ftpfs_file) (offset : Z) :
  0 <= begin_offset (buf fh) <= offset ->
  offset <= begin_offset (buf fh) + len (buf fh) <= OFF_MAX ->
  to_copy fh offset = begin_offset (buf fh) + len (buf fh) - offset.
Proof.
  unfold to_copy, OFF_MAX. intros H0 H1.
  rewrite to_size_t_small by lia. lia.
Qed.

Lemma served_in_window (fh : ftpfs_file) (size offset : Z) :
  0 <= begin_offset (buf fh) <= offset ->
  offset <= begin_offset (buf fh) + len (buf fh) <= OFF_MAX ->
  served fh size offset
  = Z.min size (begin_offset (buf fh) + len (buf fh) - offset).
Proof.
  intros H0 H1. unfold served. rewrite to_copy_in_window by assumption.
  destruct (size >? _) eqn:E; tests; lia.
Qed.

Lemma shrink_last_offset (size offset : Z) (fh : ftpfs_file) :
  last_offset (shrink size offset fh) = last_offset fh.
Proof. unfold shrink. now destruct (_ && _)%bool. Qed.

Lemma bytes_at_content (b : buffer) (i n : Z) :
  0 <= i -> 0 <= n -> i + n <= len b ->
  bytes_at (p b) i n = bytes_at (content b) i n.
Proof.
  intros Hi Hn Hb. rewrite content_bytes_at.
  rewrite bytes_at_bytes_at by lia. reflexivity.
Qed.

(** C5.  A read-chunk that succeeds returns the smaller of the requested
    size and the number of bytes the window holds from the offset on,
    [begin_offset + len - offset]; the bytes copied out are that many bytes of
    the window from index [offset - begin_offset]; and with [update_offset]
    set, [last_offset] becomes the offset plus the count returned.  The window
    meant is the one at the time of serving, [fh1]. *)
Theorem ftpfs_read_chunk_serves
    (full_path : string) (rbuf : bool) (size offset fi update_offset : Z)
    (a : read_answer) (g : ftpfs_t) (fh : ftpfs_file)
    err g1 fh1 ret out g2 fh2 :
  read_in_range size offset a fh ->
  fill_window full_path size offset fi a g fh = Some (err, g1, fh1) ->
  ftpfs_read_chunk full_path rbuf size offset fi update_offset a g fh
  = Some (ret, out, g2, fh2) ->
  ret <> CURLFTPFS_BAD_READ ->
  ret = Z.min size (begin_offset (buf fh1) + len (buf fh1) - offset)
  /\ out = (if rbuf
            then Some (bytes_at (content (buf fh1))
                         (offset - begin_offset (buf fh1)) ret)
            else None)
  /\ (forall bytes, out = Some bytes -> Z.of_nat (List.length bytes) = ret)
  /\ (update_offset <> 0 -> last_offset fh2 = offset + ret)
  /\ (update_offset = 0 -> last_offset fh2 = last_offset fh).
Proof.
  intros Hrange Hfill Hread Hok.
  pose proof (fill_window_in_window _ _ _ _ _ _ _ _ _ _ Hrange Hfill)
    as (Hb & Hl & Hc & _ & Hlast).
  pose proof (served_in_window fh1 size offset Hb Hl) as Hserved.
  destruct Hrange as (Hsize & _).
  unfold ftpfs_read_chunk in Hread. rewrite Hfill in Hread.
  unfold option_map, answer_request, serve in Hread.
  injection Hread as Hret Hout Hg Hfh.
  assert (Hret' : ret = served fh1 size offset).
  { destruct (err =? 0); [congruence | now subst ret]. }
  clear Hret. rewrite Hserved in *. set (n := Z.min size _) in *.
  assert (Hn : 0 <= n <= begin_offset (buf fh1) + len (buf fh1) - offset)
    by (subst n; lia).
  assert (Hout' : out = if rbuf
                        then Some (bytes_at (content (buf fh1))
                                     (offset - begin_offset (buf fh1)) ret)
                        else None).
  { subst out ret. destruct rbuf; [| reflexivity].
    now rewrite bytes_at_content by lia. }
  split; [exact Hret' |]. split; [exact Hout' |]. split; [| split].
  - intros bytes Hbytes. rewrite Hout' in Hbytes. destruct rbuf; [| discriminate].
    injection Hbytes as <-. apply bytes_at_length; try lia.
    rewrite content_length by assumption. lia.
  - intros Hu. subst fh2. rewrite shrink_last_offset.
    apply Z.eqb_neq in Hu. rewrite Hu. cbn [last_offset set_last_offset].
    rewrite Hret'. apply to_off_t_small. unfold OFF_MAX in *. lia.
  - intros ->. subst fh2. rewrite shrink_last_offset. cbn [Z.eqb]. exact Hlast.
Qed.

(** ** Shrinking *)

Lemma firstn_app_exact (l1 l2 : list byte) (n : nat) :
  List.length l1 = n -> firstn n (l1 ++ l2) = l1.
Proof.
  intros <-. rewrite firstn_app, Nat.sub_diag, firstn_all. cbn.
  apply app_nil_r.
Qed.

Lemma memmove_front_content (b : buffer) (k n : Z) :
  holds_content b -> 0 <= k -> 0 <= n -> k + n = len b ->
  firstn (Z.to_nat n) (memmove_front (p b) k n)
  = skipn (Z.to_nat k) (content b).
Proof.
  intros Hc Hk Hn Hlen. pose proof Hc as [H0 H1]. unfold memmove_front.
  rewrite firstn_app_exact.
  - rewrite content_bytes_at, skipn_bytes_at by lia.
    f_equal; lia.
  - apply Nat2Z.inj. rewrite bytes_at_length by lia. lia.
Qed.

(** C4.  On a handle with [can_shrink] set whose window, when the request is
    served, is longer than [MAX_BUFFER_LEN], the shrink step keeps exactly the
    bytes after [offset + served] at the front of the buffer, sets
    [begin_offset = offset + served] and [len] to the length of that tail, and
    the window still holds the bytes [begin_offset, begin_offset + len) of the
    remote file: every byte it keeps is found at the same file offset. *)
Theorem ftpfs_read_chunk_shrinks
    (full_path : string) (rbuf : bool) (size offset fi update_offset : Z)
    (a : read_answer) (g : ftpfs_t) (fh : ftpfs_file) (remote : list byte)
    err g1 fh1 ret out g2 fh2 :
  read_in_range size offset a fh ->
  fill_window full_path size offset fi a g fh = Some (err, g1, fh1) ->
  ftpfs_read_chunk full_path rbuf size offset fi update_offset a g fh
  = Some (ret, out, g2, fh2) ->
  can_shrink fh <> 0 ->
  len (buf fh1) > MAX_BUFFER_LEN ->
  holds_window remote (buf fh1) ->
  let n := Z.min size (begin_offset (buf fh1) + len (buf fh1) - offset) in
  begin_offset (buf fh2) = offset + n
  /\ len (buf fh2) = begin_offset (buf fh1) + len (buf fh1) - (offset + n)
  /\ content (buf fh2)
     = skipn (Z.to_nat (offset + n - begin_offset (buf fh1))) (content (buf fh1))
  /\ holds_window remote (buf fh2)
  /\ forall x d,
       offset + n <= x < begin_offset (buf fh1) + len (buf fh1) ->
       nth (Z.to_nat (x - begin_offset (buf fh2))) (content (buf fh2)) d
       = nth (Z.to_nat (x - begin_offset (buf fh1))) (content (buf fh1)) d.
Proof.
  intros Hrange Hfill Hread Hcan Hbig Hwin n.
  pose proof (fill_window_in_window _ _ _ _ _ _ _ _ _ _ Hrange Hfill)
    as (Hb & Hl & Hc & Hcan1 & _).
  pose proof (served_in_window fh1 size offset Hb Hl) as Hserved.
  pose proof (to_copy_in_window fh1 offset Hb Hl) as Hcopy.
  destruct Hrange as (Hsize & _).
  fold n in Hserved.
  assert (Hn : 0 <= n <= begin_offset (buf fh1) + len (buf fh1) - offset)
    by (subst n; lia).
  unfold ftpfs_read_chunk in Hread. rewrite Hfill in Hread.
  unfold option_map, answer_request, serve in Hread.
  injection Hread as _ _ _ Hfh.
  rewrite Hserved in Hfh.
  set (fh1' := if update_offset =? 0 then fh1
               else set_last_offset (to_off_t (offset + n)) fh1) in Hfh.
  assert (Hbuf : buf fh1' = buf fh1)
    by (subst fh1'; now destruct (update_offset =? 0)).
  assert (Hcs : can_shrink fh1' = can_shrink fh1)
    by (subst fh1'; now destruct (update_offset =? 0)).
  assert (Hcopy' : to_copy fh1' offset = to_copy fh1 offset)
    by (unfold to_copy; now rewrite Hbuf).
  unfold shrink in Hfh. rewrite Hcs, Hbuf, Hcopy', Hcopy, Hcan1 in Hfh.
  apply Z.eqb_neq in Hcan. rewrite Hcan in Hfh.
  assert (Hgt : (len (buf fh1) >? MAX_BUFFER_LEN) = true)
    by (rewrite Z.gtb_ltb; apply Z.ltb_lt; lia).
  rewrite Hgt in Hfh. cbn [negb andb] in Hfh.
  unfold OFF_MAX in *.
  rewrite to_size_t_small, to_off_t_small in Hfh by (unfold OFF_MAX; lia).
  set (k := offset - begin_offset (buf fh1) + n) in *.
  set (tail := begin_offset (buf fh1) + len (buf fh1) - offset - n) in *.
  assert (Hcontent : content (buf fh2) = skipn (Z.to_nat k) (content (buf fh1))).
  { subst fh2. unfold content at 1. cbn [buf set_buf len p].
    fold (content (buf fh1)).
    apply memmove_front_content; subst k tail; try assumption; lia. }
  assert (Hbegin : begin_offset (buf fh2) = offset + n) by now subst fh2.
  assert (Hlen : len (buf fh2) = tail) by now subst fh2.
  destruct Hwin as (W0 & W1 & W2 & W3).
  split; [exact Hbegin |]. split; [subst tail; lia |].
  split; [rewrite Hcontent; f_equal; subst k; lia |]. split.
  - unfold holds_window. rewrite Hbegin, Hlen.
    split; [lia |]. split; [subst tail; lia |]. split; [subst tail; lia |].
    rewrite Hcontent, W3, skipn_bytes_at by (subst k; lia).
    f_equal; subst k tail; lia.
  - intros x d Hx. rewrite Hcontent, Hbegin, nth_skipn.
    f_equal. subst k. lia.
Qed.

Example second_ten_window_of_twenty :
  holds_window twenty (buf (reading second_ten 10 10 0)).
Proof. unfold holds_window. cbn. repeat split; lia. Qed.

Lemma ftpfs_read_chunk_serves_witness :
  4 = Z.min 4 (10 + 10 - 12)
  /\ Some [x0c; x0d; x0e; x0f]
     = Some (bytes_at (content (buf (reading second_ten 10 10 0))) (12 - 10) 4).
Proof.
  assert (Hrange : read_in_range 4 12 no_transfer (reading second_ten 10 10 0)).
  { unfold read_in_range, holds_content. cbn. lia. }
  destruct (ftpfs_read_chunk_serves "ftp://host/f" true 4 12 1 1 no_transfer
              (owned_by 1) (reading second_ten 10 10 0)
              0 (owned_by 1) (reading second_ten 10 10 0)
              4 (Some [x0c; x0d; x0e; x0f]) (owned_by 1)
              (set_last_offset 16 (reading second_ten 10 10 0))
              Hrange eq_refl eq_refl)
    as (H1 & H2 & _).
  - vm_compute. discriminate.
  - split; [exact H1 | exact H2].
Defined.

Lemma big_length : Z.of_nat (List.length big) = 307201.
Proof. unfold big. rewrite repeat_length. lia. Qed.

Lemma ftpfs_read_chunk_shrinks_witness :
  holds_window big
    (mk_buffer (memmove_front big 4096 303105) 303105 4096).
Proof.
  assert (Hrange : read_in_range 4096 0 no_transfer (reading big 307201 0 1)).
  { unfold read_in_range, holds_content.
    cbn [buf reading len begin_offset p]. rewrite big_length.
    change (answer_bytes no_transfer) with 0. unfold OFF_MAX. lia. }
  assert (Hwin : holds_window big (buf (reading big 307201 0 1))).
  { unfold holds_window. cbn [buf reading len begin_offset].
    rewrite big_length. repeat split; lia. }
  assert (Hshrink : can_shrink (reading big 307201 0 1) <> 0)
    by (cbn; lia).
  assert (Hbig : len (buf (reading big 307201 0 1)) > MAX_BUFFER_LEN)
    by (cbn [buf reading len]; unfold MAX_BUFFER_LEN; lia).
  destruct (ftpfs_read_chunk_shrinks "ftp://host/f" true 4096 0 1 0 no_transfer
              (owned_by 1) (reading big 307201 0 1) big
              0 (owned_by 1) (reading big 307201 0 1)
              4096 (Some (bytes_at big 0 4096)) (owned_by 1)
              (set_buf (mk_buffer (memmove_front big 4096 303105) 303105 4096)
                 (reading big 307201 0 1))
              Hrange eq_refl eq_refl Hshrink Hbig Hwin)
    as (_ & _ & _ & H & _).
  exact H.
Defined.

(** ** The text of the byte range *)

Lemma string_length_app (s t : string) :
  String.length (s ++ t) = (String.length s + String.length t)%nat.
Proof. induction s as [| c s IH]; cbn; [reflexivity | now rewrite IH]. Qed.

Lemma truncate_short (k : nat) (s : string) :
  (String.length s <= k)%nat -> truncate k s = s.
Proof.
  revert s. induction k as [| k IH]; intros [| c s] H; cbn in *;
    try reflexivity; try lia.
  f_equal. apply IH. lia.
Qed.

Lemma digits_length (base : Z) (fuel : nat) :
  1 < base ->
  forall (n : Z) (acc : string) (k : nat),
    0 <= n < base ^ Z.of_nat k -> (1 <= k <= fuel)%nat ->
    (String.length (digits base fuel n acc) <= k + String.length acc)%nat.
Proof.
  intros Hbase. induction fuel as [| fuel IH]; intros n acc k Hn Hk; [lia |].
  cbn [digits]. destruct (n / base =? 0) eqn:E; tests.
  - cbn. lia.
  - assert (Hge : base <= n).
    { destruct (Z.lt_ge_cases n base) as [Hlt | Hge]; [| exact Hge].
      rewrite Z.div_small in E by lia. contradiction. }
    destruct k as [| k]; [lia |].
    destruct k as [| k].
    { change (base ^ Z.of_nat 1) with (base ^ 1) in Hn.
      rewrite Z.pow_1_r in Hn. lia. }
    specialize (IH (n / base) (String (digit (n mod base)) acc) (S k)).
    cbn [String.length] in IH.
    assert (Hdiv : 0 <= n / base < base ^ Z.of_nat (S k)).
    { split; [apply Z.div_pos; lia |].
      apply Z.div_lt_upper_bound; [lia |].
      rewrite <- Z.pow_succ_r by lia. rewrite <- Nat2Z.inj_succ. lia. }
    specialize (IH Hdiv). lia.
Qed.

Lemma snprintf_range_exact (offset : Z) :
  0 <= offset < 10 ^ 13 ->
  snprintf 15 (lld offset ++ "-") = (lld offset ++ "-")%string.
Proof.
  intros H. unfold snprintf. apply truncate_short.
  rewrite string_length_app. unfold lld.
  destruct (offset <? 0) eqn:E; tests; [lia |].
  pose proof (digits_length 10 20 ltac:(lia) offset EmptyString 13%nat) as Hd.
  cbn [String.length] in *.
  assert (Hk : (1 <= 13 <= 20)%nat) by lia.
  specialize (Hd H Hk). lia.
Qed.

Example lld_1000 : lld 1000 = "1000"%string.
Proof. reflexivity. Qed.

Example range_of_200000 : snprintf 15 (lld 200000 ++ "-") = "200000-"%string.
Proof. reflexivity. Qed.

(** Fourteen digits leave no room for the dash in [char range[15]]. *)
Example range_of_ten_to_13 :
  snprintf 15 (lld (10 ^ 13) ++ "-") = "10000000000000"%string.
Proof. reflexivity. Qed.

Example o3_420 : o3 420 = "644"%string.
Proof. reflexivity. Qed.

(** ** When the transfer is restarted *)

Lemma must_restart_outside (fi offset : Z) (a : perform_answer)
    (g : ftpfs_t) (fh : ftpfs_file) :
  (negb (current_fh g =? fi) || (offset <? begin_offset (buf fh))
   || past_window fh offset)%bool = true ->
  must_restart fi offset a g fh = (true, g, fh).
Proof. intros H. unfold must_restart. now rewrite H. Qed.

(** C1, as the code has it.  A backward seek, a jump past the end of the
    window, or a request from a handle that does not own the download and asks
    for bytes beyond the end of the window restarts the transfer: the window is
    emptied, [begin_offset] becomes the offset, the handle becomes the owner,
    and the connection gets the URL, the window as target and, for an offset
    other than 0, the range text, before it is attached to the pump.  The rest
    of the call runs from that state.  Below ten to the thirteenth the range
    text is the offset followed by a dash.  A request that lies inside the
    window is answered from it, whoever owns the download: the connection is
    left alone. *)
Theorem ftpfs_read_chunk_restarts
    (full_path : string) (rbuf : bool) (size offset fi update_offset : Z)
    (a : read_answer) (g : ftpfs_t) (fh : ftpfs_file) :
  read_in_range size offset a fh ->
  offset + size <= OFF_MAX ->
  (offset < begin_offset (buf fh)
   \/ begin_offset (buf fh) + len (buf fh) < offset
   \/ (current_fh g <> fi
       /\ begin_offset (buf fh) + len (buf fh) < offset + size) ->
   let r := restart_transfer full_path offset fi g fh in
   ftpfs_read_chunk full_path rbuf size offset fi update_offset a g fh
   = option_map (answer_request rbuf size offset update_offset)
       (pump_window size offset a (fst r) (snd r))
   /\ len (buf (snd r)) = 0
   /\ begin_offset (buf (snd r)) = offset
   /\ current_fh (fst r) = fi
   /\ calls (fst r)
      = calls g
        ++ (if attached_to_multi g =? 0 then [] else [curl_multi_remove_handle])
        ++ [ curl_easy_setopt (CURLOPT_URL full_path);
             curl_easy_setopt (CURLOPT_WRITEDATA (handle_buf fi)) ]
        ++ (if offset =? 0 then []
            else [ curl_easy_setopt
                     (CURLOPT_RANGE (Some (snprintf 15 (lld offset ++ "-")))) ])
        ++ [ curl_multi_add_handle ]
   /\ (offset < 10 ^ 13 ->
       snprintf 15 (lld offset ++ "-") = (lld offset ++ "-")%string))
  /\
  (begin_offset (buf fh) <= offset ->
   offset + size <= begin_offset (buf fh) + len (buf fh) ->
   ftpfs_read_chunk full_path rbuf size offset fi update_offset a g fh
   = Some (answer_request rbuf size offset update_offset (0, g, fh))).
Proof.
  intros Hrange Hspan.
  destruct Hrange as (Hsize & Hoff & Hbeg & [Hl0 Hl1] & Hmax).
  unfold answer_bytes, OFF_MAX in *.
  pose proof (chunk_bytes_nonneg (on_check_running a)) as H0.
  pose proof (chunk_bytes_nonneg (on_perform a)) as H1.
  pose proof (script_bytes_nonneg (on_select a)) as H2.
  assert (Hpast : past_window fh offset
                  = (begin_offset (buf fh) + len (buf fh) <? offset)).
  { unfold past_window. now rewrite !to_size_t_small by lia. }
  split.
  - intros Htrigger.
    pose proof (restart_transfer_state full_path offset fi g fh)
      as (Hl & Hb & _ & _ & _ & Ho & _ & Hcalls).
    split; [| split; [exact Hl | split; [exact Hb | split; [exact Ho |
            split; [exact Hcalls
                   | intros H13; apply snprintf_range_exact; lia]]]]].
    assert (Hout : (negb (current_fh g =? fi)
                    || (offset <? begin_offset (buf fh))
                    || past_window fh offset)%bool = true).
    { rewrite Hpast. destruct Htrigger as [Hback | [Hjump | [Hown _]]].
      - apply Z.ltb_lt in Hback. rewrite Hback. now rewrite orb_true_r.
      - apply Z.ltb_lt in Hjump. rewrite Hjump. now rewrite orb_true_r.
      - apply Z.eqb_neq in Hown. now rewrite Hown. }
    assert (Hmiss : cache_miss fh size offset = true).
    { unfold cache_miss. rewrite Hpast.
      destruct Htrigger as [Hback | [Hjump | [_ Hshort]]].
      - apply Z.ltb_lt in Hback. rewrite Hback. now rewrite orb_true_r.
      - apply Z.ltb_lt in Hjump. rewrite Hjump. now rewrite orb_true_r.
      - destruct (offset <? begin_offset (buf fh)) eqn:E;
          [now rewrite orb_true_r |]. tests.
        unfold wanted. rewrite to_size_t_small by lia.
        assert (Hlt : (len (buf fh) <? size + offset - begin_offset (buf fh))
                      = true) by (apply Z.ltb_lt; lia).
        now rewrite Hlt. }
    unfold ftpfs_read_chunk, fill_window.
    rewrite Hmiss, (must_restart_outside _ _ _ _ _ Hout).
    now destruct (restart_transfer full_path offset fi g fh).
  - intros Hfrom Hto.
    assert (Hhit : cache_miss fh size offset = false).
    { unfold cache_miss, wanted. rewrite Hpast, to_size_t_small by lia.
      apply orb_false_iff. split; [apply orb_false_iff; split |];
        apply Z.ltb_ge; lia. }
    unfold ftpfs_read_chunk, fill_window. now rewrite Hhit.
Qed.

(** C1 as stated fails on the third cause alone: the handle at address 1 does
    not own the download, its window holds the offsets 10..19, and four bytes
    at offset 12 are served from the window: nothing is asked of the
    connection, the owner stays, the window stays. *)
Lemma ftpfs_read_chunk_other_owner_served_from_window :
  current_fh (owned_by 2) <> 1
  /\ ftpfs_read_chunk "ftp://host/f" true 4 12 1 1 no_transfer
       (owned_by 2) (reading second_ten 10 10 0)
     = Some (4, Some [x0c; x0d; x0e; x0f], owned_by 2,
             set_last_offset 16 (reading second_ten 10 10 0))
  /\ calls (owned_by 2) = []
  /\ begin_offset (buf (set_last_offset 16 (reading second_ten 10 10 0))) <> 12
  /\ len (buf (set_last_offset 16 (reading second_ten 10 10 0))) <> 0.
Proof. cbn. repeat split; try reflexivity; lia. Qed.

Lemma ftpfs_read_chunk_restarts_witness :
  ftpfs_read_chunk "ftp://host/f" true 4 3 1 1 no_transfer
    (owned_by 1) (reading second_ten 10 10 0)
  = option_map (answer_request true 4 3 1)
      (pump_window 4 3 no_transfer
         (fst (restart_transfer "ftp://host/f" 3 1 (owned_by 1)
                 (reading second_ten 10 10 0)))
         (snd (restart_transfer "ftp://host/f" 3 1 (owned_by 1)
                 (reading second_ten 10 10 0)))).
Proof.
  assert (Hrange : read_in_range 4 3 no_transfer (reading second_ten 10 10 0)).
  { unfold read_in_range, holds_content. cbn. lia. }
  assert (Hspan : 3 + 4 <= OFF_MAX) by (unfold OFF_MAX; lia).
  assert (Hback : 3 < begin_offset (buf (reading second_ten 10 10 0))
                  \/ begin_offset (buf (reading second_ten 10 10 0))
                     + len (buf (reading second_ten 10 10 0)) < 3
                  \/ (current_fh (owned_by 1) <> 1
                      /\ begin_offset (buf (reading second_ten 10 10 0))
                         + len (buf (reading second_ten 10 10 0)) < 3 + 4))
    by (left; cbn; lia).
  destruct (ftpfs_read_chunk_restarts "ftp://host/f" true 4 3 1 1 no_transfer
              (owned_by 1) (reading second_ten 10 10 0) Hrange Hspan)
    as [H _].
  apply (H Hback).
Defined.

(** ** One write call *)

Lemma start_write_thread_cases (a : start_answer) (fh : ftpfs_file) :
  let r := start_write_thread a fh in
  pos (snd r) = pos fh
  /\ write_fail_cause (snd r) = write_fail_cause fh
  /\ (fst r = 0 \/ (fst r = 1 /\ write_conn (snd r) = true)).
Proof.
  unfold start_write_thread.
  destruct (curl_easy_init_ok a); [destruct (pthread_create_err a =? 0) |];
    cbn; auto.
Qed.

Lemma start_streaming_cases (get_dir_path : string -> string) (path : string)
    (offset : Z) (a : write_answer) (g : ftpfs_t) (fh : ftpfs_file)
    res g' fh' :
  start_streaming get_dir_path path offset a g fh = (res, g', fh') ->
  pos fh' = pos fh
  /\ write_fail_cause fh' = write_fail_cause fh
  /\ match res with
     | Some r => r = - EIO
     | None =>
         (fh' = fh /\ g' = g
          /\ (write_conn fh = true \/ pos fh <> 0 \/ offset <> 0))
         \/ (write_conn fh = false /\ pos fh = 0 /\ offset = 0
             /\ write_conn fh' = true)
     end.
Proof.
  unfold start_streaming, op_return.
  destruct (negb (write_conn fh) && (pos fh =? 0) && (offset =? 0))%bool eqn:Ec.
  - tests.
    destruct (if write_may_start fh =? 0 then _ else _) as [refused g1].
    destruct refused.
    + intros E. injection E as Hr Hg Hf. subst res g' fh'. auto.
    + pose proof (start_write_thread_cases (on_start a) fh) as (Hp & Hw & Hs).
      destruct (start_write_thread (on_start a) fh) as [success fh1].
      cbn [fst snd] in *.
      destruct Hs as [-> | [-> Hconn]]; cbn [Z.eqb];
        intros E; injection E as Hr Hg Hf; subst res g' fh'; repeat split; auto.
  - intros E. injection E as Hr Hg Hf. subst res g' fh'. repeat split. left. repeat split.
    destruct (write_conn fh); [now left | right].
    cbn in Ec. destruct (pos fh =? 0) eqn:Ep; tests; [right | left]; lia.
Qed.

Lemma resume_streaming_cases (offset : Z) (a : write_answer)
    (g : ftpfs_t) (fh : ftpfs_file) res g' fh' :
  resume_streaming offset a g fh = (res, g', fh') ->
  pos fh' = pos fh
  /\ write_fail_cause fh' = write_fail_cause fh
  /\ g' = g
  /\ match res with
     | Some r => r = - EIO
     | None =>
         (fh' = fh
          /\ (write_conn fh = true \/ pos fh <= 0 \/ offset <> pos fh))
         \/ (write_conn fh = false /\ offset = pos fh
             /\ write_conn fh' = true)
     end.
Proof.
  unfold resume_streaming, op_return.
  destruct (negb (write_conn fh) && (pos fh >? 0) && (offset =? pos fh))%bool
    eqn:Ec.
  - tests.
    pose proof (start_write_thread_cases (on_start a) fh) as (Hp & Hw & Hs).
    destruct (start_write_thread (on_start a) fh) as [success fh1].
    cbn [fst snd] in *.
    destruct Hs as [-> | [-> Hconn]]; cbn [Z.eqb];
      intros E; injection E as Hr Hg Hf; subst res g' fh'; repeat split; auto.
  - intros E. injection E as Hr Hg Hf. subst res g' fh'. repeat split. left. split; [reflexivity |].
    destruct (write_conn fh); [now left | right].
    cbn in Ec. destruct (pos fh >? 0) eqn:Ep; tests; [right | left]; lia.
Qed.

Lemma write_chunk_cases (wbuf : list byte) (size offset : Z) (a : write_answer)
    (g : ftpfs_t) (fh : ftpfs_file) r g' fh' :
  write_fail_cause fh = 0 ->
  write_chunk wbuf size offset a g fh = (r, g', fh') ->
  g' = g
  /\ (write_conn fh = false -> r = to_int size /\ fh' = fh)
  /\ (write_conn fh = true -> offset <> pos fh ->
      r = - EIO /\ pos fh' = pos fh /\ write_conn fh' = false /\ eof fh' = 1
      /\ write_fail_cause fh' = Z.of_N (on_join a))
  /\ (write_conn fh = true -> offset = pos fh ->
      (r = - ENOMEM /\ fh' = fh)
      \/ (pos fh' = to_off_t (pos fh + size)
          /\ ((r = to_int size /\ write_fail_cause fh' = 0)
              \/ (r = - EIO /\ write_fail_cause fh' <> 0)))).
Proof.
  intros Hw. unfold write_chunk, op_return.
  destruct (write_conn fh) eqn:Ec.
  - destruct (negb (offset =? pos fh)) eqn:Eo; tests.
    + pose proof (finish_write_thread_state (on_join a) fh)
        as (F1 & F2 & F3 & F4 & _).
      destruct (finish_write_thread (on_join a) fh) as [e fh1].
      cbn [fst snd] in *. rewrite Hw in F4. cbn [Z.eqb] in F4.
      intros E. injection E as Hr Hg Hf. subst r g' fh'.
      repeat split; try discriminate; try assumption; try contradiction;
        intros; tauto.
    + unfold buf_add_mem.
      destruct (on_buf_add_mem a); cbn [Z.eqb].
      * destruct (negb (write_fail_cause _ =? 0)) eqn:Ef; tests;
          intros E; injection E as Hr Hg Hf; subst r g' fh';
          (split; [reflexivity |]); (split; [discriminate |]);
          (split; [contradiction |]); intros _ _; right;
          (split; [unfold handoff, ftpfs_write_thread_exit;
                   destruct (on_data_written a) as [| c];
                   [| destruct (c =? CURLE_OK)%N]; reflexivity |]).
        -- right. now split.
        -- left. now split.
      * intros E. injection E as Hr Hg Hf. subst r g' fh'.
        repeat split; try discriminate; try contradiction. now left.
  - intros E. injection E as Hr Hg Hf. subst r g' fh'.
    repeat split; try discriminate; try reflexivity.
Qed.

(** A call either succeeds, and then it was made at [offset = pos] and has
    advanced [pos] by [size], unless it was a stray write; or it fails, and
    then [pos] is as before, unless the worker failed after it had been given
    the bytes. *)
Lemma ftpfs_write_step (get_dir_path : string -> string) (path : string)
    (wbuf : list byte) (size offset : Z) (a : write_answer)
    (g : ftpfs_t) (fh : ftpfs_file) r g' fh' :
  0 <= size <= INT_MAX -> 0 <= pos fh -> pos fh + size <= OFF_MAX ->
  ftpfs_write get_dir_path path wbuf size offset a g fh = (r, g', fh') ->
  (r = size /\ write_fail_cause fh = 0 /\ write_fail_cause fh' = 0
   /\ ((offset = pos fh /\ pos fh' = pos fh + size)
       \/ (write_conn fh = false /\ offset <> pos fh /\ fh' = fh)))
  \/
  (r < 0
   /\ (write_fail_cause fh <> 0 -> fh' = fh)
   /\ (pos fh' = pos fh
       \/ (write_fail_cause fh = 0 /\ write_fail_cause fh' <> 0
           /\ pos fh' = pos fh + size /\ r = - EIO))).
Proof.
  intros Hsize Hpos Hmax.
  pose proof (to_int_small size) as Hint.
  pose proof (to_off_t_small (pos fh + size)) as Hoff.
  unfold INT_MAX, OFF_MAX, EIO, ENOMEM in *.
  unfold ftpfs_write.
  destruct (negb (write_fail_cause fh =? 0)) eqn:Ew; tests.
  { intros E. injection E as Hr Hg Hf. subst r g' fh'. right.
    repeat split; auto; lia. }
  destruct (start_streaming get_dir_path path offset a g fh)
    as [[res1 g1] fh1] eqn:E1.
  apply start_streaming_cases in E1. destruct E1 as (P1 & W1 & C1).
  destruct res1 as [r1 |].
  { intros E. injection E as Hr Hg Hf. subst r g' fh'. right.
    unfold EIO in C1. repeat split; try lia; try (intros; contradiction). }
  destruct (resume_streaming offset a g1 fh1) as [[res2 g2] fh2] eqn:E2.
  apply resume_streaming_cases in E2. destruct E2 as (P2 & W2 & _ & C2).
  destruct res2 as [r2 |].
  { intros E. injection E as Hr Hg Hf. subst r g' fh'. right.
    unfold EIO in C2. repeat split; try lia; try (intros; contradiction). }
  intros E. apply write_chunk_cases in E; [| congruence].
  destruct E as (_ & Hnone & Hstray & Hseq).
  unfold EIO, ENOMEM in *.
  destruct (write_conn fh2) eqn:Ec2.
  - clear Hnone. destruct (Z.eq_dec offset (pos fh)) as [Heq | Hne].
    + clear Hstray.
      assert (Hseq' := Hseq eq_refl ltac:(congruence)). clear Hseq.
      rewrite P2, P1, Hoff in Hseq' by lia.
      destruct Hseq' as [[-> ->] | [Hp [[-> Hw'] | [-> Hw']]]].
      * right. repeat split; try lia.
      * left. rewrite Hint by lia. repeat split; try lia. 
      * right. repeat split; try lia.
    + clear Hseq.
      assert (Hstray' := Hstray eq_refl ltac:(congruence)). clear Hstray.
      destruct Hstray' as (-> & Hp & _).
      right. repeat split; try lia.
  - clear Hstray Hseq. destruct (Hnone eq_refl) as [-> ->]. clear Hnone.
    assert (Hsame : fh2 = fh /\ write_conn fh = false /\ offset <> pos fh).
    { destruct C2 as [[-> C2] | (_ & _ & Hc)]; [| congruence].
      destruct C1 as [(-> & _ & C1) | (_ & _ & _ & Hc)]; [| congruence].
      split; [reflexivity |]. split; [assumption |].
      destruct C1 as [Hc1 | [Hp0 | Ho0]]; [congruence | |];
        destruct C2 as [Hc2 | [Hp2 | Ho2]]; try congruence; lia. }
    destruct Hsame as (-> & Hc & Hne).
    left. rewrite Hint by lia. split; [reflexivity |].
    split; [assumption |]. split; [assumption |].
    right. split; [assumption |]. split; [assumption | reflexivity].
Qed.

(** ** Sequences of write calls *)

Lemma requested_nonneg (cs : list write_call) :
  Forall (fun c => 0 <= wc_size c <= INT_MAX) cs -> 0 <= requested cs.
Proof.
  induction 1 as [| c cs Hc _ IH]; [cbn; lia |].
  change (requested (c :: cs)) with (wc_size c + requested cs). lia.
Qed.

Lemma run_writes_pos (get_dir_path : string -> string) (path : string)
    (cs : list write_call) :
  forall (g : ftpfs_t) (fh : ftpfs_file),
    0 <= pos fh ->
    Forall (fun c => 0 <= wc_size c <= INT_MAX) cs ->
    pos fh + requested cs <= OFF_MAX ->
    Forall (fun o => pos (ob_before o) <= pos (ob_after o))
      (fst (fst (run_writes get_dir_path path cs g fh)))
    /\ Forall (fun o =>
                 ob_ret o < 0 ->
                 pos (ob_after o) = pos (ob_before o)
                 \/ (write_fail_cause (ob_before o) = 0
                     /\ write_fail_cause (ob_after o) <> 0
                     /\ pos (ob_after o) = pos (ob_before o) + wc_size (ob_call o)
                     /\ ob_ret o = - EIO))
         (fst (fst (run_writes get_dir_path path cs g fh))).
Proof.
  induction cs as [| c cs IH]; intros g fh Hpos Hsizes Hmax.
  - cbn. split; constructor.
  - inversion Hsizes as [| ? ? Hc Hcs]; subst.
    pose proof (requested_nonneg cs Hcs) as Hreq.
    change (requested (c :: cs)) with (wc_size c + requested cs) in Hmax.
    cbn [run_writes].
    destruct (ftpfs_write _ _ _ _ _ _ g fh) as [[r g'] fh'] eqn:E.
    assert (Hstep := ftpfs_write_step _ _ _ _ _ _ _ _ _ _ _
                       Hc Hpos ltac:(lia) E).
    assert (Hpos' : pos fh <= pos fh' <= pos fh + wc_size c).
    { destruct Hstep as [(_ & _ & _ & [[_ Hp] | (_ & _ & ->)])
                        | (_ & _ & [Hp | (_ & _ & Hp & _)])]; lia. }
    specialize (IH g' fh' ltac:(lia) Hcs ltac:(lia)).
    destruct (run_writes get_dir_path path cs g' fh') as [[log g''] fh''].
    cbn [fst snd] in *. destruct IH as [IH1 IH2].
    split; constructor; cbn [ob_before ob_after ob_ret ob_call];
      try assumption; lia.
Qed.

Lemma run_writes_written (get_dir_path : string -> string) (path : string)
    (cs : list write_call) :
  forall (g : ftpfs_t) (fh : ftpfs_file) (S : Z),
    0 <= pos fh ->
    (write_fail_cause fh = 0 -> pos fh = S) ->
    Forall (fun c => 0 <= wc_size c <= INT_MAX) cs ->
    pos fh + requested cs <= OFF_MAX ->
    (forall o, In o (fst (fst (run_writes get_dir_path path cs g fh))) ->
               ~ stray o) ->
    (forall l1 o l2,
        fst (fst (run_writes get_dir_path path cs g fh)) = l1 ++ o :: l2 ->
        0 <= ob_ret o ->
        wc_offset (ob_call o) = S + written l1
        /\ pos (ob_after o) = S + written l1 + wc_size (ob_call o))
    /\ (write_fail_cause (snd (run_writes get_dir_path path cs g fh)) = 0 ->
        pos (snd (run_writes get_dir_path path cs g fh))
        = S + written (fst (fst (run_writes get_dir_path path cs g fh)))).
Proof.
  induction cs as [| c cs IH]; intros g fh S Hpos Hinv Hsizes Hmax Hstray.
  - cbn. split; [| intros H; rewrite (Hinv H); lia].
    intros [| ? ?] o l2 H; discriminate.
  - inversion Hsizes as [| ? ? Hc Hcs]; subst.
    pose proof (requested_nonneg cs Hcs) as Hreq.
    change (requested (c :: cs)) with (wc_size c + requested cs) in Hmax.
    cbn [run_writes] in *.
    destruct (ftpfs_write _ _ _ _ _ _ g fh) as [[r g'] fh'] eqn:E.
    assert (Hstep := ftpfs_write_step _ _ _ _ _ _ _ _ _ _ _
                       Hc Hpos ltac:(lia) E).
    specialize (IH g' fh').
    destruct (run_writes get_dir_path path cs g' fh') as [[log g''] fh''].
    cbn [fst snd] in *.
    assert (Hhead : ~ stray (mk_write_obs c fh r fh'))
      by (apply Hstray; now left).
    assert (Hrest : forall o, In o log -> ~ stray o)
      by (intros o Ho; apply Hstray; now right).
    unfold stray in Hhead. cbn [ob_before ob_call] in Hhead.
    change (written (mk_write_obs c fh r fh' :: log))
      with ((if 0 <=? r then wc_size c else 0) + written log).
    destruct Hstep as [(-> & Hw & Hw' & Hprog) | (Hneg & Hsame & Hprog)].
    + (* the call succeeded *)
      assert (Hseq : wc_offset c = pos fh /\ pos fh' = pos fh + wc_size c).
      { destruct Hprog as [Hseq | (Hconn & Hne & _)]; [exact Hseq |].
        exfalso. apply Hhead. auto. }
      destruct Hseq as [Ho Hp]. rewrite (Hinv Hw) in Ho, Hp.
      destruct (Z.leb_spec 0 (wc_size c)) as [_ | Hlt]; [| lia].
      specialize (IH (S + wc_size c) ltac:(lia) ltac:(intros; lia) Hcs
                    ltac:(lia) Hrest).
      destruct IH as [IH1 IH2]. split.
      * intros [| o1 l1] o l2 Hsplit Hret; injection Hsplit as Ho1 Hl.
        -- subst o. cbn [ob_call ob_after written fold_right]. lia.
        -- subst o1.
           change (written (mk_write_obs c fh (wc_size c) fh' :: l1))
             with ((if 0 <=? wc_size c then wc_size c else 0) + written l1).
           destruct (Z.leb_spec 0 (wc_size c)); [| lia].
           destruct (IH1 l1 o l2 Hl Hret). lia.
      * intros Hend. specialize (IH2 Hend). lia.
    + (* the call failed *)
      destruct (Z.leb_spec 0 r) as [Hge | _]; [lia |].
      assert (Hpos' : pos fh <= pos fh' <= pos fh + wc_size c)
        by (destruct Hprog as [Hp | (_ & _ & Hp & _)]; lia).
      assert (Hinv' : write_fail_cause fh' = 0 -> pos fh' = S).
      { intros Hw'. destruct Hprog as [Hp | (_ & Hne & _)]; [| contradiction].
        rewrite Hp. apply Hinv.
        destruct (Z.eq_dec (write_fail_cause fh) 0) as [Hz | Hnz];
          [exact Hz |].
        rewrite (Hsame Hnz) in Hw'. contradiction. }
      specialize (IH S ltac:(lia) Hinv' Hcs ltac:(lia) Hrest).
      destruct IH as [IH1 IH2]. split.
      * intros [| o1 l1] o l2 Hsplit Hret; injection Hsplit as Ho1 Hl.
        -- subst o. cbn [ob_ret] in Hret. lia.
        -- subst o1.
           change (written (mk_write_obs c fh r fh' :: l1))
             with ((if 0 <=? r then wc_size c else 0) + written l1).
           destruct (Z.leb_spec 0 r); [lia |].
           destruct (IH1 l1 o l2 Hl Hret). lia.
      * intros Hend. specialize (IH2 Hend). lia.
Qed.

(** C2, as the code has it.  Over any sequence of write calls on a handle
    that starts at [pos = 0], [pos] never decreases, and a call that fails
    leaves [pos] as it was unless the worker failed after it had been given the
    bytes: then [pos] has advanced by the size of that call and the failure is
    recorded.  If no call is a stray write (an offset other than [pos] while
    no upload is running), every call that succeeds was made at the offset
    that is the sum of the sizes of the successful calls before it and leaves
    [pos] at that sum plus its size, and while no failure is recorded [pos] is
    the sum of the sizes of the successful calls. *)
Theorem ftpfs_write_sequence
    (get_dir_path : string -> string) (path : string)
    (cs : list write_call) (g : ftpfs_t) (fh : ftpfs_file) :
  pos fh = 0 ->
  Forall (fun c => 0 <= wc_size c <= INT_MAX) cs ->
  requested cs <= OFF_MAX ->
  let log := fst (fst (run_writes get_dir_path path cs g fh)) in
  let fh_end := snd (run_writes get_dir_path path cs g fh) in
  Forall (fun o => pos (ob_before o) <= pos (ob_after o)) log
  /\ Forall (fun o =>
               ob_ret o < 0 ->
               pos (ob_after o) = pos (ob_before o)
               \/ (write_fail_cause (ob_before o) = 0
                   /\ write_fail_cause (ob_after o) <> 0
                   /\ pos (ob_after o) = pos (ob_before o) + wc_size (ob_call o)
                   /\ ob_ret o = - EIO)) log
  /\ ((forall o, In o log -> ~ stray o) ->
      (forall l1 o l2,
          log = l1 ++ o :: l2 -> 0 <= ob_ret o ->
          wc_offset (ob_call o) = written l1
          /\ pos (ob_after o) = written l1 + wc_size (ob_call o))
      /\ (write_fail_cause fh_end = 0 -> pos fh_end = written log)).
Proof.
  intros Hpos Hsizes Hmax log fh_end. subst log fh_end.
  destruct (run_writes_pos get_dir_path path cs g fh) as [H1 H2];
    [lia | assumption | lia |].
  split; [exact H1 |]. split; [exact H2 |]. intros Hstray.
  destruct (run_writes_written get_dir_path path cs g fh 0) as [H3 H4];
    [lia | intros; lia | assumption | lia | assumption |].
  split.
  - intros l1 o l2 Hsplit Hret. destruct (H3 l1 o l2 Hsplit Hret). lia.
  - intros Hend. rewrite (H4 Hend). lia.
Qed.

(** C2 as stated fails: the worker ends with [CURLE_SEND_ERROR] (55) after it
    was handed the three bytes; the call returns [-EIO], no call has
    succeeded, and [pos] is 3. *)
Lemma ftpfs_write_failed_handoff_has_advanced_pos :
  fst (fst (ftpfs_write path_id "/f" xyz 3 0 (worker_fails 55%N) idle (uploading 0)))
  = - EIO
  /\ pos (snd (ftpfs_write path_id "/f" xyz 3 0 (worker_fails 55%N) idle (uploading 0)))
     = 3
  /\ written
       (fst (fst (run_writes path_id "/f"
                    [mk_write_call xyz 3 0 (worker_fails 55%N)]
                    idle (uploading 0)))) = 0
  /\ pos (snd (run_writes path_id "/f"
                 [mk_write_call xyz 3 0 (worker_fails 55%N)]
                 idle (uploading 0)))
     <> written
          (fst (fst (run_writes path_id "/f"
                       [mk_write_call xyz 3 0 (worker_fails 55%N)]
                       idle (uploading 0)))).
Proof. cbn. repeat split; try reflexivity; lia. Qed.

Lemma ftpfs_write_sequence_witness :
  pos (snd (run_writes path_id "/f"
              [mk_write_call hello 5 0 all_good; mk_write_call world 6 5 all_good]
              idle (uploading 0))) = 11.
Proof.
  assert (Hsizes : Forall (fun c => 0 <= wc_size c <= INT_MAX)
                     [mk_write_call hello 5 0 all_good;
                      mk_write_call world 6 5 all_good]).
  { repeat constructor; cbn; unfold INT_MAX; lia. }
  assert (Hmax : requested [mk_write_call hello 5 0 all_good;
                            mk_write_call world 6 5 all_good] <= OFF_MAX)
    by (cbn; unfold OFF_MAX; lia).
  destruct (ftpfs_write_sequence path_id "/f"
              [mk_write_call hello 5 0 all_good; mk_write_call world 6 5 all_good]
              idle (uploading 0) eq_refl Hsizes Hmax) as (_ & _ & H).
  destruct H as [_ H].
  - vm_compute. intros o [<- | [<- | []]] (_ & Hconn & _); discriminate.
  - rewrite H; vm_compute; reflexivity.
Defined.

(** ** Writes at an offset other than [pos] *)

Lemma ftpfs_write_latched (get_dir_path : string -> string) (path : string)
    (wbuf : list byte) (size offset : Z) (a : write_answer)
    (g : ftpfs_t) (fh : ftpfs_file) :
  write_fail_cause fh <> 0 ->
  ftpfs_write get_dir_path path wbuf size offset a g fh = (- EIO, g, fh).
Proof.
  intros H. unfold ftpfs_write. apply Z.eqb_neq in H. now rewrite H.
Qed.

Lemma start_streaming_running (get_dir_path : string -> string) (path : string)
    (offset : Z) (a : write_answer) (g : ftpfs_t) (fh : ftpfs_file) :
  write_conn fh = true ->
  start_streaming get_dir_path path offset a g fh = (None, g, fh).
Proof. intros H. unfold start_streaming. now rewrite H. Qed.

Lemma resume_streaming_running (offset : Z) (a : write_answer)
    (g : ftpfs_t) (fh : ftpfs_file) :
  write_conn fh = true -> resume_streaming offset a g fh = (None, g, fh).
Proof. intros H. unfold resume_streaming. now rewrite H. Qed.

(** C3, as the code has it.  A write at an offset other than [pos] on a
    handle with a running upload and no recorded failure finishes the worker
    and returns [-EIO]; [pos] is as before.  [write_fail_cause] is then what
    the transfer of the worker ended with: it is nonzero, and every later
    write returns [-EIO], when that transfer failed, and it stays 0 when the
    transfer ended well. *)
Theorem ftpfs_write_non_sequential
    (get_dir_path : string -> string) (path : string)
    (wbuf : list byte) (size offset : Z) (a : write_answer)
    (g : ftpfs_t) (fh : ftpfs_file) :
  write_fail_cause fh = 0 -> write_conn fh = true -> offset <> pos fh ->
  let r := ftpfs_write get_dir_path path wbuf size offset a g fh in
  fst (fst r) = - EIO
  /\ snd (fst r) = g
  /\ write_conn (snd r) = false /\ eof (snd r) = 1
  /\ pos (snd r) = pos fh
  /\ write_fail_cause (snd r) = Z.of_N (on_join a)
  /\ (on_join a <> CURLE_OK ->
      forall path' wbuf' size' offset' a' g',
        fst (fst (ftpfs_write get_dir_path path' wbuf' size' offset' a' g' (snd r)))
        = - EIO).
Proof.
  intros Hw Hconn Hne r.
  assert (Hres : exists fh1,
             ftpfs_write get_dir_path path wbuf size offset a g fh
             = (- EIO, g, fh1)
             /\ pos fh1 = pos fh /\ write_conn fh1 = false /\ eof fh1 = 1
             /\ write_fail_cause fh1 = Z.of_N (on_join a)).
  { unfold ftpfs_write. rewrite Hw. cbn [Z.eqb negb].
    rewrite (start_streaming_running _ _ _ _ _ _ Hconn),
      (resume_streaming_running _ _ _ _ Hconn).
    destruct (write_chunk wbuf size offset a g fh) as [[r' g1] fh1] eqn:E.
    apply write_chunk_cases in E; [| exact Hw].
    destruct E as (-> & _ & Hstray & _).
    destruct (Hstray Hconn Hne) as (-> & Hrest).
    exists fh1. split; [reflexivity | exact Hrest]. }
  destruct Hres as (fh1 & E & Hp & Hc & He & Hcause).
  subst r. rewrite E. cbn [fst snd].
  repeat split; try assumption.
  intros Hfail path' wbuf' size' offset' a' g'.
  rewrite ftpfs_write_latched; [reflexivity |].
  rewrite Hcause. unfold CURLE_OK in Hfail. lia.
Qed.

(** C3 as stated fails: the upload has taken five bytes, a write comes at
    offset 0, the worker ends well.  The call returns [-EIO] but records no
    failure, and the next write, at offset 5, returns 3. *)
Lemma ftpfs_write_out_of_order_not_latched :
  0 <> pos (uploading 5)
  /\ fst (fst (ftpfs_write path_id "/f" xyz 3 0 all_good idle (uploading 5)))
     = - EIO
  /\ write_fail_cause
       (snd (ftpfs_write path_id "/f" xyz 3 0 all_good idle (uploading 5))) = 0
  /\ fst (fst (ftpfs_write path_id "/f" xyz 3 5 all_good idle
                 (snd (ftpfs_write path_id "/f" xyz 3 0 all_good idle
                         (uploading 5))))) = 3.
Proof. cbn. repeat split; try reflexivity; lia. Qed.

Lemma ftpfs_write_non_sequential_witness :
  fst (fst (ftpfs_write path_id "/f" xyz 3 0 (worker_fails 55%N) idle (uploading 5)))
  = - EIO
  /\ write_fail_cause
       (snd (ftpfs_write path_id "/f" xyz 3 0 (worker_fails 55%N) idle (uploading 5)))
     = 55.
Proof.
  assert (Hne : 0 <> pos (uploading 5)) by (cbn; lia).
  destruct (ftpfs_write_non_sequential path_id "/f" xyz 3 0 (worker_fails 55%N)
              idle (uploading 5) eq_refl eq_refl Hne)
    as (H1 & _ & _ & _ & _ & H2 & _).
  split; [exact H1 | exact H2].
Defined.

(** A stray write: no upload is running and the offset is not [pos].  The
    call returns [size] and the handle is as before: the bytes go nowhere. *)
Lemma ftpfs_write_stray_accepted :
  ftpfs_write path_id "/f" xyz 3 7 all_good idle fresh = (3, idle, fresh).
Proof. reflexivity. Qed.

(** * Further properties of the read engine *)

(** ** The completion check *)

Lemma read_messages_spec (queue : list CURLMsg) :
  forall (err : Z) (g : ftpfs_t),
    err = 0 \/ err = 1 ->
    (fst (read_messages queue err g) = 0
     <-> err = 0 /\ queue <> [] /\ Forall completed_well queue)
    /\ (fst (read_messages queue err g) = 0
        \/ fst (read_messages queue err g) = 1)
    /\ calls (snd (read_messages queue err g))
       = calls g
         ++ repeat curl_multi_info_read (Nat.max 1 (List.length queue))
    /\ attached_to_multi (snd (read_messages queue err g)) = attached_to_multi g
    /\ current_fh (snd (read_messages queue err g)) = current_fh g.
Proof.
  induction queue as [| m queue IH]; intros err g Herr.
  - cbn. repeat split; try (now right); try lia.
    + intros (_ & H & _). contradiction.
  - cbn [read_messages].
    assert (Hm : (negb (msg m =? CURLMSG_DONE)
                  || negb (result m =? CURLE_OK)%N)%bool = false
                 <-> completed_well m).
    { unfold completed_well. rewrite orb_false_iff, !negb_false_iff.
      now rewrite Z.eqb_eq, N.eqb_eq. }
    destruct (negb (msg m =? CURLMSG_DONE) || negb (result m =? CURLE_OK)%N)%bool
      eqn:Ebad.
    + assert (Hbad : ~ completed_well m)
        by (intros H; apply Hm in H; discriminate).
      destruct queue as [| m' queue].
      * cbn. repeat split; try (now right); try lia.
        intros (_ & _ & H). inversion H; subst. contradiction.
      * specialize (IH 1 (call curl_multi_info_read g) (or_intror eq_refl)).
        destruct IH as (IH1 & IH2 & IH3 & IH4 & IH5).
        split; [| split; [exact IH2 | split; [| split; assumption]]].
        -- rewrite IH1. split; [intros (H & _); lia |].
           intros (_ & _ & H). inversion H; subst. contradiction.
        -- rewrite IH3, calls_call, <- app_assoc. reflexivity.
    + assert (Hgood : completed_well m) by now apply Hm.
      destruct queue as [| m' queue].
      * cbn [fst snd].
        split; [| split; [exact Herr | split; [reflexivity | now split]]].
        split; [| now intros (H & _)].
        intros H. split; [exact H |]. split; [discriminate |].
        constructor; [exact Hgood | constructor].
      * specialize (IH err (call curl_multi_info_read g) Herr).
        destruct IH as (IH1 & IH2 & IH3 & IH4 & IH5).
        split; [| split; [exact IH2 | split; [| split; assumption]]].
        -- rewrite IH1. split.
           ++ intros (H & _ & Hall). repeat split; auto; discriminate.
           ++ intros (H & _ & Hall). inversion Hall; subst.
              repeat split; auto; discriminate.
        -- rewrite IH3, calls_call, <- app_assoc. reflexivity.
Qed.

(** ** Hits, misses and the loop *)

Lemma cache_miss_spec (fh : ftpfs_file) (size offset : Z) (a : read_answer) :
  read_in_range size offset a fh -> offset + size <= OFF_MAX ->
  (cache_miss fh size offset = true
   <-> offset < begin_offset (buf fh)
       \/ begin_offset (buf fh) + len (buf fh) < offset + size).
Proof.
  intros (Hsize & Hoff & Hbeg & [Hl0 Hl1] & Hmax) Hspan.
  unfold answer_bytes, OFF_MAX in *.
  pose proof (chunk_bytes_nonneg (on_check_running a)) as H0.
  pose proof (chunk_bytes_nonneg (on_perform a)) as H1.
  pose proof (script_bytes_nonneg (on_select a)) as H2.
  unfold cache_miss, past_window, wanted.
  rewrite !orb_true_iff, !Z.ltb_lt.
  rewrite (to_size_t_small (begin_offset (buf fh) + len (buf fh))),
    (to_size_t_small offset) by lia.
  destruct (Z.lt_ge_cases offset (begin_offset (buf fh))) as [Hlt | Hge].
  - split; intros _; [now left | left; now right].
  - rewrite to_size_t_small by lia. lia.
Qed.

Lemma fill_window_cases (full_path : string) (size offset fi : Z)
    (a : read_answer) (g : ftpfs_t) (fh : ftpfs_file) r :
  fill_window full_path size offset fi a g fh = Some r ->
  (cache_miss fh size offset = false /\ r = (0, g, fh))
  \/ (cache_miss fh size offset = true
      /\ exists g2 fh2, pump_window size offset a g2 fh2 = Some r).
Proof.
  unfold fill_window. destruct (cache_miss fh size offset).
  - destruct (must_restart _ _ _ _ _) as [[restart g1] fh1].
    destruct (if restart then _ else _) as [g2 fh2].
    intros E. right. split; [reflexivity |]. now exists g2, fh2.
  - intros E. left. injection E as <-. now split.
Qed.

(** When the loop is left without error the window holds the request or no
    handle is running; the count of running handles is the one the loop was
    entered with or one the pump has reported. *)
Lemma wait_for_data_post (script : list (Z * perform_answer)) :
  forall (size offset : Z) (g : ftpfs_t) (fh : ftpfs_file) (rh : Z)
         err rh' g' fh',
    wait_for_data script size offset g fh rh = Some (err, rh', g', fh') ->
    ((err = 0 /\ (wanted fh' size offset <= len (buf fh') \/ rh' = 0))
     \/ (err = 1 /\ Exists (fun x => fst x = -1) script))
    /\ (rh' = rh \/ In rh' (map (fun x => running (snd x)) script))
    /\ attached_to_multi g' = attached_to_multi g
    /\ current_fh g' = current_fh g.
Proof.
  induction script as [| [rc a] script IH];
    intros size offset g fh rh err rh' g' fh'; cbn [wait_for_data].
  - destruct ((len (buf fh) <? wanted fh size offset) && negb (rh =? 0))%bool
      eqn:Ec; [discriminate |].
    intros E. injection E as <- <- <- <-.
    split; [| split; [now left | now split]]. left. split; [reflexivity |].
    apply andb_false_iff in Ec. destruct Ec as [Ec | Ec]; tests; [left | right]; lia.
  - destruct ((len (buf fh) <? wanted fh size offset) && negb (rh =? 0))%bool
      eqn:Ec.
    + destruct (rc =? -1) eqn:Erc; tests.
      * intros E. injection E as <- <- <- <-.
        split; [| split; [now left | now split]].
        right. split; [reflexivity |]. now constructor.
      * intros E. apply IH in E. destruct E as (E1 & E2 & E3 & E4).
        split; [| split; [| now split]].
        -- destruct E1 as [E1 | [E1 Hex]]; [now left | right].
           split; [exact E1 | now constructor 2].
        -- right. cbn [map snd]. destruct E2 as [-> | E2]; [now left | now right].
    + intros E. injection E as <- <- <- <-.
      split; [| split; [now left | now split]]. left. split; [reflexivity |].
      apply andb_false_iff in Ec. destruct Ec as [Ec | Ec]; tests; [left | right]; lia.
Qed.

Lemma pump_window_post (size offset : Z) (a : read_answer)
    (g : ftpfs_t) (fh : ftpfs_file) err g' fh' :
  pump_window size offset a g fh = Some (err, g', fh') ->
  attached_to_multi g' = attached_to_multi g
  /\ current_fh g' = current_fh g
  /\ (err = 0 \/ err = 1)
  /\ (err = 0 ->
      wanted fh' size offset <= len (buf fh')
      \/ (running (on_perform a) = 0
          \/ Exists (fun x => running (snd x) = 0) (on_select a))).
Proof.
  unfold pump_window.
  destruct (wait_for_data _ _ _ _ _ _) as [[[[e rh] g1] fh1] |] eqn:Ew;
    [| discriminate].
  apply wait_for_data_post in Ew. destruct Ew as (E1 & E2 & E3 & E4).
  cbn [attached_to_multi current_fh call] in E3, E4.
  assert (He : e = 0 \/ e = 1) by (destruct E1 as [[-> _] | [-> _]]; auto).
  assert (Hrh : rh = 0 ->
                running (on_perform a) = 0
                \/ Exists (fun x => running (snd x) = 0) (on_select a)).
  { intros ->. destruct E2 as [E2 | E2]; [now left | right].
    apply in_map_iff in E2. destruct E2 as (x & Hx & Hin).
    apply Exists_exists. now exists x. }
  destruct (rh =? 0) eqn:Erh; tests.
  - pose proof (read_messages_spec (on_info_read a) e g1 He)
      as (_ & M2 & _ & M4 & M5).
    destruct (read_messages (on_info_read a) e g1) as [e' g2].
    cbn [fst snd] in *. intros E. injection E as <- <- <-.
    repeat split; try congruence; try assumption.
    intros _. right. now apply Hrh.
  - intros E. injection E as <- <- <-.
    repeat split; try congruence; try assumption.
    intros ->. destruct E1 as [[_ [E1 | E1]] | [E1 _]]; [now left | | lia].
    contradiction.
Qed.

Lemma wanted_in_window (fh : ftpfs_file) (size offset : Z) :
  0 <= size -> 0 <= begin_offset (buf fh) <= offset ->
  offset + size <= OFF_MAX ->
  wanted fh size offset = size + offset - begin_offset (buf fh).
Proof.
  unfold wanted, OFF_MAX. intros H0 H1 H2. apply to_size_t_small. lia.
Qed.

Lemma served_below_bad_read (fh : ftpfs_file) (size offset : Z) :
  0 <= begin_offset (buf fh) <= offset ->
  offset <= begin_offset (buf fh) + len (buf fh) <= OFF_MAX ->
  served fh size offset <> CURLFTPFS_BAD_READ.
Proof.
  intros H0 H1. unfold served. rewrite to_copy_in_window by assumption.
  unfold OFF_MAX in *.
  change CURLFTPFS_BAD_READ with (2 ^ 64 - 1).
  destruct (size >? _) eqn:E; tests; lia.
Qed.

(** X1.  While the transfer is running a read that succeeds is never short:
    if the pump reports running handles every time it is driven, a call that
    does not return the bad-read value returns exactly [size]. *)
Theorem ftpfs_read_chunk_not_short
    (full_path : string) (rbuf : bool) (size offset fi update_offset : Z)
    (a : read_answer) (g : ftpfs_t) (fh : ftpfs_file) ret out g' fh' :
  read_in_range size offset a fh ->
  offset + size <= OFF_MAX ->
  running (on_perform a) <> 0 ->
  Forall (fun x => running (snd x) <> 0) (on_select a) ->
  ftpfs_read_chunk full_path rbuf size offset fi update_offset a g fh
  = Some (ret, out, g', fh') ->
  ret <> CURLFTPFS_BAD_READ ->
  ret = size.
Proof.
  intros Hrange Hspan Hrun Hruns Hread Hok.
  unfold ftpfs_read_chunk in Hread.
  destruct (fill_window full_path size offset fi a g fh)
    as [[[err g1] fh1] |] eqn:Hfill; [| discriminate].
  pose proof (fill_window_in_window _ _ _ _ _ _ _ _ _ _ Hrange Hfill)
    as (Hb & Hl & _).
  pose proof (served_in_window fh1 size offset Hb Hl) as Hserved.
  pose proof (cache_miss_spec fh size offset a Hrange Hspan) as Hmiss.
  destruct Hrange as (Hsize & _).
  cbn [option_map answer_request] in Hread. unfold serve in Hread.
  injection Hread as Hret _ _ _.
  assert (Herr : err = 0).
  { destruct (err =? 0) eqn:E; tests; [exact E | congruence]. }
  subst err. cbn [Z.eqb] in Hret. rewrite Hserved in Hret.
  assert (Henough : offset + size <= begin_offset (buf fh1) + len (buf fh1)).
  { apply fill_window_cases in Hfill.
    destruct Hfill as [[Hhit E] | [_ (g2 & fh2 & Hpump)]].
    - assert (fh1 = fh) by congruence. subst fh1.
      destruct (Z.le_gt_cases (offset + size)
                  (begin_offset (buf fh) + len (buf fh))) as [H | H];
        [exact H |].
      assert (cache_miss fh size offset = true) by (apply Hmiss; now right).
      congruence.
    - apply pump_window_post in Hpump.
      destruct Hpump as (_ & _ & _ & Hp).
      destruct (Hp eq_refl) as [Hw | [H0 | Hex]].
      + rewrite wanted_in_window in Hw by lia. lia.
      + contradiction.
      + apply Exists_exists in Hex. destruct Hex as (x & Hin & Hx).
        rewrite Forall_forall in Hruns. now apply Hruns in Hin. }
  lia.
Qed.

Lemma ftpfs_read_chunk_not_short_witness :
  4 = 4.
Proof.
  assert (Hrange : read_in_range 4 18 streaming (reading second_ten 10 10 0)).
  { unfold read_in_range, holds_content. cbn. lia. }
  assert (Hspan : 18 + 4 <= OFF_MAX) by (unfold OFF_MAX; lia).
  assert (Hrun : running (on_perform streaming) <> 0) by (cbn; lia).
  assert (Hok : 4 <> CURLFTPFS_BAD_READ) by (vm_compute; discriminate).
  apply (ftpfs_read_chunk_not_short "ftp://host/f" true 4 18 1 0 streaming
           (owned_by 1) (reading second_ten 10 10 0)
           4 (Some [x12; x13; x14; x15])
           (mk_ftpfs 1 1 0 [curl_multi_perform; curl_multi_perform;
                            curl_easy_setopt (CURLOPT_RANGE None)])
           (reading (second_ten ++ [x14; x15]) 12 10 0)
           Hrange Hspan Hrun (Forall_nil _)).
  - vm_compute. reflexivity.
  - exact Hok.
Defined.

(** X2.  When the request cannot be answered from the window and the
    transfer is over after the first drive of the pump, the call returns, and
    it succeeds exactly when the queue of completion messages is not empty
    and every message in it reports a transfer that is done with
    [CURLE_OK]. *)
Theorem ftpfs_read_chunk_completion
    (full_path : string) (rbuf : bool) (size offset fi update_offset : Z)
    (a : read_answer) (g : ftpfs_t) (fh : ftpfs_file) :
  read_in_range size offset a fh ->
  offset + size <= OFF_MAX ->
  offset < begin_offset (buf fh)
  \/ begin_offset (buf fh) + len (buf fh) < offset + size ->
  running (on_perform a) = 0 ->
  exists ret out g' fh',
    ftpfs_read_chunk full_path rbuf size offset fi update_offset a g fh
    = Some (ret, out, g', fh')
    /\ (ret <> CURLFTPFS_BAD_READ
        <-> on_info_read a <> [] /\ Forall completed_well (on_info_read a)).
Proof.
  intros Hrange Hspan Hmiss Hrun.
  assert (Hm : cache_miss fh size offset = true)
    by (now apply (cache_miss_spec fh size offset a Hrange Hspan)).
  destruct (fill_window full_path size offset fi a g fh)
    as [[[err g1] fh1] |] eqn:Hfill.
  - pose proof (fill_window_in_window _ _ _ _ _ _ _ _ _ _ Hrange Hfill)
      as (Hb & Hl & _).
    pose proof (served_below_bad_read fh1 size offset Hb Hl) as Hbad.
    unfold ftpfs_read_chunk. rewrite Hfill.
    cbn [option_map answer_request].
    destruct (serve rbuf size offset update_offset fh1) as [out fh2].
    eexists _, _, _, _. split; [reflexivity |].
    assert (Herr : err = 0
                   <-> on_info_read a <> []
                       /\ Forall completed_well (on_info_read a)).
    { unfold fill_window in Hfill. rewrite Hm in Hfill.
      destruct (must_restart _ _ _ _ _) as [[restart g2] fh3].
      destruct (if restart then _ else _) as [g3 fh4].
      unfold pump_window in Hfill.
      rewrite Hrun, wait_for_data_stopped in Hfill. cbn [Z.eqb] in Hfill.
      pose proof (read_messages_spec (on_info_read a) 0
                    (call (curl_easy_setopt (CURLOPT_RANGE None))
                       (call curl_multi_perform g3)) (or_introl eq_refl))
        as (M1 & _).
      destruct (read_messages _ _ _) as [e g4]. cbn [fst] in M1.
      injection Hfill as -> _ _. rewrite M1. tauto. }
    rewrite <- Herr. destruct (err =? 0) eqn:E; tests.
    + split; [intros _; exact E | intros _; exact Hbad].
    + split; [intros H; now contradiction H | intros H; contradiction].
  - exfalso. revert Hfill.
    pose proof (ftpfs_read_chunk_returns full_path rbuf size offset fi
                  update_offset a g fh (or_introl Hrun)) as Hret.
    unfold ftpfs_read_chunk in Hret. intros Hfill. rewrite Hfill in Hret.
    now apply Hret.
Qed.

Lemma ftpfs_read_chunk_completion_witness :
  exists ret out g' fh',
    ftpfs_read_chunk "ftp://host/f" true 4 0 1 0
      (ended [mk_msg CURLMSG_DONE CURLE_OK]) idle (reading [] 0 0 0)
    = Some (ret, out, g', fh')
    /\ (ret <> CURLFTPFS_BAD_READ
        <-> on_info_read (ended [mk_msg CURLMSG_DONE CURLE_OK]) <> []
            /\ Forall completed_well
                 (on_info_read (ended [mk_msg CURLMSG_DONE CURLE_OK]))).
Proof.
  apply ftpfs_read_chunk_completion.
  - unfold read_in_range, holds_content, OFF_MAX. cbn. lia.
  - unfold OFF_MAX. lia.
  - right. cbn. lia.
  - reflexivity.
Defined.

(** ** The window holds the bytes of the remote file *)

Lemma firstn_plus (A : Type) (m n : nat) (l : list A) :
  firstn (m + n) l = firstn m l ++ firstn n (skipn m l).
Proof.
  revert l. induction m as [| m IH]; intros l; [reflexivity |].
  destruct l as [| x l]; cbn.
  - now rewrite firstn_nil.
  - now rewrite IH.
Qed.

Lemma bytes_at_app (mem : list byte) (i m n : Z) :
  0 <= i -> 0 <= m -> 0 <= n ->
  bytes_at mem i (m + n) = bytes_at mem i m ++ bytes_at mem (i + m) n.
Proof.
  intros Hi Hm Hn. unfold bytes_at.
  rewrite !Z2Nat.inj_add by lia.
  rewrite firstn_plus, skipn_skipn.
  now rewrite (Nat.add_comm (Z.to_nat m)).
Qed.

Lemma app_same_length (A : Type) (x1 y1 x2 y2 : list A) :
  List.length x1 = List.length y1 ->
  x1 ++ x2 = y1 ++ y2 -> x1 = y1 /\ x2 = y2.
Proof.
  revert y1. induction x1 as [| a x1 IH]; intros [| b y1] Hlen E;
    try discriminate; [now split |].
  cbn in E. injection E as -> E. injection Hlen as Hlen.
  destruct (IH y1 Hlen E) as [-> ->]. now split.
Qed.

Lemma follows_nil (remote : list byte) (from : Z) :
  from <= Z.of_nat (List.length remote) -> follows remote from [].
Proof. intros H. split; [cbn; lia | reflexivity]. Qed.

Lemma follows_app (remote : list byte) (from : Z) (x y : list byte) :
  0 <= from ->
  follows remote from (x ++ y) ->
  follows remote from x
  /\ follows remote (from + Z.of_nat (List.length x)) y.
Proof.
  intros Hfrom [Hlen Hdata]. rewrite length_app, Nat2Z.inj_add in *.
  rewrite bytes_at_app in Hdata by lia.
  assert (Hx : Z.of_nat (List.length
                 (bytes_at remote from (Z.of_nat (List.length x))))
               = Z.of_nat (List.length x))
    by (apply bytes_at_length; lia).
  apply app_same_length in Hdata; [| lia].
  destruct Hdata as [Ex Ey]. repeat split; try assumption; lia.
Qed.

Lemma holds_window_content (remote : list byte) (b : buffer) :
  holds_window remote b -> holds_content b.
Proof.
  intros (Hb & Hl & Hr & Hc). unfold holds_content.
  split; [exact Hl |].
  assert (H : Z.of_nat (List.length (content b)) = len b)
    by (rewrite Hc; apply bytes_at_length; lia).
  unfold content in H. rewrite length_firstn in H. lia.
Qed.

Lemma read_data_window (remote data : list byte) (ok : bool) (b : buffer) :
  holds_window remote b ->
  (ok = true -> follows remote (begin_offset b + len b) data) ->
  len b + Z.of_nat (List.length data) < 2 ^ 64 ->
  let b' := snd (read_data data ok b) in
  holds_window remote b'
  /\ begin_offset b' = begin_offset b
  /\ len b' = len b + Z.of_nat (List.length (if ok then data else [])).
Proof.
  intros Hw Hf Hlen.
  pose proof (content_length b (holds_window_content remote b Hw)) as Hcl.
  destruct Hw as (Hb & Hl & Hr & Hc).
  unfold read_data, buf_add_mem, holds_window. destruct ok; cbn.
  - destruct (Hf eq_refl) as [Hfl Hfd].
    rewrite to_size_t_small by lia.
    repeat split; try lia.
    unfold content at 1. cbn [len p].
    rewrite firstn_all2 by (rewrite length_app; lia).
    rewrite bytes_at_app by lia. now rewrite <- Hc, <- Hfd.
  - repeat split; try lia. exact Hc.
Qed.

Lemma deliver_chunks_window (remote : list byte)
    (l : list (list byte * bool)) :
  forall fh : ftpfs_file,
    holds_window remote (buf fh) ->
    follows remote (begin_offset (buf fh) + len (buf fh))
      (appended (mk_perform l 0)) ->
    len (buf fh) + chunk_bytes (mk_perform l 0) < 2 ^ 64 ->
    let fh' := deliver (mk_perform l 0) fh in
    holds_window remote (buf fh')
    /\ begin_offset (buf fh') = begin_offset (buf fh)
    /\ len (buf fh')
       = len (buf fh) + Z.of_nat (List.length (appended (mk_perform l 0))).
Proof.
  unfold deliver, appended, chunk_bytes. cbn [delivered].
  induction l as [| [data ok] l IH]; intros fh Hw Hf Hlen; cbn in *.
  - split; [exact Hw | split; [reflexivity | lia]].
  - pose proof (chunk_bytes_nonneg (mk_perform l 0)) as Hl.
    unfold chunk_bytes in Hl. cbn in Hl.
    assert (Hb : 0 <= begin_offset (buf fh) + len (buf fh))
      by (destruct Hw as (? & ? & _); lia).
    apply follows_app in Hf; [| exact Hb]. destruct Hf as [Hf1 Hf2].
    assert (Hf1' : ok = true ->
                   follows remote (begin_offset (buf fh) + len (buf fh)) data)
      by (intros ->; exact Hf1).
    pose proof (read_data_window remote data ok (buf fh) Hw Hf1'
                  ltac:(lia)) as (Hw1 & Hb1 & Hl1).
    set (fh1 := set_buf (snd (read_data data ok (buf fh))) fh) in *.
    assert (Ebuf : buf fh1 = snd (read_data data ok (buf fh)))
      by (subst fh1; now destruct fh).
    rewrite <- Ebuf in Hw1, Hb1, Hl1.
    assert (Hdl : Z.of_nat (List.length (if ok then data else []))
                  <= Z.of_nat (List.length data))
      by (destruct ok; cbn; lia).
    destruct (IH fh1 Hw1) as (Hw2 & Hb2 & Hl2).
    + rewrite Hb1, Hl1. now rewrite Z.add_assoc.
    + lia.
    + split; [exact Hw2 |]. split; [congruence |].
      rewrite Hl2, Hl1, length_app, Nat2Z.inj_add. lia.
Qed.

Lemma deliver_window (remote : list byte) (a : perform_answer)
    (fh : ftpfs_file) :
  holds_window remote (buf fh) ->
  follows remote (begin_offset (buf fh) + len (buf fh)) (appended a) ->
  len (buf fh) + chunk_bytes a < 2 ^ 64 ->
  holds_window remote (buf (deliver a fh))
  /\ begin_offset (buf (deliver a fh)) = begin_offset (buf fh)
  /\ len (buf (deliver a fh))
     = len (buf fh) + Z.of_nat (List.length (appended a)).
Proof.
  intros Hw Hf Hlen.
  exact (deliver_chunks_window remote (delivered a) fh Hw Hf Hlen).
Qed.

Lemma appended_length (a : perform_answer) :
  Z.of_nat (List.length (appended a)) <= chunk_bytes a.
Proof.
  unfold appended, chunk_bytes.
  induction (delivered a) as [| [data ok] l IH]; cbn; [lia |].
  rewrite length_app, Nat2Z.inj_add. destruct ok; cbn; lia.
Qed.

Lemma wait_for_data_window (remote : list byte)
    (script : list (Z * perform_answer)) :
  forall (size offset : Z) (g : ftpfs_t) (fh : ftpfs_file) (running_handles : Z)
         err running_handles' g' fh',
    holds_window remote (buf fh) ->
    follows remote (begin_offset (buf fh) + len (buf fh))
      (flat_map (fun x : Z * perform_answer => appended (snd x)) script) ->
    len (buf fh) + script_bytes script < 2 ^ 64 ->
    wait_for_data script size offset g fh running_handles
    = Some (err, running_handles', g', fh') ->
    holds_window remote (buf fh').
Proof.
  induction script as [| [rc a] script IH];
    intros size offset g fh rh err rh' g' fh' Hw Hf Hlen; cbn [wait_for_data].
  - destruct (_ && _)%bool; [discriminate |].
    intros E. injection E as _ _ _ <-. exact Hw.
  - pose proof (chunk_bytes_nonneg a) as Ha.
    pose proof (script_bytes_nonneg script) as Hs.
    pose proof (appended_length a) as Hal.
    change (script_bytes ((rc, a) :: script))
      with (chunk_bytes a + script_bytes script) in *.
    destruct (_ && _)%bool.
    + destruct (rc =? -1).
      * intros E. injection E as _ _ _ <-. exact Hw.
      * cbn [flat_map snd] in Hf.
        assert (Hb : 0 <= begin_offset (buf fh) + len (buf fh))
          by (destruct Hw as (? & ? & _); lia).
        apply follows_app in Hf; [| exact Hb]. destruct Hf as [Hf1 Hf2].
        destruct (deliver_window remote a fh Hw Hf1 ltac:(lia))
          as (Hw1 & Hb1 & Hl1).
        apply IH; [exact Hw1 | | lia].
        rewrite Hb1, Hl1. now rewrite Z.add_assoc.
    + intros E. injection E as _ _ _ <-. exact Hw.
Qed.

Lemma pump_window_window (remote : list byte) (size offset : Z)
    (a : read_answer) (g : ftpfs_t) (fh : ftpfs_file) err g1 fh1 :
  holds_window remote (buf fh) ->
  follows remote (begin_offset (buf fh) + len (buf fh)) (stream a) ->
  len (buf fh) + (chunk_bytes (on_perform a) + script_bytes (on_select a))
  < 2 ^ 64 ->
  pump_window size offset a g fh = Some (err, g1, fh1) ->
  holds_window remote (buf fh1).
Proof.
  intros Hw Hf Hlen. unfold pump_window, stream in *.
  pose proof (script_bytes_nonneg (on_select a)) as Hs.
  pose proof (chunk_bytes_nonneg (on_perform a)) as Hp.
  pose proof (appended_length (on_perform a)) as Hal.
  assert (Hb : 0 <= begin_offset (buf fh) + len (buf fh))
    by (destruct Hw as (? & ? & _); lia).
  apply follows_app in Hf; [| exact Hb]. destruct Hf as [Hf1 Hf2].
  destruct (deliver_window remote (on_perform a) fh Hw Hf1 ltac:(lia))
    as (Hw1 & Hb1 & Hl1).
  destruct (wait_for_data _ _ _ _ _ _) as [[[[e rh] g'] fh'] |] eqn:Ew;
    [| discriminate].
  intros E.
  assert (fh' = fh1) as ->.
  { destruct (rh =? 0); [destruct (read_messages _ _ _) |]; now inversion E. }
  eapply wait_for_data_window; [exact Hw1 | | | exact Ew].
  - rewrite Hb1, Hl1. now rewrite Z.add_assoc.
  - lia.
Qed.

Lemma restart_transfer_window (remote data : list byte)
    (full_path : string) (offset fi : Z) (g : ftpfs_t) (fh : ftpfs_file) :
  0 <= offset -> follows remote offset data ->
  holds_window remote (buf (snd (restart_transfer full_path offset fi g fh))).
Proof.
  intros Hoff [Hlen _].
  pose proof (restart_transfer_state full_path offset fi g fh)
    as (Hl & Hb & _).
  unfold holds_window, content. rewrite Hl, Hb.
  repeat split; try lia.
Qed.

Lemma shrink_window (remote : list byte) (n offset : Z) (fh : ftpfs_file) :
  holds_window remote (buf fh) ->
  begin_offset (buf fh) <= offset ->
  0 <= n <= begin_offset (buf fh) + len (buf fh) - offset ->
  begin_offset (buf fh) + len (buf fh) <= OFF_MAX ->
  holds_window remote (buf (shrink n offset fh)).
Proof.
  intros Hw Hoff Hn Hmax.
  pose proof (holds_window_content remote (buf fh) Hw) as Hc.
  destruct Hw as (Hb & Hl & Hr & Hcontent).
  unfold shrink. destruct (_ && _)%bool;
    [| now unfold holds_window].
  rewrite to_copy_in_window by lia.
  assert (Ebuf : forall b, buf (set_buf b fh) = b) by (now destruct fh).
  rewrite Ebuf. unfold OFF_MAX in *.
  rewrite to_size_t_small by lia.
  rewrite to_off_t_small by (unfold OFF_MAX; lia).
  unfold holds_window, content at 1. cbn [p len begin_offset].
  split; [lia |]. split; [lia |]. split; [lia |].
  rewrite memmove_front_content by (try assumption; lia).
  rewrite Hcontent, skipn_bytes_at by lia.
  f_equal; lia.
Qed.

Lemma fill_window_window (remote : list byte)
    (full_path : string) (size offset fi : Z)
    (a : read_answer) (g : ftpfs_t) (fh : ftpfs_file) err g1 fh1 :
  read_in_range size offset a fh ->
  holds_window remote (buf fh) ->
  faithful remote size offset fi a g fh ->
  fill_window full_path size offset fi a g fh = Some (err, g1, fh1) ->
  holds_window remote (buf fh1).
Proof.
  intros (Hsize & Hoff & Hbeg & Hc & Hmax) Hw Hfaith.
  unfold answer_bytes, OFF_MAX in Hmax.
  pose proof (chunk_bytes_nonneg (on_check_running a)) as H0.
  pose proof (chunk_bytes_nonneg (on_perform a)) as H1.
  pose proof (script_bytes_nonneg (on_select a)) as H2.
  assert (Hlen0 : 0 <= len (buf fh)) by (destruct Hc; assumption).
  unfold fill_window, faithful in *.
  destruct (cache_miss fh size offset);
    [| intros E; injection E as _ _ <-; exact Hw].
  specialize (Hfaith eq_refl).
  assert (Hrestart : forall g0 fh0,
            follows remote offset (stream a) ->
            pump_window size offset a
              (fst (restart_transfer full_path offset fi g0 fh0))
              (snd (restart_transfer full_path offset fi g0 fh0))
            = Some (err, g1, fh1) ->
            holds_window remote (buf fh1)).
  { intros g0 fh0 Hf Hpump.
    pose proof (restart_transfer_window remote _ full_path offset fi g0 fh0
                  Hoff Hf) as Hw0.
    pose proof (restart_transfer_state full_path offset fi g0 fh0)
      as (Hl & Hb & _).
    eapply pump_window_window; [exact Hw0 | | | exact Hpump].
    - now rewrite Hl, Hb, Z.add_0_r.
    - rewrite Hl. lia. }
  unfold must_restart in *.
  destruct (_ || _ || _)%bool.
  - cbn [fst] in Hfaith.
    destruct (restart_transfer full_path offset fi g fh) as [g2 fh2] eqn:Er.
    intros Hpump. apply (Hrestart g fh Hfaith). now rewrite Er.
  - unfold check_running in *. cbn [fst] in Hfaith.
    destruct (running (on_check_running a) =? 0).
    + destruct (restart_transfer full_path offset fi
                  (call curl_multi_perform g)
                  (deliver (on_check_running a) fh)) as [g2 fh2] eqn:Er.
      intros Hpump.
      apply (Hrestart (call curl_multi_perform g)
               (deliver (on_check_running a) fh) Hfaith).
      now rewrite Er.
    + assert (Hb : 0 <= begin_offset (buf fh) + len (buf fh)) by lia.
      apply follows_app in Hfaith; [| exact Hb].
      destruct Hfaith as [Hf1 Hf2].
      pose proof (appended_length (on_check_running a)) as Hal.
      destruct (deliver_window remote (on_check_running a) fh Hw Hf1
                  ltac:(lia)) as (Hw1 & Hb1 & Hl1).
      intros Hpump.
      eapply pump_window_window; [exact Hw1 | | | exact Hpump].
      * rewrite Hb1, Hl1. now rewrite Z.add_assoc.
      * lia.
Qed.

Lemma ftpfs_read_chunk_bytes
    (full_path : string) (size offset fi update_offset : Z)
    (a : read_answer) (g : ftpfs_t) (fh : ftpfs_file) (remote : list byte)
    ret out g' fh' :
  read_in_range size offset a fh ->
  offset + size <= OFF_MAX ->
  holds_window remote (buf fh) ->
  faithful remote size offset fi a g fh ->
  ftpfs_read_chunk full_path true size offset fi update_offset a g fh
  = Some (ret, out, g', fh') ->
  holds_window remote (buf fh')
  /\ (ret <> CURLFTPFS_BAD_READ ->
      0 <= ret <= size
      /\ offset + ret <= Z.of_nat (List.length remote)
      /\ out = Some (bytes_at remote offset ret)
      /\ (update_offset <> 0 -> last_offset fh' = offset + ret)).
Proof.
  intros Hrange Hspan Hw Hfaith Hread.
  unfold ftpfs_read_chunk in Hread.
  destruct (fill_window full_path size offset fi a g fh)
    as [[[err g1] fh1] |] eqn:Hfill; [| discriminate].
  pose proof (fill_window_in_window _ _ _ _ _ _ _ _ _ _ Hrange Hfill)
    as (Hb & Hl & Hc & _).
  pose proof (fill_window_window _ _ _ _ _ _ _ _ _ _ _ Hrange Hw Hfaith Hfill)
    as Hw1.
  pose proof (served_in_window fh1 size offset Hb Hl) as Hserved.
  destruct Hrange as (Hsize & _).
  cbn [option_map answer_request] in Hread. unfold serve in Hread.
  injection Hread as Hret Hout _ Hfh.
  rewrite Hserved in *.
  set (n := Z.min size (begin_offset (buf fh1) + len (buf fh1) - offset)) in *.
  assert (Hn : 0 <= n <= begin_offset (buf fh1) + len (buf fh1) - offset)
    by (subst n; lia).
  split.
  - subst fh'. apply shrink_window; try lia.
    + now destruct (update_offset =? 0); destruct fh1.
    + now destruct (update_offset =? 0); destruct fh1.
    + destruct (update_offset =? 0); destruct fh1; cbn in *; lia.
    + destruct (update_offset =? 0); destruct fh1; cbn in *; lia.
  - intros Hok.
    assert (ret = n) as ->.
    { destruct (err =? 0); [now subst ret | congruence]. }
    destruct Hw1 as (Hb1 & Hl1 & Hr1 & Hcontent).
    split; [subst n; lia |]. split; [lia |]. split.
    + subst out. f_equal.
      rewrite bytes_at_content by lia.
      rewrite Hcontent, bytes_at_bytes_at by lia.
      f_equal. lia.
    + intros Hupd. apply Z.eqb_neq in Hupd. subst fh'.
      rewrite shrink_last_offset, Hupd.
      unfold OFF_MAX in *.
      rewrite to_off_t_small by (unfold OFF_MAX; lia).
      now destruct fh1.
Qed.


(** X3.  The bytes a read hands out are the bytes of the remote file.  If the
    window holds the bytes [begin_offset, begin_offset + len) of the remote
    file and the server sends the file's bytes (from [offset] after a
    restart, from the end of the window otherwise), then after the call the
    window again holds the bytes of the remote file at its offsets, and a
    call that succeeds returns [ret <= size] bytes that are the bytes
    [offset, offset + ret) of the remote file. *)
Theorem ftpfs_read_chunk_remote_bytes
    (full_path : string) (size offset fi update_offset : Z)
    (a : read_answer) (g : ftpfs_t) (fh : ftpfs_file) (remote : list byte)
    ret out g' fh' :
  read_in_range size offset a fh ->
  offset + size <= OFF_MAX ->
  holds_window remote (buf fh) ->
  faithful remote size offset fi a g fh ->
  ftpfs_read_chunk full_path true size offset fi update_offset a g fh
  = Some (ret, out, g', fh') ->
  holds_window remote (buf fh')
  /\ (ret <> CURLFTPFS_BAD_READ ->
      0 <= ret <= size
      /\ offset + ret <= Z.of_nat (List.length remote)
      /\ out = Some (bytes_at remote offset ret)).
Proof.
  intros Hrange Hspan Hw Hfaith Hread.
  destruct (ftpfs_read_chunk_bytes _ _ _ _ _ _ _ _ _ _ _ _ _
              Hrange Hspan Hw Hfaith Hread) as [Hwin Hok].
  split; [exact Hwin |]. intros Hret.
  destruct (Hok Hret) as (H1 & H2 & H3 & _). now repeat split.
Qed.

Lemma ftpfs_read_chunk_remote_bytes_witness :
  holds_window twenty_two (buf (reading (second_ten ++ [x14; x15]) 12 10 0))
  /\ (4 <> CURLFTPFS_BAD_READ ->
      0 <= 4 <= 4
      /\ 18 + 4 <= Z.of_nat (List.length twenty_two)
      /\ Some [x12; x13; x14; x15] = Some (bytes_at twenty_two 18 4)).
Proof.
  apply (ftpfs_read_chunk_remote_bytes "ftp://host/f" 4 18 1 0 streaming
           (owned_by 1) (reading second_ten 10 10 0) twenty_two
           4 (Some [x12; x13; x14; x15])
           (mk_ftpfs 1 1 0 [curl_multi_perform; curl_multi_perform;
                            curl_easy_setopt (CURLOPT_RANGE None)])
           (reading (second_ten ++ [x14; x15]) 12 10 0)).
  - unfold read_in_range, holds_content. cbn. lia.
  - unfold OFF_MAX. lia.
  - unfold holds_window. cbn. repeat split; lia.
  - intros _. vm_compute. split; [discriminate | reflexivity].
  - vm_compute. reflexivity.
Defined.

(** X4.  A request of the handle that owns the download, at an offset inside
    the window but for more bytes than the window holds, first drives the
    pump once.  If handles are still running the download goes on from where
    it is: the window keeps its start and what it holds, and the pump is
    driven on that state.  If no handle is running any more the transfer is
    restarted at [offset], as after a seek: the window is emptied and the
    connection gets the URL again. *)
Theorem ftpfs_read_chunk_owner_in_window
    (full_path : string) (rbuf : bool) (size offset fi update_offset : Z)
    (a : read_answer) (g : ftpfs_t) (fh : ftpfs_file) :
  read_in_range size offset a fh ->
  offset + size <= OFF_MAX ->
  current_fh g = fi ->
  begin_offset (buf fh) <= offset <= begin_offset (buf fh) + len (buf fh) ->
  begin_offset (buf fh) + len (buf fh) < offset + size ->
  let g1 := call curl_multi_perform g in
  let fh1 := deliver (on_check_running a) fh in
  (running (on_check_running a) <> 0 ->
   ftpfs_read_chunk full_path rbuf size offset fi update_offset a g fh
   = option_map (answer_request rbuf size offset update_offset)
       (pump_window size offset a g1 fh1)
   /\ begin_offset (buf fh1) = begin_offset (buf fh)
   /\ len (buf fh) <= len (buf fh1)
   /\ current_fh g1 = fi
   /\ attached_to_multi g1 = attached_to_multi g)
  /\
  (running (on_check_running a) = 0 ->
   let r := restart_transfer full_path offset fi g1 fh1 in
   ftpfs_read_chunk full_path rbuf size offset fi update_offset a g fh
   = option_map (answer_request rbuf size offset update_offset)
       (pump_window size offset a (fst r) (snd r))
   /\ len (buf (snd r)) = 0
   /\ begin_offset (buf (snd r)) = offset
   /\ In (curl_easy_setopt (CURLOPT_URL full_path)) (calls (fst r))).
Proof.
  intros Hrange Hspan Hown Hin Hmore g1 fh1.
  assert (Hm : cache_miss fh size offset = true)
    by (apply (cache_miss_spec fh size offset a Hrange Hspan); now right).
  destruct Hrange as (Hsize & Hoff & Hbeg & Hc & Hmax).
  unfold answer_bytes, OFF_MAX in *.
  pose proof (chunk_bytes_nonneg (on_check_running a)) as H0.
  pose proof (chunk_bytes_nonneg (on_perform a)) as H1.
  pose proof (script_bytes_nonneg (on_select a)) as H2.
  assert (Hl0 : 0 <= len (buf fh)) by (destruct Hc; assumption).
  assert (Hcheck : must_restart fi offset (on_check_running a) g fh
                   = (running (on_check_running a) =? 0, g1, fh1)).
  { unfold must_restart, past_window.
    rewrite !to_size_t_small by lia.
    replace (current_fh g =? fi) with true
      by (symmetry; apply Z.eqb_eq; exact Hown).
    replace (offset <? begin_offset (buf fh)) with false
      by (symmetry; apply Z.ltb_ge; lia).
    replace (begin_offset (buf fh) + len (buf fh) <? offset) with false
      by (symmetry; apply Z.ltb_ge; lia).
    reflexivity. }
  unfold ftpfs_read_chunk, fill_window. rewrite Hm, Hcheck.
  split.
  - intros Hrun. apply Z.eqb_neq in Hrun. rewrite Hrun.
    split; [reflexivity |].
    destruct (deliver_grown (on_check_running a) fh Hc ltac:(lia))
      as (Hb & Hl & _).
    subst fh1 g1. split; [exact Hb |]. split; [lia |].
    split; [exact Hown | reflexivity].
  - intros Hrun. rewrite Hrun. cbn [Z.eqb].
    pose proof (restart_transfer_state full_path offset fi g1 fh1)
      as (Hl & Hb & _ & _ & _ & _ & _ & Hcalls).
    destruct (restart_transfer full_path offset fi g1 fh1) as [g2 fh2] eqn:Er.
    cbn [fst snd] in *.
    split; [reflexivity |]. split; [exact Hl |]. split; [exact Hb |].
    rewrite Hcalls, !in_app_iff. right. right. left. now left.
Qed.

Lemma ftpfs_read_chunk_owner_in_window_witness :
  let g1 := call curl_multi_perform (owned_by 1) in
  let fh1 := deliver (on_check_running streaming) (reading second_ten 10 10 0) in
  (running (on_check_running streaming) <> 0 ->
   ftpfs_read_chunk "ftp://host/f" true 4 18 1 0 streaming (owned_by 1)
     (reading second_ten 10 10 0)
   = option_map (answer_request true 4 18 0)
       (pump_window 4 18 streaming g1 fh1)
   /\ begin_offset (buf fh1) = begin_offset (buf (reading second_ten 10 10 0))
   /\ len (buf (reading second_ten 10 10 0)) <= len (buf fh1)
   /\ current_fh g1 = 1
   /\ attached_to_multi g1 = attached_to_multi (owned_by 1))
  /\
  (running (on_check_running streaming) = 0 ->
   let r := restart_transfer "ftp://host/f" 18 1 g1 fh1 in
   ftpfs_read_chunk "ftp://host/f" true 4 18 1 0 streaming (owned_by 1)
     (reading second_ten 10 10 0)
   = option_map (answer_request true 4 18 0)
       (pump_window 4 18 streaming (fst r) (snd r))
   /\ len (buf (snd r)) = 0
   /\ begin_offset (buf (snd r)) = 18
   /\ In (curl_easy_setopt (CURLOPT_URL "ftp://host/f")) (calls (fst r))).
Proof.
  apply (ftpfs_read_chunk_owner_in_window "ftp://host/f" true 4 18 1 0
           streaming (owned_by 1) (reading second_ten 10 10 0)).
  - unfold read_in_range, holds_content. cbn. lia.
  - unfold OFF_MAX. lia.
  - reflexivity.
  - cbn. lia.
  - cbn. lia.
Defined.

(** ** The read callback of the upload *)

Lemma memmove_front_length (mem : list byte) (i n : Z) :
  0 <= i -> 0 <= n -> i + n <= Z.of_nat (List.length mem) ->
  List.length (memmove_front mem i n) = List.length mem.
Proof.
  intros Hi Hn Hlen. unfold memmove_front.
  pose proof (bytes_at_length mem i n Hi Hn Hlen) as Hb.
  rewrite length_app, length_skipn. lia.
Qed.

Lemma asked_pos (requests : list Z) :
  Forall (fun n => 0 < n < 2 ^ 64) requests -> 0 <= asked requests.
Proof.
  induction 1 as [| n l Hn _ IH]; [cbn; lia |].
  change (asked (n :: l)) with (n + asked l). lia.
Qed.

Lemma drain_spec (requests : list Z) :
  forall fh : ftpfs_file,
    eof fh = 0 ->
    holds_content (stream_buf fh) ->
    len (stream_buf fh) < 2 ^ 64 ->
    requests <> [] ->
    Forall (fun n => 0 < n < 2 ^ 64) requests ->
    len (stream_buf fh) <= asked requests ->
    exists k fh',
      drain requests fh
      = (content (stream_buf fh),
         repeat (sem_post data_avail) k ++ [sem_post data_need], fh')
      /\ (k < List.length requests)%nat
      /\ len (stream_buf fh') = 0
      /\ written_flag fh' = 1
      /\ eof fh' = 0
      /\ pos fh' = pos fh
      /\ write_fail_cause fh' = write_fail_cause fh
      /\ write_conn fh' = write_conn fh.
Proof.
  induction requests as [| n requests IH];
    intros fh Heof Hc Hmax Hne Hreq Hask; [now contradiction Hne |].
  inversion Hreq as [| ? ? Hn Hreq']; subst.
  pose proof (asked_pos requests Hreq') as Hrest.
  change (asked (n :: requests)) with (n + asked requests) in Hask.
  assert (Hl0 : 0 <= len (stream_buf fh)) by (destruct Hc; assumption).
  cbn [drain]. unfold write_data_bg_take.
  rewrite Heof. cbn [Z.eqb negb].
  rewrite Z.mul_1_l, to_size_t_small by lia.
  destruct (n >? len (stream_buf fh)) eqn:En; tests.
  - (* the callback takes all that is there *)
    rewrite Z.gtb_ltb, Z.ltb_irrefl.
    exists 0%nat. eexists. split; [reflexivity |].
    destruct fh; cbn in *.
    repeat split; first [lia | reflexivity | assumption].
  - destruct (len (stream_buf fh) >? n) eqn:Em; tests.
    + (* more remains: the next callback goes on *)
      rewrite to_size_t_small by lia.
      set (fh1 := set_stream_buf _ fh).
      assert (Hbuf : stream_buf fh1
                     = mk_buffer
                         (memmove_front (p (stream_buf fh)) n
                            (len (stream_buf fh) - n))
                         (len (stream_buf fh) - n)
                         (begin_offset (stream_buf fh)))
        by (subst fh1; now destruct fh).
      assert (Hc1 : holds_content (stream_buf fh1)).
      { rewrite Hbuf. unfold holds_content in *. cbn [len p].
        rewrite memmove_front_length by lia. lia. }
      assert (Hcontent : content (stream_buf fh1)
                         = skipn (Z.to_nat n) (content (stream_buf fh))).
      { rewrite Hbuf. unfold content at 1. cbn [len p].
        apply memmove_front_content; [assumption | lia | lia | lia]. }
      destruct (IH fh1) as (k & fh' & Hd & Hk & Hlen & Hwf & He & Hp & Hf & Hw).
      * subst fh1. now destruct fh.
      * exact Hc1.
      * rewrite Hbuf. cbn [len]. lia.
      * intros ->. rewrite Hbuf in *. cbn in *. lia.
      * exact Hreq'.
      * rewrite Hbuf. cbn [len]. lia.
      * rewrite Hd. exists (S k), fh'. split.
        { f_equal. f_equal.
          rewrite Hcontent, bytes_at_content by lia.
          unfold bytes_at. cbn [Z.to_nat skipn].
          apply firstn_skipn. }
        cbn [List.length].
        split; [lia |]. split; [exact Hlen |]. split; [exact Hwf |].
        split; [exact He |].
        subst fh1. destruct fh; cbn in *.
        repeat split; assumption.
    + (* exactly what is asked for is there *)
      exists 0%nat. eexists. split.
      { f_equal. f_equal. assert (n = len (stream_buf fh)) as -> by lia.
        reflexivity. }
      destruct fh; cbn in *.
      repeat split; first [lia | reflexivity | assumption].
Qed.

(** X5.  The callbacks of the upload hand the library exactly the bytes of
    the stream buffer, in order.  While the transfer is not at its end and
    the callbacks ask for at least one byte each and together for no less
    than the buffer holds, every callback but the last posts [data_avail]
    for the next one, the last one empties the buffer, sets [written_flag]
    and posts [data_need] once, and the callback after it wakes the writer
    with [data_written].  The position and the failure cause are not
    touched. *)
Theorem write_data_bg_drains_buffer (requests : list Z) (fh : ftpfs_file)
    (isready : Z) :
  eof fh = 0 ->
  holds_content (stream_buf fh) ->
  len (stream_buf fh) < 2 ^ 64 ->
  requests <> [] ->
  Forall (fun n => 0 < n < 2 ^ 64) requests ->
  len (stream_buf fh) <= asked requests ->
  exists k fh',
    drain requests fh
    = (content (stream_buf fh),
       repeat (sem_post data_avail) k ++ [sem_post data_need], fh')
    /\ (k < List.length requests)%nat
    /\ len (stream_buf fh') = 0
    /\ written_flag fh' = 1
    /\ pos fh' = pos fh
    /\ write_fail_cause fh' = write_fail_cause fh
    /\ In (sem_post data_written) (fst (write_data_bg_enter isready fh')).
Proof.
  intros Heof Hc Hmax Hne Hreq Hask.
  destruct (drain_spec requests fh Heof Hc Hmax Hne Hreq Hask)
    as (k & fh' & Hd & Hk & Hlen & Hwf & _ & Hp & Hf & _).
  exists k, fh'. split; [exact Hd |]. split; [exact Hk |].
  split; [exact Hlen |]. split; [exact Hwf |]. split; [exact Hp |].
  split; [exact Hf |].
  unfold write_data_bg_enter. rewrite Hlen, Hwf. cbn [fst Z.eqb negb andb].
  rewrite !in_app_iff. right. left. now left.
Qed.

Lemma write_data_bg_drains_buffer_witness :
  exists k fh',
    drain [2; 2; 2] (pending hello)
    = (content (stream_buf (pending hello)),
       repeat (sem_post data_avail) k ++ [sem_post data_need], fh')
    /\ (k < List.length [2; 2; 2])%nat
    /\ len (stream_buf fh') = 0
    /\ written_flag fh' = 1
    /\ pos fh' = pos (pending hello)
    /\ write_fail_cause fh' = write_fail_cause (pending hello)
    /\ In (sem_post data_written) (fst (write_data_bg_enter 1 fh')).
Proof.
  apply write_data_bg_drains_buffer.
  - reflexivity.
  - unfold holds_content. cbn. lia.
  - cbn. lia.
  - discriminate.
  - repeat constructor; lia.
  - cbn. lia.
Defined.

Lemma write_data_bg_take_frame (size nmemb : Z) (fh : ftpfs_file) :
  beside_stream (snd (write_data_bg_take size nmemb fh)) = beside_stream fh.
Proof.
  unfold write_data_bg_take.
  destruct (negb (eof fh =? 0)); [reflexivity |].
  destruct (len (stream_buf fh) >? _); now destruct fh.
Qed.

Lemma drain_frame (requests : list Z) :
  forall fh : ftpfs_file,
    beside_stream (snd (drain requests fh)) = beside_stream fh.
Proof.
  induction requests as [| n requests IH]; intros fh; [reflexivity |].
  cbn [drain].
  pose proof (write_data_bg_take_frame 1 n fh) as Hstep.
  destruct (write_data_bg_take 1 n fh) as [[[ret out] ops] fh1].
  cbn [snd] in Hstep.
  destruct ops as [| [[] |] [| op ops]]; try exact Hstep.
  specialize (IH fh1).
  destruct (drain requests fh1) as [[out' ops'] fh2].
  cbn [snd] in *. congruence.
Qed.

(** One write on a running upload, from the hand-over to the return: the
    callbacks take the bytes of the write from the handle as it is posted,
    and the handle [ftpfs_write] returns is the one they leave, with
    [written_flag] cleared. *)
Lemma ftpfs_write_hands_over
    (get_dir_path : string -> string) (path : string)
    (wbuf : list byte) (size : Z) (a : write_answer)
    (g : ftpfs_t) (fh : ftpfs_file) (requests : list Z) :
  write_fail_cause fh = 0 ->
  write_conn fh = true ->
  eof fh = 0 ->
  len (stream_buf fh) = 0 ->
  0 <= pos fh ->
  pos fh + size <= OFF_MAX ->
  0 < size <= INT_MAX ->
  size <= Z.of_nat (List.length wbuf) ->
  on_buf_add_mem a = true ->
  on_data_written a = consumed ->
  requests <> [] ->
  Forall (fun n => 0 < n < 2 ^ 64) requests ->
  size <= asked requests ->
  exists posted k drained fh',
    ftpfs_write_posted get_dir_path path wbuf size (pos fh) a g fh
    = Some posted
    /\ drain requests posted
       = (bytes_at wbuf 0 size,
          repeat (sem_post data_avail) k ++ [sem_post data_need], drained)
    /\ ftpfs_write get_dir_path path wbuf size (pos fh) a g fh = (size, g, fh')
    /\ upload_view fh' = upload_view (set_written_flag 0 drained)
    /\ write_fail_cause fh' = 0
    /\ write_conn fh' = true
    /\ eof fh' = 0
    /\ len (stream_buf fh') = 0
    /\ pos fh' = pos fh + size.
Proof.
  intros Hcause Hconn Heof Hlen Hpos Hmax Hsize Hbuf Hadd Hdone Hne Hreq Hask.
  set (data := bytes_at wbuf 0 size).
  assert (Hdata : Z.of_nat (List.length data) = size)
    by (subst data; apply bytes_at_length; lia).
  assert (Hcontent : content (stream_buf fh) = [])
    by (unfold content; now rewrite Hlen).
  set (posted := set_pos (pos fh + size)
                   (set_stream_buf
                      (mk_buffer data size (begin_offset (stream_buf fh))) fh)).
  assert (Hchunk : write_chunk_posted wbuf size (pos fh) a fh = Some posted).
  { unfold write_chunk_posted, buf_add_mem.
    rewrite Hconn, Z.eqb_refl, Hadd. cbn [negb Z.eqb].
    fold data. rewrite Hcontent, Hlen, Hdata. cbn [app Z.add].
    unfold INT_MAX, OFF_MAX in *.
    rewrite to_size_t_small by lia.
    rewrite to_off_t_small by (unfold OFF_MAX; lia).
    reflexivity. }
  assert (Hwrite : write_chunk wbuf size (pos fh) a g fh
                   = (size, g, set_written_flag 0 (handoff consumed posted))).
  { unfold write_chunk, buf_add_mem.
    rewrite Hconn, Z.eqb_refl, Hadd, Hdone. cbn [negb Z.eqb].
    fold data. rewrite Hcontent, Hlen, Hdata. cbn [app Z.add].
    unfold INT_MAX, OFF_MAX in *.
    rewrite to_size_t_small by lia.
    replace (pos (set_stream_buf _ fh)) with (pos fh) by (now destruct fh).
    rewrite to_off_t_small by (unfold OFF_MAX; lia).
    fold posted.
    replace (write_fail_cause (set_written_flag 0 (handoff consumed posted)))
      with 0 by (subst posted; now destruct fh).
    cbn [Z.eqb negb]. rewrite to_int_small by (unfold INT_MAX; lia).
    reflexivity. }
  assert (Hstart : start_streaming get_dir_path path (pos fh) a g fh
                   = (None, g, fh))
    by (unfold start_streaming; now rewrite Hconn).
  assert (Hresume : resume_streaming (pos fh) a g fh = (None, g, fh))
    by (unfold resume_streaming; now rewrite Hconn).
  assert (Hsb : stream_buf posted
                = mk_buffer data size (begin_offset (stream_buf fh)))
    by (subst posted; now destruct fh).
  destruct (drain_spec requests posted)
    as (k & drained & Hd & _ & Hl2 & Hw2 & _).
  - subst posted. now destruct fh.
  - rewrite Hsb. unfold holds_content. cbn [len p]. lia.
  - rewrite Hsb. cbn [len]. unfold INT_MAX in *. lia.
  - exact Hne.
  - exact Hreq.
  - rewrite Hsb. cbn [len]. exact Hask.
  - assert (Hout : content (stream_buf posted) = data).
    { rewrite Hsb. unfold content. cbn [len p].
      rewrite <- Hdata, Nat2Z.id. apply firstn_all. }
    rewrite Hout in Hd.
    pose proof (drain_frame requests posted) as Hframe.
    rewrite Hd in Hframe. cbn [snd] in Hframe.
    exists posted, k, drained, (set_written_flag 0 (handoff consumed posted)).
    split.
    { unfold ftpfs_write_posted. now rewrite Hcause, Hstart, Hresume. }
    split; [exact Hd |]. split.
    { unfold ftpfs_write. now rewrite Hcause, Hstart, Hresume. }
    split.
    { unfold beside_stream in Hframe.
      injection Hframe as F1 F2 F3 F4 F5 F6 F7 F8 F9 F10 F11 F12 F13.
      assert (Hc2 : content (stream_buf drained) = [])
        by (unfold content; now rewrite Hl2).
      unfold upload_view.
      replace (content (stream_buf (set_written_flag 0 drained)))
        with (@nil byte) by (now destruct drained).
      replace (len (stream_buf (set_written_flag 0 drained)))
        with 0 by (now destruct drained).
      replace (buf (set_written_flag 0 drained)) with (buf posted)
        by (now destruct drained).
      replace (dirty (set_written_flag 0 drained)) with (dirty posted)
        by (now destruct drained).
      replace (last_offset (set_written_flag 0 drained))
        with (last_offset posted) by (now destruct drained).
      replace (can_shrink (set_written_flag 0 drained))
        with (can_shrink posted) by (now destruct drained).
      replace (mode (set_written_flag 0 drained)) with (mode posted)
        by (now destruct drained).
      replace (open_path (set_written_flag 0 drained))
        with (open_path posted) by (now destruct drained).
      replace (full_path (set_written_flag 0 drained))
        with (full_path posted) by (now destruct drained).
      replace (begin_offset (stream_buf (set_written_flag 0 drained)))
        with (begin_offset (stream_buf posted)) by (now destruct drained).
      replace (write_conn (set_written_flag 0 drained))
        with (write_conn posted) by (now destruct drained).
      replace (eof (set_written_flag 0 drained)) with (eof posted)
        by (now destruct drained).
      replace (written_flag (set_written_flag 0 drained)) with 0
        by (now destruct drained).
      replace (write_fail_cause (set_written_flag 0 drained))
        with (write_fail_cause posted) by (now destruct drained).
      replace (write_may_start (set_written_flag 0 drained))
        with (write_may_start posted) by (now destruct drained).
      replace (pos (set_written_flag 0 drained)) with (pos posted)
        by (now destruct drained).
      now destruct posted. }
    subst posted. destruct fh; cbn in *. repeat split; congruence.
Qed.





(** ** The first write, flush and release *)

Lemma ftpfs_write_no_query (get_dir_path : string -> string) (path : string)
    (wbuf : list byte) (size offset : Z) (a : write_answer)
    (g : ftpfs_t) (fh : ftpfs_file) r g' fh' :
  write_may_start fh <> 0 ->
  ftpfs_write get_dir_path path wbuf size offset a g fh = (r, g', fh') ->
  g' = g.
Proof.
  intros Hmay. apply Z.eqb_neq in Hmay.
  unfold ftpfs_write.
  destruct (write_fail_cause fh =? 0) eqn:Hcause; cbn [negb];
    [| intros E; now injection E as _ <- _].
  apply Z.eqb_eq in Hcause.
  destruct (start_streaming get_dir_path path offset a g fh)
    as [[res1 g1] fh1] eqn:E1.
  assert (Hg1 : g1 = g).
  { unfold start_streaming in E1. rewrite Hmay in E1.
    destruct (_ && _ && _)%bool; [| now injection E1 as _ <- _].
    destruct (start_write_thread (on_start a) fh) as [success fh0].
    destruct (success =? 0); now injection E1 as _ <- _. }
  pose proof (start_streaming_cases _ _ _ _ _ _ _ _ _ E1) as (_ & Hc1 & _).
  subst g1. destruct res1 as [r1 |]; [intros E; now injection E as _ <- _ |].
  destruct (resume_streaming offset a g fh1) as [[res2 g2] fh2] eqn:E2.
  pose proof (resume_streaming_cases _ _ _ _ _ _ _ E2) as (_ & Hc2 & -> & _).
  destruct res2 as [r2 |]; [intros E; now injection E as _ <- _ |].
  intros E. apply write_chunk_cases in E; [now destruct E | congruence].
Qed.

(** X7.  "Start writing with no previous truncate not allowed": on a handle
    that has no upload, has written nothing and has not been truncated
    ([write_may_start] is 0), the first write at offset 0 asks for the
    attributes of the file and is refused with [-EIO] unless the listing
    reports the size 0; a file the listing does not hold is refused as well.
    The handle is left as it is. *)
Theorem ftpfs_write_without_truncate
    (get_dir_path : string -> string) (path : string)
    (wbuf : list byte) (size : Z) (a : write_answer)
    (g : ftpfs_t) (fh : ftpfs_file) :
  write_fail_cause fh = 0 ->
  write_conn fh = false ->
  pos fh = 0 ->
  write_may_start fh = 0 ->
  parsed_size (on_test_size a) <> Some 0 ->
  ftpfs_write get_dir_path path wbuf size 0 a g fh
  = (- EIO, snd (ftpfs_getattr get_dir_path path (on_test_size a) g), fh).
Proof.
  intros Hcause Hconn Hpos Hmay Hsize.
  unfold ftpfs_write, start_streaming, test_size, ftpfs_getattr.
  rewrite Hcause, Hconn, Hpos, Hmay. cbn [Z.eqb negb andb].
  destruct (parsed_size (on_test_size a)) as [st |]; cbn.
  - destruct (st =? 0) eqn:E; tests; [congruence | reflexivity].
  - reflexivity.
Qed.

Lemma ftpfs_write_without_truncate_witness :
  ftpfs_write path_id "/f" hello 5 0 all_good idle fresh
  = (- EIO, snd (ftpfs_getattr path_id "/f" (on_test_size all_good) idle),
     fresh).
Proof.
  apply ftpfs_write_without_truncate.
  - reflexivity.
  - reflexivity.
  - reflexivity.
  - reflexivity.
  - discriminate.
Defined.

(** X8.  [ftpfs_ftruncate] to length 0 on a handle that has written nothing
    lets the upload start: whatever the creation of the empty file has
    returned, [write_may_start] is set, and the next write sends nothing on
    the shared connection, so the size of the remote file is not asked
    for. *)
Theorem ftpfs_ftruncate_then_write
    (get_full_path get_dir_path : string -> string) (path : string)
    (create_res : CURLcode) (ga : getattr_answer)
    (g : ftpfs_t) (fh : ftpfs_file) r1 g1 fh1
    (wbuf : list byte) (size offset : Z) (wa : write_answer) r2 g2 fh2 :
  pos fh = 0 ->
  ftpfs_ftruncate get_full_path get_dir_path path 0 create_res ga g fh
  = (r1, g1, fh1) ->
  ftpfs_write get_dir_path path wbuf size offset wa g1 fh1 = (r2, g2, fh2) ->
  write_may_start fh1 = 1
  /\ r1 = (if (create_res =? CURLE_OK)%N then 0 else - EPERM)
  /\ g2 = g1.
Proof.
  intros Hpos Htrunc Hwrite.
  unfold ftpfs_ftruncate in Htrunc. rewrite Hpos in Htrunc.
  cbn [Z.eqb] in Htrunc.
  pose proof (create_empty_file_ret get_full_path
                (open_path (set_write_may_start 1 fh)) create_res g) as Hret.
  destruct (create_empty_file _ _ _ _) as [err g0].
  injection Htrunc as <- <- <-. cbn [fst] in Hret.
  assert (Hmay : write_may_start (set_write_may_start 1 fh) = 1)
    by (now destruct fh).
  split; [exact Hmay |]. split; [exact Hret |].
  eapply ftpfs_write_no_query; [| exact Hwrite]. rewrite Hmay. lia.
Qed.

Lemma ftpfs_ftruncate_then_write_witness :
  write_may_start (set_write_may_start 1 fresh) = 1
  /\ - EPERM = (if (7 =? CURLE_OK)%N then 0 else - EPERM)
  /\ snd (create_empty_file path_id "/f" 7%N idle)
     = snd (create_empty_file path_id "/f" 7%N idle).
Proof.
  apply (ftpfs_ftruncate_then_write path_id path_id "/f" 7%N no_listing
           idle fresh (- EPERM) (snd (create_empty_file path_id "/f" 7%N idle))
           (set_write_may_start 1 fresh)
           hello 5 0 all_good 5
           (snd (create_empty_file path_id "/f" 7%N idle))
           (snd (ftpfs_write path_id "/f" hello 5 0 all_good
                   (snd (create_empty_file path_id "/f" 7%N idle))
                   (set_write_may_start 1 fresh)))).
  - reflexivity.
  - vm_compute. reflexivity.
  - vm_compute. reflexivity.
Defined.

Lemma cancel_previous_multi_current_fh (g : ftpfs_t) :
  current_fh (cancel_previous_multi g) = current_fh g.
Proof. unfold cancel_previous_multi. now destruct (attached_to_multi g =? 0). Qed.

Lemma ftpfs_getattr_current_fh gdp (path : string) (a : getattr_answer)
    (g : ftpfs_t) :
  current_fh (snd (ftpfs_getattr gdp path a g)) = current_fh g.
Proof.
  unfold ftpfs_getattr. destruct (parsed_size a); cbn;
    apply cancel_previous_multi_current_fh.
Qed.

Lemma ftpfs_flush_state (get_dir_path : string -> string) (path : string)
    (a : flush_answer) (g : ftpfs_t) (fh : ftpfs_file) :
  let r := ftpfs_flush get_dir_path path a g fh in
  write_conn (snd r) = false
  /\ pos (snd r) = pos fh
  /\ dirty (snd r) = dirty fh
  /\ current_fh (snd (fst r)) = current_fh g
  /\ (write_conn fh = false -> snd r = fh /\ snd (fst r) = g).
Proof.
  unfold ftpfs_flush. destruct (write_conn fh) eqn:Hconn.
  - pose proof (finish_write_thread_state (on_finish a) fh)
      as (Hw & _ & Hp & _).
    assert (Hd : dirty (snd (finish_write_thread (on_finish a) fh)) = dirty fh).
    { unfold finish_write_thread, ftpfs_write_thread_exit.
      destruct (write_fail_cause fh =? 0); [destruct (_ =? _)%N |];
        now destruct fh. }
    destruct (finish_write_thread (on_finish a) fh) as [err fh1].
    cbn [snd] in *.
    destruct (negb (err =? 0)).
    + cbn. repeat split; try assumption; congruence.
    + pose proof (ftpfs_getattr_current_fh get_dir_path path (on_getattr a) g)
        as Hcur.
      destruct (ftpfs_getattr get_dir_path path (on_getattr a) g)
        as [[e [st |]] g1]; cbn [snd fst] in *.
      * destruct (negb (e =? 0)); [| destruct (negb (st =? pos fh1))]; cbn;
          repeat split; try assumption; try congruence;
          now destruct fh1.
      * cbn. repeat split; try assumption; congruence.
  - destruct (dirty fh =? 0); cbn; repeat split; assumption.
Qed.

(** X9.  A flush leaves no upload behind.  On a handle without an upload,
    or whose upload has a worker to join, the flush returns, whatever its
    result [write_conn] is cleared and [pos] is kept, and a flush that
    follows sends nothing and returns 0, also after a flush that has failed.
    On a handle whose worker was never created while [write_conn] is set the
    flush does not return. *)
Theorem ftpfs_flush_then_flush
    (get_dir_path : string -> string) (worker : bool) (path : string)
    (a1 a2 : flush_answer) (g : ftpfs_t) (fh : ftpfs_file) :
  dirty fh = 0 ->
  (write_conn fh = true -> worker = false ->
   ftpfs_flush_joining get_dir_path worker path a1 g fh = None)
  /\
  ((write_conn fh = true -> worker = true) ->
   exists r1 g1 fh1,
     ftpfs_flush_joining get_dir_path worker path a1 g fh = Some (r1, g1, fh1)
     /\ write_conn fh1 = false
     /\ pos fh1 = pos fh
     /\ forall worker2,
          ftpfs_flush_joining get_dir_path worker2 path a2 g1 fh1
          = Some (0, g1, fh1)).
Proof.
  intros Hdirty. unfold ftpfs_flush_joining. split.
  - intros -> ->. reflexivity.
  - intros Hworker.
    assert (Hgo : (write_conn fh && negb worker)%bool = false).
    { destruct (write_conn fh); [| reflexivity]. now rewrite Hworker. }
    rewrite Hgo.
    pose proof (ftpfs_flush_state get_dir_path path a1 g fh)
      as (Hw & Hp & Hd & _).
    destruct (ftpfs_flush get_dir_path path a1 g fh) as [[r1 g1] fh1].
    cbn [snd] in *. exists r1, g1, fh1.
    split; [reflexivity |]. split; [exact Hw |]. split; [exact Hp |].
    intros worker2. rewrite Hw. cbn [andb].
    unfold ftpfs_flush. now rewrite Hw, Hd, Hdirty.
Qed.

Lemma ftpfs_flush_then_flush_witness :
  (write_conn (uploading 5) = true -> true = false ->
   ftpfs_flush_joining path_id true "/f" (mk_flush_answer 55%N no_listing)
     idle (uploading 5) = None)
  /\
  ((write_conn (uploading 5) = true -> true = true) ->
   exists r1 g1 fh1,
     ftpfs_flush_joining path_id true "/f" (mk_flush_answer 55%N no_listing)
       idle (uploading 5) = Some (r1, g1, fh1)
     /\ write_conn fh1 = false
     /\ pos fh1 = pos (uploading 5)
     /\ forall worker2,
          ftpfs_flush_joining path_id worker2 "/f"
            (mk_flush_answer 0%N no_listing) g1 fh1
          = Some (0, g1, fh1)).
Proof.
  apply ftpfs_flush_then_flush. reflexivity.
Defined.

(** X10.  On a handle without an upload, or whose upload has a worker to
    join, release returns, and it always returns 0, whatever the flush in it
    has returned.  The upload of the handle is finished, and the shared
    connection forgets the handle: if it was the owner of the download,
    [current_fh] is cleared, so that a handle allocated at the same address
    later is not taken for the owner; any other owner is kept.  On a handle
    whose worker was never created while [write_conn] is set release does not
    return. *)
Theorem ftpfs_release_forgets_handle
    (get_dir_path : string -> string) (worker : bool) (path : string) (fi : Z)
    (a : flush_answer) (g : ftpfs_t) (fh : ftpfs_file) :
  fi <> 0 ->
  (write_conn fh = true -> worker = false ->
   ftpfs_release_joining get_dir_path worker path fi a g fh = None)
  /\
  ((write_conn fh = true -> worker = true) ->
   exists g' fh',
     ftpfs_release_joining get_dir_path worker path fi a g fh
     = Some (0, g', fh')
     /\ write_conn fh' = false
     /\ current_fh g' <> fi
     /\ (current_fh g <> fi -> current_fh g' = current_fh g)).
Proof.
  intros Hfi. unfold ftpfs_release_joining. split.
  - intros -> ->. reflexivity.
  - intros Hworker.
    assert (Hgo : (write_conn fh && negb worker)%bool = false).
    { destruct (write_conn fh); [| reflexivity]. now rewrite Hworker. }
    rewrite Hgo. unfold ftpfs_release.
    pose proof (ftpfs_flush_state get_dir_path path a g fh)
      as (Hw & _ & _ & Hcur & _).
    destruct (ftpfs_flush get_dir_path path a g fh) as [[e g1] fh1].
    cbn [fst snd] in *. unfold op_return.
    eexists _, fh1. split; [reflexivity |]. split; [exact Hw |].
    destruct (current_fh g1 =? fi) eqn:Eown; tests.
    + split; [cbn; congruence | intros H; congruence].
    + split; [exact Eown | intros _; exact Hcur].
Qed.

Lemma ftpfs_release_forgets_handle_witness :
  (write_conn (reading second_ten 10 10 1) = true -> false = false ->
   ftpfs_release_joining path_id false "/f" 1
     (mk_flush_answer 0%N no_listing) (owned_by 1)
     (reading second_ten 10 10 1) = None)
  /\
  ((write_conn (reading second_ten 10 10 1) = true -> false = true) ->
   exists g' fh',
     ftpfs_release_joining path_id false "/f" 1
       (mk_flush_answer 0%N no_listing) (owned_by 1)
       (reading second_ten 10 10 1)
     = Some (0, g', fh')
     /\ write_conn fh' = false
     /\ current_fh g' <> 1
     /\ (current_fh (owned_by 1) <> 1 -> current_fh g' = current_fh (owned_by 1))).
Proof.
  apply ftpfs_release_forgets_handle. discriminate.
Defined.



(** ** Opening a file *)

Lemma start_write_thread_state (a : start_answer) (fh : ftpfs_file) :
  let r := start_write_thread a fh in
  (negb (fst r =? 0) = started_ok a)
  /\ (started_ok a = true -> write_conn (snd r) = true)
  /\ pos (snd r) = pos fh
  /\ write_fail_cause (snd r) = write_fail_cause fh
  /\ write_may_start (snd r) = write_may_start fh
  /\ dirty (snd r) = dirty fh
  /\ can_shrink (snd r) = can_shrink fh
  /\ full_path (snd r) = full_path fh.
Proof.
  unfold start_write_thread, started_ok.
  destruct (curl_easy_init_ok a); [destruct (pthread_create_err a =? 0) |];
    cbn; destruct fh; cbn; repeat split; congruence.
Qed.

Lemma test_exists_found gdp (path : string) (a : getattr_answer) (g : ftpfs_t) :
  negb (fst (test_exists gdp path a g) =? - ENOENT) = listed a.
Proof.
  unfold test_exists, ftpfs_getattr, listed.
  now destruct (parsed_size a).
Qed.

Lemma ftpfs_write_thread_exit_state (curl_res : CURLcode) (fh : ftpfs_file) :
  let fh' := ftpfs_write_thread_exit curl_res fh in
  pos fh' = pos fh
  /\ dirty fh' = dirty fh
  /\ can_shrink fh' = can_shrink fh
  /\ full_path fh' = full_path fh
  /\ write_conn fh' = write_conn fh
  /\ write_may_start fh' = write_may_start fh
  /\ write_fail_cause fh'
     = (if (curl_res =? CURLE_OK)%N then write_fail_cause fh
        else Z.of_N curl_res).
Proof.
  unfold ftpfs_write_thread_exit.
  destruct (curl_res =? CURLE_OK)%N; now destruct fh.
Qed.

Lemma open_for_writing_cases gdp gfn (path : string) (mode flags : Z)
    (a : open_answer) (g : ftpfs_t) (fh : ftpfs_file) err g' fh' :
  open_for_writing gdp gfn path mode flags a g fh = (err, g', fh') ->
  err = write_open_result flags a
  /\ (err = 0 ->
      pos fh' = pos fh
      /\ dirty fh' = dirty fh
      /\ can_shrink fh' = can_shrink fh
      /\ full_path fh' = full_path fh
      /\ if has flags O_CREAT || has flags O_TRUNC
         then write_conn fh' = true /\ write_may_start fh' = 1
              /\ write_fail_cause fh'
                 = match on_open_ready a with
                   | Some curl_res =>
                       if (curl_res =? CURLE_OK)%N then write_fail_cause fh
                       else Z.of_N curl_res
                   | None => write_fail_cause fh
                   end
         else write_conn fh' = write_conn fh /\ write_may_start fh' = 0
              /\ write_fail_cause fh' = write_fail_cause fh).
Proof.
  unfold open_for_writing, write_open_result.
  pose proof (test_exists_found gdp path (on_exists a) g) as Hfound.
  destruct (test_exists gdp path (on_exists a) g) as [exists_r g1].
  cbn [fst] in Hfound.
  pose proof (start_write_thread_state (on_open_start a)
                (set_write_may_start 1 fh))
    as (Hok & Hconn & Hp & Hf & Hm & Hd & Hs & Hu).
  destruct (start_write_thread (on_open_start a) (set_write_may_start 1 fh))
    as [success fh1].
  cbn [fst snd] in *.
  assert (Hset : pos (set_write_may_start 1 fh) = pos fh
                 /\ write_fail_cause (set_write_may_start 1 fh)
                    = write_fail_cause fh
                 /\ dirty (set_write_may_start 1 fh) = dirty fh
                 /\ can_shrink (set_write_may_start 1 fh) = can_shrink fh
                 /\ full_path (set_write_may_start 1 fh) = full_path fh
                 /\ write_may_start (set_write_may_start 1 fh) = 1)
    by (now destruct fh).
  assert (Hclr : pos (set_write_may_start 0 fh) = pos fh
                 /\ write_fail_cause (set_write_may_start 0 fh)
                    = write_fail_cause fh
                 /\ dirty (set_write_may_start 0 fh) = dirty fh
                 /\ can_shrink (set_write_may_start 0 fh) = can_shrink fh
                 /\ full_path (set_write_may_start 0 fh) = full_path fh
                 /\ write_conn (set_write_may_start 0 fh) = write_conn fh
                 /\ write_may_start (set_write_may_start 0 fh) = 0)
    by (now destruct fh).
  destruct Hset as (S1 & S2 & S3 & S4 & S6 & S5).
  destruct Hclr as (C1 & C2 & C3 & C4 & C7 & C5 & C6).
  set (first_err := if has flags O_APPEND then - ENOTSUP else 0).
  assert (Hfirst : (if has flags O_EXCL
                    then (if negb (exists_r =? - ENOENT) then - EACCES
                          else first_err, g1)
                    else (first_err, g))
                   = (if has flags O_EXCL && listed (on_exists a)
                      then - EACCES else first_err,
                      if has flags O_EXCL then g1 else g)).
  { rewrite <- Hfound. destruct (has flags O_EXCL); [| reflexivity].
    now destruct (negb (exists_r =? - ENOENT)). }
  rewrite Hfirst. clear Hfirst.
  destruct (has flags O_EXCL && listed (on_exists a))%bool.
  { change (- EACCES =? 0) with false. cbv iota.
    intros E. injection E as <- _ _. split; [reflexivity |].
    unfold EACCES. lia. }
  subst first_err. destruct (has flags O_APPEND).
  { change (- ENOTSUP =? 0) with false. cbv iota.
    intros E. injection E as <- _ _. split; [reflexivity |].
    unfold ENOTSUP. lia. }
  change (0 =? 0) with true. cbv iota.
  destruct (has flags O_CREAT || has flags O_TRUNC)%bool; cbn [andb].
  - rewrite <- Hok. destruct (negb (success =? 0)) eqn:Esucc;
      cbn [negb]; cbv iota.
    + intros E. injection E as <- _ <-. split; [reflexivity |].
      intros _. specialize (Hconn (eq_sym Hok)).
      destruct (on_open_ready a) as [curl_res |].
      * destruct (ftpfs_write_thread_exit_state curl_res fh1)
          as (E1 & E2 & E3 & E4 & E5 & E6 & E7).
        cbv zeta in *.
        rewrite E1, E2, E3, E4, E5, E6, E7.
        rewrite Hp, Hf, Hm, Hd, Hs, Hu, S1, S2, S3, S4, S5, S6.
        now repeat split.
      * rewrite Hp, Hf, Hm, Hd, Hs, Hu, S1, S2, S3, S4, S5, S6.
        now repeat split.
    + intros E. injection E as <- _ _. split; [reflexivity |].
      unfold EIO. lia.
  - intros E. injection E as <- _ <-. split; [reflexivity |].
    intros _. now rewrite C1, C2, C3, C4, C5, C6, C7.
Qed.

(** X12.  An open for writing ([O_WRONLY], or [O_RDWR] when the read-write
    workaround is compiled in) returns [-EACCES] when [O_EXCL] is given and
    the listing holds the name, else [-ENOTSUP] when [O_APPEND] is given,
    else [-EIO] when [O_CREAT] or [O_TRUNC] is given and the worker cannot be
    started, else 0.  An open that fails frees the handle.  An open that
    succeeds leaves a handle at position 0.  Without [O_CREAT] and [O_TRUNC]
    it has no upload and no failure cause, and the first write has to wait
    for a truncate.  With one of them its upload has been started and writing
    may start; the open returns 0 also when the transfer of the worker has
    failed by then, and the handle then carries the result of that transfer
    as its failure cause, so that every write on it returns [-EIO]. *)
Theorem ftpfs_open_common_for_writing
    (get_full_path get_dir_path get_file_name : string -> string)
    (workaround : bool) (path : string) (mode flags fi : Z)
    (a : open_answer) (g : ftpfs_t) :
  Z.land flags O_ACCMODE = O_WRONLY
  \/ (Z.land flags O_ACCMODE = O_RDWR /\ workaround = true) ->
  exists g' h,
    ftpfs_open_common get_full_path get_dir_path get_file_name workaround
      path mode flags fi a g
    = Some (write_open_result flags a, g', h)
    /\ (write_open_result flags a <> 0 -> h = None)
    /\ (write_open_result flags a = 0 ->
        exists fh,
          h = Some fh
          /\ pos fh = 0
          /\ full_path fh = get_full_path path
          /\ (if has flags O_CREAT || has flags O_TRUNC
              then write_conn fh = true /\ write_may_start fh = 1
                   /\ write_fail_cause fh
                      = match on_open_ready a with
                        | Some curl_res => Z.of_N curl_res
                        | None => 0
                        end
              else write_conn fh = false /\ write_may_start fh = 0
                   /\ write_fail_cause fh = 0)
          /\ (write_fail_cause fh <> 0 ->
              forall wbuf size offset wa,
                ftpfs_write get_dir_path path wbuf size offset wa g' fh
                = (- EIO, g', fh))).
Proof.
  intros Hacc. unfold ftpfs_open_common.
  assert (Hmode : (Z.land flags O_ACCMODE =? O_RDONLY) = false
                  /\ ((Z.land flags O_ACCMODE =? O_RDWR)
                      || (Z.land flags O_ACCMODE =? O_WRONLY))%bool = true
                  /\ (negb workaround
                      && (Z.land flags O_ACCMODE =? O_RDWR))%bool = false).
  { destruct Hacc as [-> | [-> ->]]; [destruct workaround |];
      now repeat split. }
  destruct Hmode as (-> & -> & ->).
  destruct (open_for_writing get_dir_path get_file_name path mode flags a g
              (new_handle get_full_path path mode))
    as [[err g1] fh1] eqn:Eopen.
  apply open_for_writing_cases in Eopen. destruct Eopen as [-> Hstate].
  unfold op_return.
  exists g1, (if write_open_result flags a =? 0 then Some fh1 else None).
  split; [reflexivity |]. split.
  - intros Hne. apply Z.eqb_neq in Hne. now rewrite Hne.
  - intros H0. rewrite H0 in *. exists fh1. split; [reflexivity |].
    destruct (Hstate eq_refl) as (Hp & _ & _ & Hu & Hc).
    split; [exact Hp |]. split; [exact Hu |]. split.
    + destruct (has flags O_CREAT || has flags O_TRUNC)%bool.
      * destruct Hc as (Hc1 & Hc2 & Hc3).
        split; [exact Hc1 |]. split; [exact Hc2 |].
        rewrite Hc3. destruct (on_open_ready a) as [curl_res |];
          [| reflexivity].
        destruct (curl_res =? CURLE_OK)%N eqn:E; [| reflexivity].
        apply N.eqb_eq in E. now subst curl_res.
      * exact Hc.
    + intros Hcause wbuf size offset wa. unfold ftpfs_write.
      apply Z.eqb_neq in Hcause. now rewrite Hcause.
Qed.

Lemma ftpfs_open_common_for_writing_witness :
  exists g' h,
    ftpfs_open_common path_id path_id path_id false
      "/f" 420 (Z.lor O_WRONLY O_TRUNC) 1 upload_fails_at_once idle
    = Some (write_open_result (Z.lor O_WRONLY O_TRUNC) upload_fails_at_once,
            g', h)
    /\ (write_open_result (Z.lor O_WRONLY O_TRUNC) upload_fails_at_once <> 0 ->
        h = None)
    /\ (write_open_result (Z.lor O_WRONLY O_TRUNC) upload_fails_at_once = 0 ->
        exists fh,
          h = Some fh
          /\ pos fh = 0
          /\ full_path fh = path_id "/f"
          /\ (if has (Z.lor O_WRONLY O_TRUNC) O_CREAT
                 || has (Z.lor O_WRONLY O_TRUNC) O_TRUNC
              then write_conn fh = true /\ write_may_start fh = 1
                   /\ write_fail_cause fh
                      = match on_open_ready upload_fails_at_once with
                        | Some curl_res => Z.of_N curl_res
                        | None => 0
                        end
              else write_conn fh = false /\ write_may_start fh = 0
                   /\ write_fail_cause fh = 0)
          /\ (write_fail_cause fh <> 0 ->
              forall wbuf size offset wa,
                ftpfs_write path_id "/f" wbuf size offset wa g' fh
                = (- EIO, g', fh))).
Proof.
  apply ftpfs_open_common_for_writing.
  left. reflexivity.
Defined.

(** ** What a read leaves alone *)

Lemma set_buf_beside (b : buffer) (fh : ftpfs_file) :
  beside_buf (set_buf b fh) = beside_buf fh.
Proof. now destruct fh. Qed.

Lemma deliver_beside (a : perform_answer) (fh : ftpfs_file) :
  beside_buf (deliver a fh) = beside_buf fh.
Proof.
  unfold deliver. revert fh.
  induction (delivered a) as [| c l IH]; intros fh; [reflexivity |].
  cbn [fold_left]. rewrite IH. apply set_buf_beside.
Qed.

Lemma wait_for_data_beside (script : list (Z * perform_answer)) :
  forall (size offset : Z) (g : ftpfs_t) (fh : ftpfs_file) (running_handles : Z)
         err running_handles' g' fh',
    wait_for_data script size offset g fh running_handles
    = Some (err, running_handles', g', fh') ->
    beside_buf fh' = beside_buf fh.
Proof.
  induction script as [| [rc a] script IH];
    intros size offset g fh rh err rh' g' fh'; cbn [wait_for_data].
  - destruct (_ && _)%bool; [discriminate |].
    intros E. now injection E as _ _ _ <-.
  - destruct (_ && _)%bool.
    + destruct (rc =? -1).
      * intros E. now injection E as _ _ _ <-.
      * intros E. apply IH in E. rewrite E. apply deliver_beside.
    + intros E. now injection E as _ _ _ <-.
Qed.

Lemma pump_window_beside (size offset : Z) (a : read_answer)
    (g : ftpfs_t) (fh : ftpfs_file) err g1 fh1 :
  pump_window size offset a g fh = Some (err, g1, fh1) ->
  beside_buf fh1 = beside_buf fh.
Proof.
  unfold pump_window.
  destruct (wait_for_data _ _ _ _ _ _) as [[[[e rh] g'] fh'] |] eqn:Ew;
    [| discriminate].
  apply wait_for_data_beside in Ew. rewrite deliver_beside in Ew.
  intros E.
  assert (fh' = fh1) as ->.
  { destruct (rh =? 0); [destruct (read_messages _ _ _) |]; now inversion E. }
  exact Ew.
Qed.

Lemma restart_transfer_beside (full_path : string) (offset fi : Z)
    (g : ftpfs_t) (fh : ftpfs_file) :
  beside_buf (snd (restart_transfer full_path offset fi g fh)) = beside_buf fh.
Proof. unfold restart_transfer. cbn [snd]. apply set_buf_beside. Qed.

Lemma fill_window_beside (full_path : string) (size offset fi : Z)
    (a : read_answer) (g : ftpfs_t) (fh : ftpfs_file) err g1 fh1 :
  fill_window full_path size offset fi a g fh = Some (err, g1, fh1) ->
  beside_buf fh1 = beside_buf fh.
Proof.
  unfold fill_window, must_restart, check_running.
  destruct (cache_miss fh size offset);
    [| intros E; now injection E as _ _ <-].
  destruct (_ || _ || _)%bool.
  - pose proof (restart_transfer_beside full_path offset fi g fh) as Hr.
    destruct (restart_transfer full_path offset fi g fh) as [g2 fh2].
    intros E. apply pump_window_beside in E. now rewrite E.
  - destruct (running (on_check_running a) =? 0).
    + pose proof (restart_transfer_beside full_path offset fi
                    (call curl_multi_perform g)
                    (deliver (on_check_running a) fh)) as Hr.
      destruct (restart_transfer _ _ _ _ _) as [g2 fh2].
      intros E. apply pump_window_beside in E.
      rewrite E. cbn [snd] in Hr. rewrite Hr. apply deliver_beside.
    + intros E. apply pump_window_beside in E.
      rewrite E. apply deliver_beside.
Qed.

Lemma shrink_beside (size offset : Z) (fh : ftpfs_file) :
  beside_buf (shrink size offset fh) = beside_buf fh.
Proof.
  unfold shrink. destruct (_ && _)%bool; [apply set_buf_beside | reflexivity].
Qed.

Lemma ftpfs_read_chunk_beside
    (full_path : string) (rbuf : bool) (size offset fi update_offset : Z)
    (a : read_answer) (g : ftpfs_t) (fh : ftpfs_file) ret out g' fh' :
  ftpfs_read_chunk full_path rbuf size offset fi update_offset a g fh
  = Some (ret, out, g', fh') ->
  beside_window fh' = beside_window fh
  /\ (update_offset = 0 -> last_offset fh' = last_offset fh)
  /\ (rbuf = false -> out = None).
Proof.
  unfold ftpfs_read_chunk.
  destruct (fill_window full_path size offset fi a g fh)
    as [[[err g1] fh1] |] eqn:Hfill; [| discriminate].
  apply fill_window_beside in Hfill.
  cbn [option_map answer_request]. unfold serve.
  intros E. injection E as _ <- _ <-.
  assert (Hw : beside_window fh1 = beside_window fh)
    by exact (f_equal fst Hfill).
  assert (Hl : last_offset fh1 = last_offset fh)
    by exact (f_equal snd Hfill).
  rewrite <- Hw, <- Hl.
  set (fh2 := if update_offset =? 0 then fh1 else set_last_offset _ fh1).
  pose proof (shrink_beside (served fh1 size offset) offset fh2) as Hs.
  assert (Hsw : beside_window (shrink (served fh1 size offset) offset fh2)
                = beside_window fh2) by exact (f_equal fst Hs).
  assert (Hsl : last_offset (shrink (served fh1 size offset) offset fh2)
                = last_offset fh2) by exact (f_equal snd Hs).
  split; [| split].
  - rewrite Hsw. subst fh2. now destruct (update_offset =? 0); destruct fh1.
  - intros ->. rewrite Hsl. reflexivity.
  - now intros ->.
Qed.

(** X13.  A read works on the read window only: whatever the pump delivers
    and however the call ends, the upload side of the handle ([pos],
    [write_conn], [stream_buf], [write_fail_cause], [write_may_start], [eof],
    [written_flag]) and [dirty], [can_shrink], [mode] and the paths are as
    before; [last_offset] moves only when the caller asks for it, and without
    a caller buffer nothing is copied out. *)
Theorem ftpfs_read_chunk_touches_only_window
    (full_path : string) (rbuf : bool) (size offset fi update_offset : Z)
    (a : read_answer) (g : ftpfs_t) (fh : ftpfs_file) ret out g' fh' :
  ftpfs_read_chunk full_path rbuf size offset fi update_offset a g fh
  = Some (ret, out, g', fh') ->
  beside_window fh' = beside_window fh
  /\ (update_offset = 0 -> last_offset fh' = last_offset fh)
  /\ (rbuf = false -> out = None).
Proof. apply ftpfs_read_chunk_beside. Qed.

Lemma ftpfs_read_chunk_touches_only_window_witness :
  beside_window (reading (second_ten ++ [x14; x15]) 12 10 0)
  = beside_window (reading second_ten 10 10 0)
  /\ (0 = 0 ->
      last_offset (reading (second_ten ++ [x14; x15]) 12 10 0)
      = last_offset (reading second_ten 10 10 0))
  /\ (true = false -> Some [x12; x13; x14; x15] = None).
Proof.
  apply (ftpfs_read_chunk_touches_only_window "ftp://host/f" true 4 18 1 0
           streaming (owned_by 1) (reading second_ten 10 10 0)
           4 (Some [x12; x13; x14; x15])
           (mk_ftpfs 1 1 0 [curl_multi_perform; curl_multi_perform;
                            curl_easy_setopt (CURLOPT_RANGE None)])).
  vm_compute. reflexivity.
Defined.

Lemma ftpfs_read_chunk_keeps_window (remote : list byte)
    (full_path : string) (rbuf : bool) (size offset fi update_offset : Z)
    (a : read_answer) (g : ftpfs_t) (fh : ftpfs_file) ret out g' fh' :
  read_in_range size offset a fh ->
  holds_window remote (buf fh) ->
  faithful remote size offset fi a g fh ->
  ftpfs_read_chunk full_path rbuf size offset fi update_offset a g fh
  = Some (ret, out, g', fh') ->
  holds_window remote (buf fh').
Proof.
  intros Hrange Hw Hfaith Hread.
  unfold ftpfs_read_chunk in Hread.
  destruct (fill_window full_path size offset fi a g fh)
    as [[[err g1] fh1] |] eqn:Hfill; [| discriminate].
  pose proof (fill_window_in_window _ _ _ _ _ _ _ _ _ _ Hrange Hfill)
    as (Hb & Hl & Hc & _).
  pose proof (fill_window_window _ _ _ _ _ _ _ _ _ _ _ Hrange Hw Hfaith Hfill)
    as Hw1.
  pose proof (served_in_window fh1 size offset Hb Hl) as Hserved.
  destruct Hrange as (Hsize & _).
  cbn [option_map answer_request] in Hread. unfold serve in Hread.
  injection Hread as _ _ _ Hfh.
  rewrite Hserved in *.
  subst fh'. apply shrink_window; try lia.
  - now destruct (update_offset =? 0); destruct fh1.
  - now destruct (update_offset =? 0); destruct fh1.
  - destruct (update_offset =? 0); destruct fh1; cbn in *; lia.
  - destruct (update_offset =? 0); destruct fh1; cbn in *; lia.
Qed.

(** X14.  A read-only open without [O_CREAT] asks the read engine for the
    first byte.  It returns 0 or [-EACCES]; on [-EACCES] the handle is freed.
    On success the handle may shrink its window, has written nothing and has
    no upload, and when the server sends the bytes of the remote file (from
    offset 0 when the transfer is set up for the new handle, and as what
    follows the still empty window when it is not, which is the case when
    the connection is still owned by a handle that was at the same address
    and its handles are running), its window holds bytes of the remote file
    at their offsets. *)
Theorem ftpfs_open_common_read_only
    (get_full_path get_dir_path get_file_name : string -> string)
    (workaround : bool) (path : string) (mode flags fi : Z)
    (a : open_answer) (g : ftpfs_t) (remote : list byte) err g' h :
  Z.land flags O_ACCMODE = O_RDONLY ->
  has flags O_CREAT = false ->
  answer_bytes (on_probe a) <= OFF_MAX ->
  faithful remote 1 0 fi (on_probe a) g
    (set_can_shrink 1 (new_handle get_full_path path mode)) ->
  ftpfs_open_common get_full_path get_dir_path get_file_name workaround
    path mode flags fi a g
  = Some (err, g', h) ->
  (err = 0 \/ err = - EACCES)
  /\ (err <> 0 -> h = None)
  /\ (err = 0 ->
      exists fh,
        h = Some fh
        /\ holds_window remote (buf fh)
        /\ can_shrink fh = 1
        /\ pos fh = 0
        /\ write_conn fh = false
        /\ write_fail_cause fh = 0
        /\ last_offset fh = 0
        /\ full_path fh = get_full_path path)
  /\ (current_fh g <> fi -> current_fh g' = fi).
Proof.
  intros Hacc Hcreat Hbytes Hfaith.
  unfold ftpfs_open_common. rewrite Hacc, Hcreat. cbn [Z.eqb O_RDONLY].
  set (fh0 := set_can_shrink 1 (new_handle get_full_path path mode)) in *.
  assert (Hrange : read_in_range 1 0 (on_probe a) fh0).
  { unfold read_in_range, holds_content.
    change (buf fh0) with buf_init. unfold buf_init.
    cbn [len begin_offset p List.length Z.of_nat]. lia. }
  assert (Hw0 : holds_window remote (buf fh0)).
  { unfold holds_window. change (buf fh0) with buf_init. unfold buf_init.
    cbn [len begin_offset]. repeat split; try lia. }
  destruct (ftpfs_read_chunk (full_path fh0) false 1 0 fi 0 (on_probe a) g fh0)
    as [[[[size out] g1] fh1] |] eqn:Hread; [| discriminate].
  pose proof (ftpfs_read_chunk_keeps_window remote _ _ _ _ _ _ _ _ _ _ _ _ _
                Hrange Hw0 Hfaith Hread) as Hw1.
  pose proof (ftpfs_read_chunk_beside _ _ _ _ _ _ _ _ _ _ _ _ _ Hread)
    as (Hbeside & Hlast & _).
  assert (Hsetup : current_fh g <> fi -> current_fh g1 = fi).
  { intros Hown. unfold ftpfs_read_chunk, fill_window in Hread.
    assert (Hmiss : cache_miss fh0 1 0 = true) by reflexivity.
    rewrite Hmiss in Hread.
    assert (Hre : must_restart fi 0 (on_check_running (on_probe a)) g fh0
                  = (true, g, fh0)).
    { apply must_restart_outside. apply Z.eqb_neq in Hown. now rewrite Hown. }
    rewrite Hre in Hread.
    pose proof (restart_transfer_state (full_path fh0) 0 fi g fh0)
      as (_ & _ & _ & _ & _ & Ho & _).
    destruct (restart_transfer (full_path fh0) 0 fi g fh0) as [g2 fh2].
    cbn [fst snd] in *.
    destruct (pump_window 1 0 (on_probe a) g2 fh2)
      as [[[e g3] fh3] |] eqn:Hpump; [| discriminate].
    cbn [option_map answer_request] in Hread.
    destruct (serve false 1 0 0 fh3) as [out3 fh4].
    injection Hread as _ _ <- _.
    pose proof (pump_window_post _ _ _ _ _ _ _ _ Hpump) as (_ & Hc & _).
    congruence. }
  unfold op_return.
  intros E. injection E as <- <- <-.
  destruct (size =? CURLFTPFS_BAD_READ).
  - split; [now right |]. split; [reflexivity |].
    split; [unfold EACCES; lia | exact Hsetup].
  - split; [now left |]. split; [intros H; now contradiction H |].
    split; [| exact Hsetup].
    intros _. exists fh1. split; [reflexivity |]. split; [exact Hw1 |].
    specialize (Hlast eq_refl).
    unfold beside_window in Hbeside. cbn in Hbeside.
    injection Hbeside as _ Hs _ _ Hu _ Hc _ _ Hf _ Hp.
    now repeat split.
Qed.

Lemma ftpfs_open_common_read_only_witness :
  (0 = 0 \/ 0 = - EACCES)
  /\ (0 <> 0 -> Some (reading twenty 20 0 1) = None)
  /\ (0 = 0 ->
      exists fh,
        Some (reading twenty 20 0 1) = Some fh
        /\ holds_window twenty (buf fh)
        /\ can_shrink fh = 1
        /\ pos fh = 0
        /\ write_conn fh = false
        /\ write_fail_cause fh = 0
        /\ last_offset fh = 0
        /\ full_path fh = under_host "/f")
  /\ (current_fh idle <> 1 ->
      current_fh
        (mk_ftpfs 1 1 0
           [ curl_easy_setopt (CURLOPT_URL (under_host "/f"));
             curl_easy_setopt (CURLOPT_WRITEDATA (handle_buf 1));
             curl_multi_add_handle; curl_multi_perform;
             curl_easy_setopt (CURLOPT_RANGE None);
             curl_multi_info_read ]) = 1).
Proof.
  eapply (ftpfs_open_common_read_only under_host path_id path_id false
            "/f" 0 O_RDONLY 1 serving_twenty idle twenty).
  - reflexivity.
  - reflexivity.
  - vm_compute. discriminate.
  - intros _. vm_compute. split; [discriminate | reflexivity].
  - vm_compute. reflexivity.
Defined.

(** ** The shared connection between two requests *)

Lemma connection_run_app (cs cs' : list curl_call) (c : connection) :
  connection_run (cs ++ cs') c
  = match connection_run cs c with
    | Some c' => connection_run cs' c'
    | None => None
    end.
Proof.
  revert c. induction cs as [| x cs IH]; intros c; [reflexivity |].
  cbn. destruct (connection_step c x); [apply IH | reflexivity].
Qed.

(** A block of calls that takes the detached connection at rest back to
    it. *)
Lemma at_rest_block (extra : list curl_call) (g : ftpfs_t) :
  at_rest g -> attached_to_multi g = 0 ->
  connection_run extra (mk_connection false None 0 [] 0)
  = Some (mk_connection false None 0 [] 0) ->
  at_rest (fold_left (fun g c => call c g) extra g)
  /\ attached_to_multi (fold_left (fun g c => call c g) extra g) = 0.
Proof.
  intros Hrest Hatt Hrun.
  assert (Hcalls : forall l g0,
            calls (fold_left (fun g c => call c g) l g0) = calls g0 ++ l
            /\ attached_to_multi (fold_left (fun g c => call c g) l g0)
               = attached_to_multi g0).
  { induction l as [| x l IH]; intros g0; cbn [fold_left].
    - now rewrite app_nil_r.
    - destruct (IH (call x g0)) as [-> ->]. cbn [calls call attached_to_multi].
      now rewrite <- app_assoc. }
  destruct (Hcalls extra g) as [Hc Ha].
  unfold at_rest in *. rewrite Hc, Ha, connection_run_app, Hrest, Hatt.
  split; [exact Hrun | reflexivity].
Qed.

(** A call that changes nothing the connection remembers. *)
Lemma at_rest_call (x : curl_call) (g : ftpfs_t) :
  (forall c, connection_step c x = Some c) ->
  at_rest g -> at_rest (call x g).
Proof.
  intros Hx Hrest. unfold at_rest in *.
  cbn [calls call attached_to_multi].
  rewrite connection_run_app, Hrest. cbn [connection_run]. now rewrite Hx.
Qed.

Lemma cancel_previous_multi_at_rest (g : ftpfs_t) :
  at_rest g ->
  at_rest (cancel_previous_multi g)
  /\ attached_to_multi (cancel_previous_multi g) = 0.
Proof.
  intros Hrest. unfold cancel_previous_multi.
  destruct (attached_to_multi g =? 0) eqn:E.
  - split; [exact Hrest | now apply Z.eqb_eq].
  - split; [| reflexivity].
    unfold at_rest in *. cbn [calls call set_attached_to_multi attached_to_multi].
    rewrite connection_run_app, Hrest, E. reflexivity.
Qed.

Lemma ftpfs_getattr_at_rest gdp (path : string) (a : getattr_answer)
    (g : ftpfs_t) :
  at_rest g -> at_rest (snd (ftpfs_getattr gdp path a g)).
Proof.
  intros Hrest.
  destruct (cancel_previous_multi_at_rest g Hrest) as [Hr Ha].
  pose proof (at_rest_block
                [ curl_easy_setopt (CURLOPT_URL (gdp path));
                  curl_easy_setopt (CURLOPT_WRITEDATA local_buf);
                  curl_easy_perform ] _ Hr Ha eq_refl) as [H _].
  unfold ftpfs_getattr. now destruct (parsed_size a).
Qed.

Lemma create_empty_file_at_rest gfp (path : string) (res : CURLcode)
    (g : ftpfs_t) :
  at_rest g -> at_rest (snd (create_empty_file gfp path res g)).
Proof.
  intros Hrest.
  destruct (cancel_previous_multi_at_rest g Hrest) as [Hr Ha].
  exact (proj1 (at_rest_block
                  [ curl_easy_setopt (CURLOPT_URL (gfp path));
                    curl_easy_setopt (CURLOPT_INFILESIZE 0);
                    curl_easy_setopt (CURLOPT_UPLOAD 1);
                    curl_easy_setopt CURLOPT_READDATA_NULL;
                    curl_easy_perform;
                    curl_easy_setopt (CURLOPT_UPLOAD 0) ] _ Hr Ha eq_refl)).
Qed.

Lemma ftpfs_do_cmd_at_at_rest (header : list string) (url : string)
    (res : CURLcode) (g : ftpfs_t) :
  at_rest g -> at_rest (snd (ftpfs_do_cmd_at header url res g)).
Proof.
  intros Hrest.
  destruct (cancel_previous_multi_at_rest g Hrest) as [Hr Ha].
  exact (proj1 (at_rest_block
                  [ curl_easy_setopt (CURLOPT_POSTQUOTE header);
                    curl_easy_setopt (CURLOPT_URL url);
                    curl_easy_setopt (CURLOPT_WRITEDATA local_buf);
                    curl_easy_setopt
                      (CURLOPT_NOBODY (safe_nobody (cancel_previous_multi g)));
                    curl_easy_perform;
                    curl_easy_setopt (CURLOPT_POSTQUOTE []);
                    curl_easy_setopt (CURLOPT_NOBODY 0) ] _ Hr Ha eq_refl)).
Qed.

Lemma ftpfs_do_cmd_at_rest gdp (header : list string) (path : string)
    (res : CURLcode) (g : ftpfs_t) :
  at_rest g -> at_rest (snd (ftpfs_do_cmd gdp header path res g)).
Proof. apply (ftpfs_do_cmd_at_at_rest header (gdp path)). Qed.

Lemma wait_for_data_at_rest (script : list (Z * perform_answer)) :
  forall (size offset : Z) (g : ftpfs_t) (fh : ftpfs_file) (running_handles : Z)
         err running_handles' g' fh',
    at_rest g ->
    wait_for_data script size offset g fh running_handles
    = Some (err, running_handles', g', fh') ->
    at_rest g'.
Proof.
  induction script as [| [rc a] script IH];
    intros size offset g fh rh err rh' g' fh' Hrest; cbn [wait_for_data].
  - destruct (_ && _)%bool; [discriminate |].
    intros E. now injection E as _ _ <- _.
  - assert (H1 : at_rest (call select (call curl_multi_fdset g)))
      by (repeat apply at_rest_call; try exact Hrest; reflexivity).
    destruct (_ && _)%bool.
    + destruct (rc =? -1).
      * intros E. now injection E as _ _ <- _.
      * apply IH. apply at_rest_call; [reflexivity | exact H1].
    + intros E. now injection E as _ _ <- _.
Qed.

Lemma read_messages_at_rest (queue : list CURLMsg) (err : Z) (g : ftpfs_t) :
  at_rest g -> at_rest (snd (read_messages queue err g)).
Proof.
  revert err g. induction queue as [| m queue IH]; intros err g Hrest.
  - cbn. apply at_rest_call; [reflexivity | exact Hrest].
  - cbn [read_messages]. destruct queue as [| m' queue'].
    + cbn [snd]. apply at_rest_call; [reflexivity | exact Hrest].
    + apply IH. apply at_rest_call; [reflexivity | exact Hrest].
Qed.

Lemma pump_window_at_rest (size offset : Z) (a : read_answer)
    (g : ftpfs_t) (fh : ftpfs_file) err g1 fh1 :
  at_rest_but_range g ->
  pump_window size offset a g fh = Some (err, g1, fh1) ->
  at_rest g1.
Proof.
  intros [r Hrest]. unfold pump_window.
  assert (H1 : at_rest (call (curl_easy_setopt (CURLOPT_RANGE None))
                          (call curl_multi_perform g))).
  { unfold at_rest. cbn [calls call attached_to_multi].
    rewrite <- app_assoc, connection_run_app, Hrest. reflexivity. }
  destruct (wait_for_data _ _ _ _ _ _) as [[[[e rh] g'] fh'] |] eqn:Ew;
    [| discriminate].
  apply wait_for_data_at_rest in Ew; [| exact H1].
  destruct (rh =? 0).
  - pose proof (read_messages_at_rest (on_info_read a) e g' Ew) as Hm.
    destruct (read_messages (on_info_read a) e g') as [e' g''].
    intros E. now injection E as _ <- _.
  - intros E. now injection E as _ <- _.
Qed.

Lemma restart_transfer_at_rest (full_path : string) (offset fi : Z)
    (g : ftpfs_t) (fh : ftpfs_file) :
  at_rest g ->
  at_rest_but_range (fst (restart_transfer full_path offset fi g fh)).
Proof.
  intros Hrest.
  pose proof (restart_transfer_state full_path offset fi g fh)
    as (_ & _ & _ & _ & _ & _ & Hatt & Hcalls).
  unfold at_rest_but_range, at_rest in *.
  rewrite Hcalls, Hatt, connection_run_app, Hrest.
  destruct (attached_to_multi g =? 0); destruct (offset =? 0); cbn;
    eexists; reflexivity.
Qed.

Lemma fill_window_at_rest (full_path : string) (size offset fi : Z)
    (a : read_answer) (g : ftpfs_t) (fh : ftpfs_file) err g1 fh1 :
  at_rest g ->
  fill_window full_path size offset fi a g fh = Some (err, g1, fh1) ->
  at_rest g1.
Proof.
  intros Hrest. unfold fill_window, must_restart, check_running.
  destruct (cache_miss fh size offset);
    [| intros E; now injection E as _ <- _].
  assert (H1 : at_rest (call curl_multi_perform g))
    by (apply at_rest_call; [reflexivity | exact Hrest]).
  destruct (_ || _ || _)%bool.
  - pose proof (restart_transfer_at_rest full_path offset fi g fh Hrest) as Hr.
    destruct (restart_transfer full_path offset fi g fh) as [g2 fh2].
    apply pump_window_at_rest. exact Hr.
  - destruct (running (on_check_running a) =? 0).
    + pose proof (restart_transfer_at_rest full_path offset fi
                    (call curl_multi_perform g)
                    (deliver (on_check_running a) fh) H1) as Hr.
      destruct (restart_transfer _ _ _ _ _) as [g2 fh2].
      apply pump_window_at_rest. exact Hr.
    + apply pump_window_at_rest. now exists None.
Qed.

Lemma ftpfs_read_chunk_at_rest
    (full_path : string) (rbuf : bool) (size offset fi update_offset : Z)
    (a : read_answer) (g : ftpfs_t) (fh : ftpfs_file) ret out g' fh' :
  at_rest g ->
  ftpfs_read_chunk full_path rbuf size offset fi update_offset a g fh
  = Some (ret, out, g', fh') ->
  at_rest g'.
Proof.
  intros Hrest. unfold ftpfs_read_chunk.
  destruct (fill_window full_path size offset fi a g fh)
    as [[[err g1] fh1] |] eqn:Hfill; [| discriminate].
  apply fill_window_at_rest in Hfill; [| exact Hrest].
  cbn [option_map answer_request].
  destruct (serve rbuf size offset update_offset fh1).
  intros E. now injection E as _ _ <- _.
Qed.

Lemma ftpfs_chmod_at_rest gdp gfn (path : string) (mode : Z) (res : CURLcode)
    (g : ftpfs_t) :
  at_rest g -> at_rest (snd (ftpfs_chmod gdp gfn path mode res g)).
Proof.
  intros Hrest. unfold ftpfs_chmod.
  pose proof (ftpfs_do_cmd_at_rest gdp
                [site_chmod (to_int ((mode - mode / 4096 * 4096) mod 2 ^ 32))
                   (gfn path)] path res g Hrest) as H.
  now destruct (ftpfs_do_cmd _ _ _ _ _).
Qed.

Lemma ftpfs_mknod_at_rest gfp gdp gfn (path : string) (mode : Z)
    (create_res chmod_res : CURLcode) (g : ftpfs_t) :
  at_rest g ->
  at_rest (snd (ftpfs_mknod gfp gdp gfn path mode create_res chmod_res g)).
Proof.
  intros Hrest. unfold ftpfs_mknod.
  destruct (negb (Z.land mode S_IFMT =? S_IFREG)); [exact Hrest |].
  pose proof (create_empty_file_at_rest gfp path create_res g Hrest) as H.
  destruct (create_empty_file gfp path create_res g) as [err g1].
  cbn [snd] in *.
  destruct (err =? 0); [now apply ftpfs_chmod_at_rest | exact H].
Qed.

Lemma ftpfs_flush_at_rest gdp (path : string) (a : flush_answer)
    (g : ftpfs_t) (fh : ftpfs_file) :
  at_rest g -> at_rest (snd (fst (ftpfs_flush gdp path a g fh))).
Proof.
  intros Hrest. unfold ftpfs_flush.
  pose proof (ftpfs_getattr_at_rest gdp path (on_getattr a) g Hrest) as H.
  destruct (write_conn fh); [| now destruct (dirty fh =? 0)].
  destruct (finish_write_thread (on_finish a) fh) as [err fh1].
  destruct (negb (err =? 0)); [exact Hrest |].
  destruct (ftpfs_getattr gdp path (on_getattr a) g) as [[e [st |]] g1];
    cbn [snd fst] in *; [| exact H].
  destruct (negb (e =? 0)); [exact H |].
  now destruct (negb (st =? pos fh1)).
Qed.

Lemma ftpfs_write_at_rest gdp (path : string) (wbuf : list byte)
    (size offset : Z) (a : write_answer) (g : ftpfs_t) (fh : ftpfs_file) :
  at_rest g ->
  at_rest (snd (fst (ftpfs_write gdp path wbuf size offset a g fh))).
Proof.
  intros Hrest. unfold ftpfs_write.
  destruct (negb (write_fail_cause fh =? 0)) eqn:Hcause; [exact Hrest |].
  destruct (start_streaming gdp path offset a g fh) as [[res1 g1] fh1] eqn:E1.
  assert (Hg1 : at_rest g1).
  { unfold start_streaming, test_size in E1.
    pose proof (ftpfs_getattr_at_rest gdp path (on_test_size a) g Hrest) as H.
    destruct (_ && _ && _)%bool; [| now injection E1 as _ <- _].
    destruct (write_may_start fh =? 0).
    - destruct (ftpfs_getattr gdp path (on_test_size a) g)
        as [[e [st |]] g0]; cbn [snd] in H.
      + destruct (negb ((if e =? 0 then st else e) =? 0));
          [now injection E1 as _ <- _ |].
        destruct (start_write_thread (on_start a) fh) as [success fh0].
        destruct (success =? 0); now injection E1 as _ <- _.
      + destruct (negb (e =? 0));
          [now injection E1 as _ <- _ |].
        destruct (start_write_thread (on_start a) fh) as [success fh0].
        destruct (success =? 0); now injection E1 as _ <- _.
    - destruct (start_write_thread (on_start a) fh) as [success fh0].
      destruct (success =? 0); now injection E1 as _ <- _. }
  destruct res1 as [r1 |]; [exact Hg1 |].
  destruct (resume_streaming offset a g1 fh1) as [[res2 g2] fh2] eqn:E2.
  pose proof (resume_streaming_cases _ _ _ _ _ _ _ E2) as (_ & _ & -> & _).
  destruct res2 as [r2 |]; [exact Hg1 |].
  destruct (write_chunk wbuf size offset a g1 fh2) as [[r g3] fh3] eqn:E3.
  assert (write_fail_cause fh2 = 0).
  { pose proof (start_streaming_cases _ _ _ _ _ _ _ _ _ E1) as (_ & Hc1 & _).
    pose proof (resume_streaming_cases _ _ _ _ _ _ _ E2) as (_ & Hc2 & _).
    destruct (write_fail_cause fh =? 0) eqn:E; [| discriminate].
    apply Z.eqb_eq in E. congruence. }
  apply write_chunk_cases in E3; [| assumption].
  destruct E3 as [-> _]. exact Hg1.
Qed.

Lemma open_for_writing_at_rest gdp gfn (path : string) (mode flags : Z)
    (a : open_answer) (g : ftpfs_t) (fh : ftpfs_file) :
  at_rest g ->
  at_rest (snd (fst (open_for_writing gdp gfn path mode flags a g fh))).
Proof.
  intros Hrest. unfold open_for_writing, test_exists.
  pose proof (ftpfs_getattr_at_rest gdp path (on_exists a) g Hrest) as H.
  destruct (ftpfs_getattr gdp path (on_exists a) g) as [[e st] g0].
  cbn [snd] in H.
  set (first_err := if has flags O_APPEND then - ENOTSUP else 0).
  assert (Hg : forall err g1,
            at_rest g1 ->
            at_rest
              (snd (fst
                 (if err =? 0
                  then
                    if has flags O_CREAT || has flags O_TRUNC
                    then
                      let (success, fh0) :=
                        start_write_thread (on_open_start a)
                          (set_write_may_start 1 fh) in
                      if negb (success =? 0)
                      then
                        (err,
                         if has flags O_CREAT
                         then snd (ftpfs_chmod gdp gfn path mode
                                     (on_open_chmod a) g1)
                         else g1,
                         match on_open_ready a with
                         | Some curl_res => ftpfs_write_thread_exit curl_res fh0
                         | None => fh0
                         end)
                      else (- EIO, g1, fh0)
                    else (err, g1, set_write_may_start 0 fh)
                  else (err, g1, fh))))).
  { intros err g1 H1.
    destruct (err =? 0); [| exact H1].
    destruct (has flags O_CREAT || has flags O_TRUNC)%bool; [| exact H1].
    destruct (start_write_thread _ _) as [success fh0].
    destruct (negb (success =? 0)); [| exact H1].
    cbn [fst snd].
    destruct (has flags O_CREAT); [now apply ftpfs_chmod_at_rest | exact H1]. }
  destruct (has flags O_EXCL); apply Hg; assumption.
Qed.

Lemma ftpfs_open_common_at_rest gfp gdp gfn (workaround : bool)
    (path : string) (mode flags fi : Z) (a : open_answer) (g : ftpfs_t) r :
  at_rest g ->
  ftpfs_open_common gfp gdp gfn workaround path mode flags fi a g = Some r ->
  at_rest (snd (fst r)).
Proof.
  intros Hrest. unfold ftpfs_open_common.
  destruct (Z.land flags O_ACCMODE =? O_RDONLY).
  - destruct (has flags O_CREAT).
    + pose proof (ftpfs_mknod_at_rest gfp gdp gfn path
                    (Z.lor (Z.land mode 4095) S_IFREG)
                    (on_mknod_create a) (on_mknod_chmod a) g Hrest) as H.
      destruct (ftpfs_mknod _ _ _ _ _ _ _ _) as [err g1].
      intros E. injection E as <-. exact H.
    + destruct (ftpfs_read_chunk _ _ _ _ _ _ _ _ _)
        as [[[[size out] g1] fh1] |] eqn:Hread; [| discriminate].
      apply ftpfs_read_chunk_at_rest in Hread; [| exact Hrest].
      intros E. injection E as <-. exact Hread.
  - destruct (_ || _)%bool.
    + destruct (_ && _)%bool.
      * intros E. injection E as <-. exact Hrest.
      * pose proof (open_for_writing_at_rest gdp gfn path mode flags a g
                      (new_handle gfp path mode) Hrest) as H.
        destruct (open_for_writing _ _ _ _ _ _ _ _) as [[err g1] fh1].
        intros E. injection E as <-. exact H.
    + intros E. injection E as <-. exact Hrest.
Qed.

(** X15.  Every entry leaves the shared connection at rest.  If the calls
    made so far are calls the library accepts, [attached_to_multi] tells
    whether the handle is attached to the multi handle, and no range, upload
    flag, quote command or [NOBODY] is set, then the same holds after each of
    the operations, however it ends: no blocking transfer is started while
    the handle is attached, the handle is never attached twice or detached
    when it is not attached, and no operation leaves an option behind that
    would change the next request. *)
Theorem entries_leave_connection_at_rest
    (get_full_path get_dir_path get_fulldir_path get_file_name
       : string -> string)
    (host : string) (codepage : option string)
    (convert_charsets : string -> string) (workaround : bool)
    (g : ftpfs_t) :
  at_rest g ->
  (forall path res,
      at_rest (snd (ftpfs_getdir get_fulldir_path path res g)))
  /\ (forall path a, at_rest (snd (ftpfs_getattr get_dir_path path a g)))
  /\ (forall path found,
         at_rest (snd (ftpfs_readlink get_dir_path path found g)))
  /\ (forall path mode create_res chmod_res,
         at_rest (snd (ftpfs_mknod get_full_path get_dir_path get_file_name
                         path mode create_res chmod_res g)))
  /\ (forall path mode res,
         at_rest (snd (ftpfs_chmod get_dir_path get_file_name path mode res g)))
  /\ (forall path uid gid res,
         at_rest (snd (ftpfs_chown get_dir_path get_file_name
                         path uid gid res g)))
  /\ (forall path offset create_res a,
         at_rest (snd (ftpfs_truncate get_full_path get_dir_path
                         path offset create_res a g)))
  /\ (forall path offset create_res a fh,
         at_rest (snd (fst (ftpfs_ftruncate get_full_path get_dir_path
                              path offset create_res a g fh))))
  /\ (forall path res,
         at_rest (snd (ftpfs_rmdir get_dir_path get_file_name path res g)))
  /\ (forall path mode mkd_res chmod_res,
         at_rest (snd (ftpfs_mkdir get_dir_path get_file_name
                         path mode mkd_res chmod_res g)))
  /\ (forall path res,
         at_rest (snd (ftpfs_unlink get_dir_path get_file_name path res g)))
  /\ (forall from to res,
         at_rest (snd (ftpfs_rename host codepage convert_charsets
                         from to res g)))
  /\ (forall path rbuf size offset fi a fh r,
         ftpfs_read get_full_path path rbuf size offset fi a g fh = Some r ->
         at_rest (snd (fst r)))
  /\ (forall path wbuf size offset a fh,
         at_rest (snd (fst (ftpfs_write get_dir_path
                              path wbuf size offset a g fh))))
  /\ (forall path a fh,
         at_rest (snd (fst (ftpfs_flush get_dir_path path a g fh))))
  /\ (forall path fi a fh,
         at_rest (snd (fst (ftpfs_release get_dir_path path fi a g fh))))
  /\ (forall path mode flags fi a r,
         ftpfs_open_common get_full_path get_dir_path get_file_name workaround
           path mode flags fi a g = Some r ->
         at_rest (snd (fst r)))
  /\ (forall path flags fi a r,
         ftpfs_open get_full_path get_dir_path get_file_name workaround
           path flags fi a g = Some r ->
         at_rest (snd (fst r)))
  /\ (forall path mode flags fi a r,
         ftpfs_create get_full_path get_dir_path get_file_name workaround
           path mode flags fi a g = Some r ->
         at_rest (snd (fst r)))
  /\ (forall path a fh,
         at_rest (snd (fst (ftpfs_fsync get_dir_path path a g fh)))).
Proof.
  intros Hrest.
  destruct (cancel_previous_multi_at_rest g Hrest) as [Hr Ha].
  assert (Hcmd : forall header path res,
            at_rest (snd (let (err, g0) :=
                            ftpfs_do_cmd get_dir_path header path res g in
                          (err, g0)))).
  { intros header path res.
    pose proof (ftpfs_do_cmd_at_rest get_dir_path header path res g Hrest).
    now destruct (ftpfs_do_cmd _ _ _ _ _). }
  repeat apply conj.
  - intros path res.
    exact (proj1 (at_rest_block
                    [ curl_easy_setopt (CURLOPT_URL (get_fulldir_path path));
                      curl_easy_setopt (CURLOPT_WRITEDATA local_buf);
                      curl_easy_perform ] _ Hr Ha eq_refl)).
  - intros path a. now apply ftpfs_getattr_at_rest.
  - intros path found.
    exact (proj1 (at_rest_block
                    [ curl_easy_setopt (CURLOPT_URL (get_dir_path path));
                      curl_easy_setopt (CURLOPT_WRITEDATA local_buf);
                      curl_easy_perform ] _ Hr Ha eq_refl)).
  - intros. now apply ftpfs_mknod_at_rest.
  - intros. now apply ftpfs_chmod_at_rest.
  - intros path uid gid res. unfold ftpfs_chown.
    pose proof (ftpfs_do_cmd_at_rest get_dir_path
                  [ ("SITE CHUID " ++ percent_i uid ++ " "
                     ++ get_file_name path)%string;
                    ("SITE CHGID " ++ percent_i gid ++ " "
                     ++ get_file_name path)%string ] path res g Hrest) as H.
    now destruct (ftpfs_do_cmd _ _ _ _ _).
  - intros path offset create_res a. unfold ftpfs_truncate, test_size.
    destruct (offset =? 0).
    + pose proof (create_empty_file_at_rest get_full_path path create_res g
                    Hrest) as H.
      now destruct (create_empty_file _ _ _ _).
    + pose proof (ftpfs_getattr_at_rest get_dir_path path a g Hrest) as H.
      destruct (ftpfs_getattr get_dir_path path a g) as [[e [st |]] g0];
        cbn [snd] in H.
      * now destruct (offset =? (if e =? 0 then st else e)).
      * now destruct (offset =? e).
  - intros path offset create_res a fh. unfold ftpfs_ftruncate, test_size.
    destruct (offset =? 0).
    + destruct (pos fh =? 0); [| exact Hrest].
      pose proof (create_empty_file_at_rest get_full_path
                    (open_path (set_write_may_start 1 fh)) create_res g
                    Hrest) as H.
      now destruct (create_empty_file _ _ _ _).
    + pose proof (ftpfs_getattr_at_rest get_dir_path path a g Hrest) as H.
      destruct (ftpfs_getattr get_dir_path path a g) as [[e [st |]] g0];
        cbn [snd] in H.
      * now destruct (offset =? (if e =? 0 then st else e)).
      * now destruct (offset =? e).
  - intros path res. unfold ftpfs_rmdir.
    pose proof (ftpfs_do_cmd_at_rest get_dir_path
                  [("RMD " ++ get_file_name path)%string] path res g Hrest)
      as H.
    now destruct (ftpfs_do_cmd _ _ _ _ _).
  - intros path mode mkd_res chmod_res. unfold ftpfs_mkdir.
    pose proof (ftpfs_do_cmd_at_rest get_dir_path
                  [("MKD " ++ get_file_name path)%string] path mkd_res g Hrest)
      as H.
    destruct (ftpfs_do_cmd _ _ _ _ _) as [err g1]. cbn [snd] in *.
    destruct (err =? 0); [now apply ftpfs_chmod_at_rest | exact H].
  - intros path res. unfold ftpfs_unlink.
    pose proof (ftpfs_do_cmd_at_rest get_dir_path
                  [("DELE " ++ get_file_name path)%string] path res g Hrest)
      as H.
    now destruct (ftpfs_do_cmd _ _ _ _ _).
  - intros from to res. unfold ftpfs_rename.
    destruct codepage as [cp |].
    + pose proof (ftpfs_do_cmd_at_at_rest
                    [ convert_charsets ("RNFR " ++ after_first from)%string;
                      convert_charsets ("RNTO " ++ after_first to)%string ]
                    host res g Hrest) as H.
      now destruct (ftpfs_do_cmd_at _ _ _ _).
    + pose proof (ftpfs_do_cmd_at_at_rest
                    [ ("RNFR " ++ after_first from)%string;
                      ("RNTO " ++ after_first to)%string ]
                    host res g Hrest) as H.
      now destruct (ftpfs_do_cmd_at _ _ _ _).
  - intros path rbuf size offset fi a fh r. unfold ftpfs_read.
    destruct (_ || _)%bool; [intros E; injection E as <-; exact Hrest |].
    destruct (ftpfs_read_chunk _ _ _ _ _ _ _ _ _)
      as [[[[size_read out] g1] fh1] |] eqn:Hread; [| discriminate].
    apply ftpfs_read_chunk_at_rest in Hread; [| exact Hrest].
    intros E. injection E as <-. exact Hread.
  - intros. now apply ftpfs_write_at_rest.
  - intros. now apply ftpfs_flush_at_rest.
  - intros path fi a fh. unfold ftpfs_release.
    pose proof (ftpfs_flush_at_rest get_dir_path path a g fh Hrest) as H.
    destruct (ftpfs_flush get_dir_path path a g fh) as [[e g1] fh1].
    cbn [fst snd] in *. now destruct (current_fh g1 =? fi).
  - intros path mode flags fi a r. now apply ftpfs_open_common_at_rest.
  - intros path flags fi a r. now apply ftpfs_open_common_at_rest.
  - intros path mode flags fi a r. now apply ftpfs_open_common_at_rest.
  - intros. now apply ftpfs_flush_at_rest.
Qed.

Lemma entries_leave_connection_at_rest_witness :
  at_rest (snd (ftpfs_rename "ftp://host/" None path_id "/a" "/b" 0%N
                  downloading))
  /\ at_rest (snd (fst (ftpfs_release path_id "/f" 1
                          (mk_flush_answer 0%N no_listing) downloading
                          (reading second_ten 10 10 1)))).
Proof.
  assert (Hrest : at_rest downloading) by reflexivity.
  destruct (entries_leave_connection_at_rest path_id path_id path_id path_id
              "ftp://host/" None path_id false downloading Hrest)
    as (_ & _ & _ & _ & _ & _ & _ & _ & _ & _ & _ & Hrename & _ & _ & _
        & Hrelease & _).
  split; [apply Hrename | apply Hrelease].
Defined.

(** ** Creating files and directories *)

Lemma create_mode_bits (mode : Z) :
  0 <= mode ->
  let m := Z.lor (Z.land mode 4095) S_IFREG in
  Z.land m S_IFMT = S_IFREG
  /\ m mod 4096 = mode mod 4096
  /\ 0 <= m < 2 ^ 32.
Proof.
  intros Hmode m. subst m. unfold S_IFREG, S_IFMT.
  assert (Hlow : Z.land mode 4095 = mode mod 4096).
  { change 4095 with (Z.ones 12). now rewrite Z.land_ones by lia. }
  split; [| split].
  - rewrite Z.land_lor_distr_l, <- Z.land_assoc.
    change (Z.land 4095 61440) with 0. change (Z.land 32768 61440) with 32768.
    now rewrite Z.land_0_r.
  - change 4096 with (2 ^ 12) at 1. rewrite <- Z.land_ones by lia.
    change (Z.ones 12) with 4095.
    rewrite Z.land_lor_distr_l, <- Z.land_assoc.
    change (Z.land 4095 4095) with 4095. change (Z.land 32768 4095) with 0.
    now rewrite Z.lor_0_r.
  - pose proof (Z.add_lor_land (Z.land mode 4095) 32768) as Hadd.
    assert (0 <= Z.land (Z.land mode 4095) 32768)
      by (apply Z.land_nonneg; right; lia).
    assert (0 <= Z.lor (Z.land mode 4095) 32768)
      by (apply Z.lor_nonneg; split; [rewrite Hlow |]; try lia;
          apply Z.mod_pos_bound; lia).
    pose proof (Z.mod_pos_bound mode 4096 ltac:(lia)). lia.
Qed.

Lemma ftpfs_chmod_calls gdp gfn (path : string) (mode : Z) (res : CURLcode)
    (g : ftpfs_t) :
  0 <= mode < 2 ^ 32 ->
  attached_to_multi g = 0 ->
  calls (snd (ftpfs_chmod gdp gfn path mode res g))
  = calls g ++
    [ curl_easy_setopt (CURLOPT_POSTQUOTE [site_chmod (mode mod 4096) (gfn path)]);
      curl_easy_setopt (CURLOPT_URL (gdp path));
      curl_easy_setopt (CURLOPT_WRITEDATA local_buf);
      curl_easy_setopt (CURLOPT_NOBODY (safe_nobody g));
      curl_easy_perform;
      curl_easy_setopt (CURLOPT_POSTQUOTE []);
      curl_easy_setopt (CURLOPT_NOBODY 0) ].
Proof.
  intros Hmode Hd. unfold ftpfs_chmod, ftpfs_do_cmd.
  rewrite (cancel_previous_multi_again g Hd), chmod_mode_bits by exact Hmode.
  cbn [snd]. rewrite !calls_call. cbn [safe_nobody call].
  now rewrite <- !app_assoc.
Qed.

Lemma ftpfs_mknod_calls gfp gdp gfn (path : string) (mode : Z)
    (create_res chmod_res : CURLcode) (g : ftpfs_t) :
  0 <= mode < 2 ^ 32 ->
  Z.land mode S_IFMT = S_IFREG ->
  fst (ftpfs_mknod gfp gdp gfn path mode create_res chmod_res g)
  = (if (create_res =? CURLE_OK)%N then 0 else - EPERM)
  /\ calls (snd (ftpfs_mknod gfp gdp gfn path mode create_res chmod_res g))
     = calls (cancel_previous_multi g) ++
       [ curl_easy_setopt (CURLOPT_URL (gfp path));
         curl_easy_setopt (CURLOPT_INFILESIZE 0);
         curl_easy_setopt (CURLOPT_UPLOAD 1);
         curl_easy_setopt CURLOPT_READDATA_NULL;
         curl_easy_perform;
         curl_easy_setopt (CURLOPT_UPLOAD 0) ] ++
       (if (create_res =? CURLE_OK)%N
        then [ curl_easy_setopt
                 (CURLOPT_POSTQUOTE [site_chmod (mode mod 4096) (gfn path)]);
               curl_easy_setopt (CURLOPT_URL (gdp path));
               curl_easy_setopt (CURLOPT_WRITEDATA local_buf);
               curl_easy_setopt (CURLOPT_NOBODY (safe_nobody g));
               curl_easy_perform;
               curl_easy_setopt (CURLOPT_POSTQUOTE []);
               curl_easy_setopt (CURLOPT_NOBODY 0) ]
        else []).
Proof.
  intros Hmode Hreg. unfold ftpfs_mknod.
  rewrite Hreg, Z.eqb_refl. cbn [negb].
  pose proof (create_empty_file_calls gfp path create_res g) as Hc.
  pose proof (create_empty_file_detached gfp path create_res g) as Hd.
  pose proof (create_empty_file_ret gfp path create_res g) as Hr.
  pose proof (create_empty_file_safe_nobody gfp path create_res g) as Hs.
  destruct (create_empty_file gfp path create_res g) as [err g1].
  cbn [fst snd] in *. unfold op_return. subst err. split; [reflexivity |].
  destruct (create_res =? CURLE_OK)%N; cbn [Z.eqb Z.opp EPERM].
  - rewrite ftpfs_chmod_calls by assumption.
    now rewrite Hc, Hs, <- !app_assoc.
  - now rewrite Hc.
Qed.

(** X16.  A read-only open with [O_CREAT] creates the file through
    [ftpfs_mknod] with the permission bits of the mode and the type of a
    regular file, so the type test of [ftpfs_mknod] never refuses it: the
    empty file is uploaded, and when that succeeded one [SITE CHMOD] with the
    low twelve bits of the mode follows: the text [SITE CHMOD], the bits in
    octal with at least three digits, a space and the file name.  The open
    returns 0 or [-EPERM] by
    the upload alone; the first byte is not asked for, and the handle that is
    kept is the new one. *)
Theorem ftpfs_open_common_creating_read_only
    (get_full_path get_dir_path get_file_name : string -> string)
    (workaround : bool) (path : string) (mode flags fi : Z)
    (a : open_answer) (g : ftpfs_t) :
  Z.land flags O_ACCMODE = O_RDONLY ->
  has flags O_CREAT = true ->
  0 <= mode ->
  exists g',
    ftpfs_open_common get_full_path get_dir_path get_file_name workaround
      path mode flags fi a g
    = Some (if (on_mknod_create a =? CURLE_OK)%N then 0 else - EPERM, g',
            if (on_mknod_create a =? CURLE_OK)%N
            then Some (new_handle get_full_path path mode) else None)
    /\ calls g'
       = calls (cancel_previous_multi g) ++
         [ curl_easy_setopt (CURLOPT_URL (get_full_path path));
           curl_easy_setopt (CURLOPT_INFILESIZE 0);
           curl_easy_setopt (CURLOPT_UPLOAD 1);
           curl_easy_setopt CURLOPT_READDATA_NULL;
           curl_easy_perform;
           curl_easy_setopt (CURLOPT_UPLOAD 0) ] ++
         (if (on_mknod_create a =? CURLE_OK)%N
          then [ curl_easy_setopt
                   (CURLOPT_POSTQUOTE
                      [site_chmod (mode mod 4096) (get_file_name path)]);
                 curl_easy_setopt (CURLOPT_URL (get_dir_path path));
                 curl_easy_setopt (CURLOPT_WRITEDATA local_buf);
                 curl_easy_setopt (CURLOPT_NOBODY (safe_nobody g));
                 curl_easy_perform;
                 curl_easy_setopt (CURLOPT_POSTQUOTE []);
                 curl_easy_setopt (CURLOPT_NOBODY 0) ]
          else [])
    /\ chmod_command (site_chmod (mode mod 4096) (get_file_name path))
         (mode mod 4096) (get_file_name path).
Proof.
  intros Hacc Hcreat Hmode.
  destruct (create_mode_bits mode Hmode) as (Hreg & Hlow & Hrange).
  unfold ftpfs_open_common. rewrite Hacc, Hcreat. cbn [Z.eqb O_RDONLY].
  destruct (ftpfs_mknod_calls get_full_path get_dir_path get_file_name path
              (Z.lor (Z.land mode 4095) S_IFREG)
              (on_mknod_create a) (on_mknod_chmod a) g Hrange Hreg)
    as [Hret Hcalls].
  destruct (ftpfs_mknod _ _ _ _ _ _ _ _) as [err g1].
  cbn [fst snd] in *. rewrite Hlow in Hcalls.
  exists g1. split; [| split; [exact Hcalls |]].
  - unfold op_return. subst err.
    now destruct (on_mknod_create a =? CURLE_OK)%N.
  - apply site_chmod_command. apply Z.mod_pos_bound. lia.
Qed.

Lemma ftpfs_open_common_creating_read_only_witness :
  exists g',
    ftpfs_open_common under_host path_id path_id false
      "/f" 420 (Z.lor O_RDONLY O_CREAT) 1 everything_works idle
    = Some (if (on_mknod_create everything_works =? CURLE_OK)%N
            then 0 else - EPERM, g',
            if (on_mknod_create everything_works =? CURLE_OK)%N
            then Some (new_handle under_host "/f" 420) else None)
    /\ calls g'
       = calls (cancel_previous_multi idle) ++
         [ curl_easy_setopt (CURLOPT_URL (under_host "/f"));
           curl_easy_setopt (CURLOPT_INFILESIZE 0);
           curl_easy_setopt (CURLOPT_UPLOAD 1);
           curl_easy_setopt CURLOPT_READDATA_NULL;
           curl_easy_perform;
           curl_easy_setopt (CURLOPT_UPLOAD 0) ] ++
         (if (on_mknod_create everything_works =? CURLE_OK)%N
          then [ curl_easy_setopt
                   (CURLOPT_POSTQUOTE [site_chmod (420 mod 4096) (path_id "/f")]);
                 curl_easy_setopt (CURLOPT_URL (path_id "/f"));
                 curl_easy_setopt (CURLOPT_WRITEDATA local_buf);
                 curl_easy_setopt (CURLOPT_NOBODY (safe_nobody idle));
                 curl_easy_perform;
                 curl_easy_setopt (CURLOPT_POSTQUOTE []);
                 curl_easy_setopt (CURLOPT_NOBODY 0) ]
          else [])
    /\ chmod_command (site_chmod (420 mod 4096) (path_id "/f"))
         (420 mod 4096) (path_id "/f").
Proof.
  apply ftpfs_open_common_creating_read_only.
  - reflexivity.
  - reflexivity.
  - lia.
Defined.

(** X17.  [ftpfs_mkdir] sends [MKD] with the file name on the URL of the
    directory and returns 0 or [-EPERM] by that request alone.  Only when the
    directory has been made, one [SITE CHMOD] with the low twelve bits of the
    mode follows (the text [SITE CHMOD], the bits in octal with at least
    three digits, a space and the file name), and what it returns is dropped;
    after a failed [MKD] nothing more is sent. *)
Theorem ftpfs_mkdir_then_chmod
    (get_dir_path get_file_name : string -> string)
    (path : string) (mode : Z) (mkd_res chmod_res : CURLcode) (g : ftpfs_t) :
  0 <= mode < 2 ^ 32 ->
  fst (ftpfs_mkdir get_dir_path get_file_name path mode mkd_res chmod_res g)
  = (if (mkd_res =? CURLE_OK)%N then 0 else - EPERM)
  /\ calls (snd (ftpfs_mkdir get_dir_path get_file_name
                   path mode mkd_res chmod_res g))
     = calls (cancel_previous_multi g) ++
       [ curl_easy_setopt
           (CURLOPT_POSTQUOTE [("MKD " ++ get_file_name path)%string]);
         curl_easy_setopt (CURLOPT_URL (get_dir_path path));
         curl_easy_setopt (CURLOPT_WRITEDATA local_buf);
         curl_easy_setopt (CURLOPT_NOBODY (safe_nobody g));
         curl_easy_perform;
         curl_easy_setopt (CURLOPT_POSTQUOTE []);
         curl_easy_setopt (CURLOPT_NOBODY 0) ] ++
       (if (mkd_res =? CURLE_OK)%N
        then [ curl_easy_setopt
                 (CURLOPT_POSTQUOTE
                    [site_chmod (mode mod 4096) (get_file_name path)]);
               curl_easy_setopt (CURLOPT_URL (get_dir_path path));
               curl_easy_setopt (CURLOPT_WRITEDATA local_buf);
               curl_easy_setopt (CURLOPT_NOBODY (safe_nobody g));
               curl_easy_perform;
               curl_easy_setopt (CURLOPT_POSTQUOTE []);
               curl_easy_setopt (CURLOPT_NOBODY 0) ]
        else [])
  /\ chmod_command (site_chmod (mode mod 4096) (get_file_name path))
       (mode mod 4096) (get_file_name path).
Proof.
  intros Hmode. rewrite <- and_assoc.
  split; [| apply site_chmod_command; apply Z.mod_pos_bound; lia].
  unfold ftpfs_mkdir.
  set (cmd := ("MKD " ++ get_file_name path)%string).
  assert (Hcmd : ftpfs_do_cmd get_dir_path [cmd] path mkd_res g
                 = (if (mkd_res =? 0)%N then 0 else - EPERM,
                    fold_left (fun g c => call c g)
                      [ curl_easy_setopt (CURLOPT_POSTQUOTE [cmd]);
                        curl_easy_setopt (CURLOPT_URL (get_dir_path path));
                        curl_easy_setopt (CURLOPT_WRITEDATA local_buf);
                        curl_easy_setopt
                          (CURLOPT_NOBODY
                             (safe_nobody (cancel_previous_multi g)));
                        curl_easy_perform;
                        curl_easy_setopt (CURLOPT_POSTQUOTE []);
                        curl_easy_setopt (CURLOPT_NOBODY 0) ]
                      (cancel_previous_multi g)))
    by reflexivity.
  rewrite Hcmd. clear Hcmd.
  set (g1 := fold_left _ _ _).
  assert (Hcalls : calls g1
                   = calls (cancel_previous_multi g) ++
                     [ curl_easy_setopt (CURLOPT_POSTQUOTE [cmd]);
                       curl_easy_setopt (CURLOPT_URL (get_dir_path path));
                       curl_easy_setopt (CURLOPT_WRITEDATA local_buf);
                       curl_easy_setopt (CURLOPT_NOBODY (safe_nobody g));
                       curl_easy_perform;
                       curl_easy_setopt (CURLOPT_POSTQUOTE []);
                       curl_easy_setopt (CURLOPT_NOBODY 0) ]).
  { subst g1. cbn [fold_left]. rewrite !calls_call.
    rewrite cancel_previous_multi_safe_nobody. now rewrite <- !app_assoc. }
  assert (Hd : attached_to_multi g1 = 0)
    by (subst g1; cbn; apply cancel_previous_multi_detached).
  assert (Hs : safe_nobody g1 = safe_nobody g)
    by (subst g1; cbn; apply cancel_previous_multi_safe_nobody).
  clearbody g1. unfold op_return. split; [reflexivity |].
  change (0%N) with CURLE_OK.
  destruct (mkd_res =? CURLE_OK)%N; cbn [Z.eqb Z.opp EPERM snd].
  - rewrite ftpfs_chmod_calls by assumption.
    now rewrite Hcalls, Hs, <- !app_assoc.
  - now rewrite Hcalls, app_nil_r.
Qed.

Lemma ftpfs_mkdir_then_chmod_witness :
  fst (ftpfs_mkdir path_id path_id "/d" 493 7%N 0%N idle)
  = (if (7 =? CURLE_OK)%N then 0 else - EPERM)
  /\ calls (snd (ftpfs_mkdir path_id path_id "/d" 493 7%N 0%N idle))
     = calls (cancel_previous_multi idle) ++
       [ curl_easy_setopt
           (CURLOPT_POSTQUOTE [("MKD " ++ path_id "/d")%string]);
         curl_easy_setopt (CURLOPT_URL (path_id "/d"));
         curl_easy_setopt (CURLOPT_WRITEDATA local_buf);
         curl_easy_setopt (CURLOPT_NOBODY (safe_nobody idle));
         curl_easy_perform;
         curl_easy_setopt (CURLOPT_POSTQUOTE []);
         curl_easy_setopt (CURLOPT_NOBODY 0) ] ++
       (if (7 =? CURLE_OK)%N
        then [ curl_easy_setopt
                 (CURLOPT_POSTQUOTE [site_chmod (493 mod 4096) (path_id "/d")]);
               curl_easy_setopt (CURLOPT_URL (path_id "/d"));
               curl_easy_setopt (CURLOPT_WRITEDATA local_buf);
               curl_easy_setopt (CURLOPT_NOBODY (safe_nobody idle));
               curl_easy_perform;
               curl_easy_setopt (CURLOPT_POSTQUOTE []);
               curl_easy_setopt (CURLOPT_NOBODY 0) ]
        else [])
  /\ chmod_command (site_chmod (493 mod 4096) (path_id "/d"))
       (493 mod 4096) (path_id "/d").
Proof.
  apply ftpfs_mkdir_then_chmod. lia.
Defined.

(** ** Reading through the entry point *)

(** X18.  [ftpfs_read] on a handle that has written nothing hands out the
    bytes of the remote file.  If the window holds bytes of the remote file
    at their offsets and the server sends the file's bytes, the call returns
    [-EIO] or the number [ret <= size] of bytes read, the bytes are those at
    [offset, offset + ret) of the remote file, [last_offset] is
    [offset + ret], and the window again holds bytes of the remote file at
    their offsets. *)
Theorem ftpfs_read_remote_bytes
    (get_full_path : string -> string) (path : string)
    (size offset fi : Z) (a : read_answer) (g : ftpfs_t) (fh : ftpfs_file)
    (remote : list byte) ret out g' fh' :
  pos fh <= 0 ->
  write_conn fh = false ->
  size <= INT_MAX ->
  read_in_range size offset a fh ->
  offset + size <= OFF_MAX ->
  holds_window remote (buf fh) ->
  faithful remote size offset fi a g fh ->
  ftpfs_read get_full_path path true size offset fi a g fh
  = Some (ret, out, g', fh') ->
  holds_window remote (buf fh')
  /\ (ret = - EIO
      \/ (0 <= ret <= size
          /\ offset + ret <= Z.of_nat (List.length remote)
          /\ out = Some (bytes_at remote offset ret)
          /\ last_offset fh' = offset + ret)).
Proof.
  intros Hpos Hconn Hint Hrange Hspan Hw Hfaith. unfold ftpfs_read.
  replace (pos fh >? 0) with false
    by (symmetry; rewrite Z.gtb_ltb; apply Z.ltb_ge; lia).
  rewrite Hconn. cbn [orb].
  destruct (ftpfs_read_chunk _ _ _ _ _ _ _ _ _)
    as [[[[size_read out1] g1] fh1] |] eqn:Hread; [| discriminate].
  destruct (ftpfs_read_chunk_bytes _ _ _ _ _ _ _ _ _ _ _ _ _
              Hrange Hspan Hw Hfaith Hread) as [Hwin Hok].
  intros E. injection E as <- <- <- <-.
  split; [exact Hwin |].
  destruct (size_read =? CURLFTPFS_BAD_READ) eqn:Ebad; tests; [now left |].
  right. destruct (Hok Ebad) as (H1 & H2 & H3 & H4).
  unfold INT_MAX in *. rewrite to_int_small by (unfold INT_MAX; lia).
  split; [exact H1 |]. split; [exact H2 |]. split; [exact H3 |].
  apply H4. discriminate.
Qed.

Lemma ftpfs_read_remote_bytes_witness :
  holds_window twenty_two (buf (reading (second_ten ++ [x14; x15]) 12 10 0))
  /\ (4 = - EIO
      \/ (0 <= 4 <= 4
          /\ 18 + 4 <= Z.of_nat (List.length twenty_two)
          /\ Some [x12; x13; x14; x15] = Some (bytes_at twenty_two 18 4)
          /\ last_offset
               (set_last_offset 22 (reading (second_ten ++ [x14; x15]) 12 10 0))
             = 18 + 4)).
Proof.
  apply (ftpfs_read_remote_bytes under_host "/f" 4 18 1 streaming
           (owned_by 1) (reading second_ten 10 10 0) twenty_two
           4 (Some [x12; x13; x14; x15])
           (mk_ftpfs 1 1 0 [curl_multi_perform; curl_multi_perform;
                            curl_easy_setopt (CURLOPT_RANGE None)])
           (set_last_offset 22 (reading (second_ten ++ [x14; x15]) 12 10 0))).
  - cbn. lia.
  - reflexivity.
  - unfold INT_MAX. lia.
  - unfold read_in_range, holds_content. cbn. lia.
  - unfold OFF_MAX. lia.
  - unfold holds_window. cbn. repeat split; lia.
  - intros _. vm_compute. split; [discriminate | reflexivity].
  - vm_compute. reflexivity.
Defined.

(** X19.  A read returns once the transfer is over or [select] fails: if the
    first drive of the pump leaves no running handle, or some round of the
    loop has [select] fail or leaves no running handle, [ftpfs_read] ends
    with a result, on every handle and for every request. *)
Theorem ftpfs_read_returns
    (get_full_path : string -> string) (path : string) (rbuf : bool)
    (size offset fi : Z) (a : read_answer) (g : ftpfs_t) (fh : ftpfs_file) :
  running (on_perform a) = 0
  \/ Exists (fun x => fst x = -1 \/ running (snd x) = 0) (on_select a) ->
  exists ret out g' fh',
    ftpfs_read get_full_path path rbuf size offset fi a g fh
    = Some (ret, out, g', fh').
Proof.
  intros Hend. unfold ftpfs_read.
  destruct (_ || _)%bool; [now eexists _, _, _, _ |].
  pose proof (ftpfs_read_chunk_returns (get_full_path path) rbuf size offset
                fi 1 a g fh Hend) as Hret.
  destruct (ftpfs_read_chunk _ _ _ _ _ _ _ _ _)
    as [[[[size_read out] g1] fh1] |]; [| now contradiction Hret].
  now eexists _, _, _, _.
Qed.

Lemma ftpfs_read_returns_witness :
  exists ret out g' fh',
    ftpfs_read under_host "/f" true 4 0 1
      (mk_read_answer no_pump (mk_perform [] 1)
         [(0, mk_perform [] 1); (-1, no_pump)] [])
      idle (reading [] 0 0 0)
    = Some (ret, out, g', fh').
Proof.
  apply ftpfs_read_returns.
  right. apply Exists_cons_tl, Exists_cons_hd. left. reflexivity.
Defined.

(** ** Reading on *)

Lemma shrink_next_offset (n offset : Z) (fh : ftpfs_file) :
  0 <= begin_offset (buf fh) <= offset ->
  0 <= n <= begin_offset (buf fh) + len (buf fh) - offset ->
  begin_offset (buf fh) + len (buf fh) <= OFF_MAX ->
  let fh' := shrink n offset fh in
  0 <= begin_offset (buf fh') <= offset + n
  /\ offset + n <= begin_offset (buf fh') + len (buf fh')
  /\ begin_offset (buf fh') + len (buf fh')
     = begin_offset (buf fh) + len (buf fh).
Proof.
  intros Hb Hn Hmax. unfold shrink.
  destruct (_ && _)%bool; [| cbv zeta; lia].
  rewrite to_copy_in_window by lia.
  assert (Ebuf : forall b, buf (set_buf b fh) = b) by (now destruct fh).
  cbv zeta. rewrite Ebuf. unfold OFF_MAX in *.
  rewrite to_size_t_small by lia.
  rewrite to_off_t_small by (unfold OFF_MAX; lia).
  cbn [len begin_offset]. lia.
Qed.

(** X20.  Reading on never restarts a running download.  After a read that
    succeeded with [ret] bytes, the next offset [offset + ret] lies inside the
    window (also after the window has been shrunk), so a request there by the
    handle that owns the download is answered from the window, or, when it
    needs more bytes and handles are still running, by driving the pump on
    the state as it is: the transfer is not set up again. *)
Theorem ftpfs_read_chunk_reading_on
    (full_path : string) (rbuf : bool) (size offset fi update_offset : Z)
    (a : read_answer) (g : ftpfs_t) (fh : ftpfs_file) ret out g1 fh1
    (rbuf2 : bool) (size2 update_offset2 : Z) (a2 : read_answer) :
  read_in_range size offset a fh ->
  offset + size <= OFF_MAX ->
  ftpfs_read_chunk full_path rbuf size offset fi update_offset a g fh
  = Some (ret, out, g1, fh1) ->
  ret <> CURLFTPFS_BAD_READ ->
  current_fh g1 = fi ->
  0 <= size2 < 2 ^ 64 ->
  offset + ret + size2 <= OFF_MAX ->
  running (on_check_running a2) <> 0 ->
  begin_offset (buf fh1) <= offset + ret
                         <= begin_offset (buf fh1) + len (buf fh1)
  /\ ftpfs_read_chunk full_path rbuf2 size2 (offset + ret) fi update_offset2
       a2 g1 fh1
     = if cache_miss fh1 size2 (offset + ret)
       then option_map
              (answer_request rbuf2 size2 (offset + ret) update_offset2)
              (pump_window size2 (offset + ret) a2
                 (call curl_multi_perform g1)
                 (deliver (on_check_running a2) fh1))
       else Some (answer_request rbuf2 size2 (offset + ret) update_offset2
                    (0, g1, fh1)).
Proof.
  intros Hrange Hspan Hread Hok Hown Hsize2 Hspan2 Hrun.
  unfold ftpfs_read_chunk in Hread.
  destruct (fill_window full_path size offset fi a g fh)
    as [[[err g0] fh0] |] eqn:Hfill; [| discriminate].
  pose proof (fill_window_in_window _ _ _ _ _ _ _ _ _ _ Hrange Hfill)
    as (Hb & Hl & _).
  pose proof (served_in_window fh0 size offset Hb Hl) as Hserved.
  destruct Hrange as (Hsize & _).
  cbn [option_map answer_request] in Hread. unfold serve in Hread.
  injection Hread as Hret _ _ Hfh.
  rewrite Hserved in *.
  set (n := Z.min size (begin_offset (buf fh0) + len (buf fh0) - offset)) in *.
  assert (ret = n) as ->.
  { destruct (err =? 0); [now subst ret | congruence]. }
  set (fh0' := if update_offset =? 0 then fh0
               else set_last_offset (to_off_t (offset + n)) fh0) in *.
  assert (Hbuf : buf fh0' = buf fh0)
    by (subst fh0'; now destruct (update_offset =? 0); destruct fh0).
  pose proof (shrink_next_offset n offset fh0') as Hnext.
  rewrite Hbuf in Hnext.
  specialize (Hnext Hb ltac:(subst n; lia) ltac:(lia)).
  cbv zeta in Hnext. rewrite Hfh in Hnext.
  destruct Hnext as (Hb1 & Hl1 & Hsum).
  split; [lia |].
  unfold ftpfs_read_chunk, fill_window.
  destruct (cache_miss fh1 size2 (offset + n)); [| reflexivity].
  assert (Hcheck : must_restart fi (offset + n) (on_check_running a2) g1 fh1
                   = (false, call curl_multi_perform g1,
                      deliver (on_check_running a2) fh1)).
  { unfold must_restart, past_window, check_running, OFF_MAX in *.
    rewrite !to_size_t_small by (subst n; lia).
    replace (current_fh g1 =? fi) with true
      by (symmetry; apply Z.eqb_eq; exact Hown).
    replace (offset + n <? begin_offset (buf fh1)) with false
      by (symmetry; apply Z.ltb_ge; lia).
    replace (begin_offset (buf fh1) + len (buf fh1) <? offset + n) with false
      by (symmetry; apply Z.ltb_ge; lia).
    apply Z.eqb_neq in Hrun. now rewrite Hrun. }
  now rewrite Hcheck.
Qed.

Lemma ftpfs_read_chunk_reading_on_witness :
  begin_offset (buf (reading (second_ten ++ [x14; x15]) 12 10 0)) <= 18 + 4
    <= begin_offset (buf (reading (second_ten ++ [x14; x15]) 12 10 0))
       + len (buf (reading (second_ten ++ [x14; x15]) 12 10 0))
  /\ ftpfs_read_chunk "ftp://host/f" true 2 (18 + 4) 1 0 streaming
       (mk_ftpfs 1 1 0 [curl_multi_perform; curl_multi_perform;
                        curl_easy_setopt (CURLOPT_RANGE None)])
       (reading (second_ten ++ [x14; x15]) 12 10 0)
     = if cache_miss (reading (second_ten ++ [x14; x15]) 12 10 0) 2 (18 + 4)
       then option_map (answer_request true 2 (18 + 4) 0)
              (pump_window 2 (18 + 4) streaming
                 (call curl_multi_perform
                    (mk_ftpfs 1 1 0
                       [curl_multi_perform; curl_multi_perform;
                        curl_easy_setopt (CURLOPT_RANGE None)]))
                 (deliver (on_check_running streaming)
                    (reading (second_ten ++ [x14; x15]) 12 10 0)))
       else Some (answer_request true 2 (18 + 4) 0
                    (0,
                     mk_ftpfs 1 1 0
                       [curl_multi_perform; curl_multi_perform;
                        curl_easy_setopt (CURLOPT_RANGE None)],
                     reading (second_ten ++ [x14; x15]) 12 10 0)).
Proof.
  apply (ftpfs_read_chunk_reading_on "ftp://host/f" true 4 18 1 0 streaming
           (owned_by 1) (reading second_ten 10 10 0)
           4 (Some [x12; x13; x14; x15])
           (mk_ftpfs 1 1 0 [curl_multi_perform; curl_multi_perform;
                            curl_easy_setopt (CURLOPT_RANGE None)])
           (reading (second_ten ++ [x14; x15]) 12 10 0)
           true 2 0 streaming).
  - unfold read_in_range, holds_content. cbn. lia.
  - unfold OFF_MAX. lia.
  - vm_compute. reflexivity.
  - vm_compute. discriminate.
  - reflexivity.
  - lia.
  - unfold OFF_MAX. lia.
  - cbn. lia.
Defined.

(** ** A flush that fails *)

(** X21.  A flush of a running upload returns 0, [-EIO] or [-ENOENT].  After
    [-EIO] (the upload has failed, or the listing reports a size other than
    [pos]) the handle is poisoned: every later write returns [-EIO] and
    changes nothing.  After [-ENOENT] (the listing does not hold the file) it
    is not: the failure cause is clear if the upload ended well. *)
Theorem ftpfs_flush_failure_and_writes
    (get_dir_path : string -> string) (path : string)
    (a : flush_answer) (g : ftpfs_t) (fh : ftpfs_file) r g1 fh1 :
  write_conn fh = true ->
  ftpfs_flush get_dir_path path a g fh = (r, g1, fh1) ->
  (r = 0 \/ r = - EIO \/ r = - ENOENT)
  /\ (r = - EIO ->
      forall wbuf size offset wa,
        ftpfs_write get_dir_path path wbuf size offset wa g1 fh1
        = (- EIO, g1, fh1))
  /\ (r <> - EIO -> write_fail_cause fh1 = 0).
Proof.
  intros Hconn. unfold ftpfs_flush. rewrite Hconn.
  pose proof (finish_write_thread_state (on_finish a) fh)
    as (_ & _ & _ & _ & Hret).
  destruct (finish_write_thread (on_finish a) fh) as [err fh0].
  cbn [fst snd] in Hret.
  assert (Hblock : forall fh2,
            write_fail_cause fh2 <> 0 ->
            forall wbuf size offset wa,
              ftpfs_write get_dir_path path wbuf size offset wa g1 fh2
              = (- EIO, g1, fh2)).
  { intros fh2 Hc wbuf size offset wa. unfold ftpfs_write.
    apply Z.eqb_neq in Hc. now rewrite Hc. }
  unfold op_return.
  destruct (write_fail_cause fh0 =? 0) eqn:Ecause; tests; subst err.
  - cbn [Z.eqb negb].
    assert (Hget : forall e st g0,
              ftpfs_getattr get_dir_path path (on_getattr a) g = (e, st, g0) ->
              (e = 0 /\ st <> None) \/ (e = - ENOENT /\ st = None)).
    { intros e st g0. unfold ftpfs_getattr.
      destruct (parsed_size (on_getattr a)); intros E; injection E as <- <- _;
        [left | right]; now split. }
    destruct (ftpfs_getattr get_dir_path path (on_getattr a) g)
      as [[e [st |]] g0] eqn:Eg;
      destruct (Hget _ _ _ eq_refl) as [[-> Hst] | [-> Hst]];
      try discriminate; try (now contradiction Hst).
    + cbn [Z.eqb negb].
      destruct (negb (st =? pos fh0)); intros E; injection E as <- <- <-.
      * split; [right; now left |]. split.
        -- intros _. apply Hblock. now destruct fh0.
        -- intros H. now contradiction H.
      * split; [now left |]. split; [discriminate | intros _; exact Ecause].
    + intros E. injection E as <- <- <-.
      split; [right; now right |].
      split; [discriminate | intros _; exact Ecause].
  - cbn [negb]. change (- EIO =? 0) with false. cbn [negb].
    intros E. injection E as <- <- <-.
    split; [right; now left |]. split.
    + intros _. now apply Hblock.
    + intros H. now contradiction H.
Qed.

Lemma ftpfs_flush_failure_and_writes_witness :
  (- EIO = 0 \/ - EIO = - EIO \/ - EIO = - ENOENT)
  /\ (- EIO = - EIO ->
      forall wbuf size offset wa,
        ftpfs_write path_id "/f" wbuf size offset wa
          (snd (fst (ftpfs_flush path_id "/f"
                       (mk_flush_answer 0%N (mk_getattr_answer 0%N (Some 3)))
                       idle (uploading 5))))
          (snd (ftpfs_flush path_id "/f"
                  (mk_flush_answer 0%N (mk_getattr_answer 0%N (Some 3)))
                  idle (uploading 5)))
        = (- EIO,
           snd (fst (ftpfs_flush path_id "/f"
                       (mk_flush_answer 0%N (mk_getattr_answer 0%N (Some 3)))
                       idle (uploading 5))),
           snd (ftpfs_flush path_id "/f"
                  (mk_flush_answer 0%N (mk_getattr_answer 0%N (Some 3)))
                  idle (uploading 5))))
  /\ (- EIO <> - EIO ->
      write_fail_cause
        (snd (ftpfs_flush path_id "/f"
                (mk_flush_answer 0%N (mk_getattr_answer 0%N (Some 3)))
                idle (uploading 5))) = 0).
Proof.
  apply (ftpfs_flush_failure_and_writes path_id "/f"
           (mk_flush_answer 0%N (mk_getattr_answer 0%N (Some 3)))
           idle (uploading 5)).
  - reflexivity.
  - vm_compute. reflexivity.
Defined.
